(** * PhysioHome: appointment scheduling over the MySQL schema

    A shallow embedding of the scheduling core of [server.js] (the
    Express handlers [POST /api/appointments] and
    [PUT /api/appointments/:id/status]) and of the part of
    [database.sql] they run against: the tables, the unique key
    [unique_appointment], the three triggers on [appointments] and the
    stored procedure [GetAvailableTimeSlots].

    Tables are lists of rows in insertion order; the columns that no
    statement of the scheduling core reads or compares (the timestamps
    [created_at] and [updated_at], payment status, names) are left
    out.  A handler is a
    sequence of [pool.execute] calls, each one atomic in the database;
    between two calls of one request the calls of other requests may
    run, which is how two bookings of one slot race.

    A text is a [string] whose elements are its characters: the code
    points U+0000 to U+00FF, one [ascii] each, so that the length of
    the string is the number of characters, as JavaScript and the
    [VARCHAR] columns count them.  Texts with other characters are
    left out. *)

From Stdlib Require Import ZArith List String Ascii Bool Lia.
From Stdlib Require Import Permutation Sorted.
Import ListNotations.
Local Open Scope Z_scope.

(* ================================================================== *)
(** ** SQL values: dates, times, decimals *)
(* ================================================================== *)

Module Calendar.

(** A [DATE] value. *)
Record date := mkDate { year : Z; month : Z; day : Z }.

Definition date_eqb (a b : date) : bool :=
  (year a =? year b) && (month a =? month b) && (day a =? day b).

Definition leap_year (y : Z) : bool :=
  ((y mod 4 =? 0) && negb (y mod 100 =? 0)) || (y mod 400 =? 0).

Definition days_in_month (y m : Z) : Z :=
  if m =? 2 then (if leap_year y then 29 else 28)
  else if (m =? 4) || (m =? 6) || (m =? 9) || (m =? 11) then 30
  else 31.

(** The dates MySQL stores in a [DATE] column under the strict SQL
    mode: real days of the civil calendar. *)
Definition valid_date (d : date) : bool :=
  (1 <=? year d) && (year d <=? 9999) &&
  (1 <=? month d) && (month d <=? 12) &&
  (1 <=? day d) && (day d <=? days_in_month (year d) (month d)).

(** Days since 1970-01-01 in the proleptic Gregorian calendar. *)
Definition days_from_civil (d : date) : Z :=
  let y := if month d <=? 2 then year d - 1 else year d in
  let era := y / 400 in
  let yoe := y - era * 400 in
  let mp := (month d + 9) mod 12 in
  let doy := (153 * mp + 2) / 5 + day d - 1 in
  let doe := yoe * 365 + yoe / 4 - yoe / 100 + doy in
  era * 146097 + doe - 719468.

(** Day of the week, 0 = Sunday .. 6 = Saturday (1970-01-01 was a
    Thursday). *)
Definition weekday (d : date) : Z := (days_from_civil d + 4) mod 7.

(** MySQL's [DAYOFWEEK]: 1 = Sunday .. 7 = Saturday, [NULL] for a
    value that is no date. *)
Definition DAYOFWEEK (d : date) : option Z :=
  if valid_date d then Some (weekday d + 1) else None.

(** A [TIME] value, in seconds since midnight. *)
Definition time := Z.

Definition time_of_hm (h m : Z) : time := h * 3600 + m * 60.

Definition digit (n : Z) : ascii := ascii_of_nat (48 + Z.to_nat (n mod 10)).

Definition pad2 (n : Z) : string :=
  String (digit (n / 10)) (String (digit n) EmptyString).

Definition pad4 (n : Z) : string :=
  String (digit (n / 1000)) (String (digit (n / 100)) (pad2 n)).

(** [DATE_FORMAT(d, '%d/%m/%Y')] *)
Definition DATE_FORMAT_dmY (d : date) : string :=
  (pad2 (day d) ++ "/" ++ pad2 (month d) ++ "/" ++ pad4 (year d))%string.

(** [TIME_FORMAT(t, '%H:%i')] *)
Definition TIME_FORMAT_Hi (t : time) : string :=
  (pad2 (t / 3600) ++ ":" ++ pad2 ((t / 60) mod 60))%string.

End Calendar.
Import Calendar.

Module Decimal.

(** A [DECIMAL(10,2)] value is kept as its number of hundredths. *)
Definition decimal_10_2 := Z.

Definition max_decimal_10_2 : Z := 9999999999.

(** Division of exact values rounds half away from zero. *)
Definition round_div (a b : Z) : Z :=
  if 0 <=? a then (2 * a + b) / (2 * b) else - ((2 * (- a) + b) / (2 * b)).

(** MySQL holds an exact value in words of nine decimal digits.  The
    quotient of two [INT]s is carried with one such word after the
    point, cut off, not rounded; the four decimals of
    [div_precision_increment] are only the scale it is shown with.
    (The manual's own example, (14620 / 9432456) / (24250 / 9432456)
    = 0.60288653, is the quotient of the two nine-decimal values.) *)
Definition quotient_scale : Z := 1000000000.

(** [n / 60], as a number of 1/10^9. *)
Definition int_div_60 (n : Z) : Z := Z.quot (n * quotient_scale) 60.

(** [rate * q] for a [DECIMAL(10,2)] rate and a nine-decimal [q]:
    exact, eleven decimals. *)
Definition mul_decimal (rate q : Z) : Z := rate * q.

Inductive store_error := OUT_OF_RANGE.

(** Assigning an eleven-decimal value to a [DECIMAL(10,2)] column
    rounds it to two decimals; a value that does not fit is an error
    (strict SQL mode). *)
Definition to_decimal_10_2 (v11 : Z) : store_error + decimal_10_2 :=
  let c := round_div v11 quotient_scale in
  if Z.abs c <=? max_decimal_10_2 then inr c else inl OUT_OF_RANGE.

End Decimal.
Import Decimal.

(* ================================================================== *)
(** ** The schema of database.sql *)
(* ================================================================== *)

(** [users.role] *)
Inductive role := admin | therapist | patient.

Definition role_eqb (a b : role) : bool :=
  match a, b with
  | admin, admin | therapist, therapist | patient, patient => true
  | _, _ => false
  end.

(** [appointments.status] *)
Inductive status :=
  scheduled | confirmed | in_progress | completed | cancelled | no_show.

Definition status_eqb (a b : status) : bool :=
  match a, b with
  | scheduled, scheduled | confirmed, confirmed
  | in_progress, in_progress | completed, completed
  | cancelled, cancelled | no_show, no_show => true
  | _, _ => false
  end.

Definition status_name (s : status) : string :=
  match s with
  | scheduled => "scheduled"
  | confirmed => "confirmed"
  | in_progress => "in_progress"
  | completed => "completed"
  | cancelled => "cancelled"
  | no_show => "no_show"
  end.

(** [status NOT IN ('cancelled', 'completed')] *)
Definition status_not_in_cancelled_completed (s : status) : bool :=
  negb (status_eqb s cancelled || status_eqb s completed).

Record users_row := {
  u_id : Z;
  u_role : role;
  u_is_active : bool }.

Record therapists_row := {
  th_id : Z;
  th_user_id : Z;
  th_hourly_rate : decimal_10_2 }.

(** The columns of [appointments] that a statement of the scheduling
    core reads, compares or names; [created_at], [updated_at],
    [therapist_notes], [payment_status] and [cancellation_reason] are
    left out. *)
Record appointments_row := {
  a_id : Z;
  a_patient_id : Z;
  a_therapist_id : Z;
  a_appointment_date : date;
  a_appointment_time : time;
  a_service_type : string;
  a_status : status;
  a_duration_minutes : Z;
  a_notes : option string;
  a_patient_address : string;
  a_total_cost : option decimal_10_2 }.

Record therapist_availability_row := {
  ta_id : Z;
  ta_therapist_id : Z;
  ta_day_of_week : Z;
  ta_start_time : time;
  ta_end_time : time;
  ta_is_available : bool }.

Record notifications_row := {
  n_id : Z;
  n_user_id : Z;
  n_title : string;
  n_message : string;
  n_type : string;
  n_related_id : option Z;
  n_related_type : option string }.

(** A JSON object with string members, as [JSON_OBJECT] builds it. *)
Definition json_object := list (string * string).

Record audit_logs_row := {
  al_id : Z;
  al_user_id : option Z;
  al_action : string;
  al_table_name : string;
  al_record_id : option Z;
  al_old_values : json_object;
  al_new_values : json_object }.

(** The database: one list per table and the [AUTO_INCREMENT] counters
    of the tables the scheduling core inserts into. *)
Record Db := {
  users : list users_row;
  therapists : list therapists_row;
  appointments : list appointments_row;
  therapist_availability : list therapist_availability_row;
  notifications : list notifications_row;
  audit_logs : list audit_logs_row;
  appointments_auto_increment : Z;
  notifications_auto_increment : Z;
  audit_logs_auto_increment : Z }.

(** Errors a statement can end with. *)
Inductive sql_error :=
| ER_DUP_ENTRY
| ER_NO_REFERENCED_ROW
| ER_TOO_MANY_ROWS
| ER_SUBQUERY_NO_1_ROW
| ER_TRUNCATED_WRONG_VALUE
| ER_WARN_DATA_OUT_OF_RANGE
| ER_DATA_TOO_LONG.

Definition sql_result (A : Type) : Type := sum sql_error A.

Definition sql_bind {A B} (m : sql_result A) (k : A -> sql_result B)
  : sql_result B :=
  match m with
  | inl e => inl e
  | inr a => k a
  end.

Notation "x <- m ;; k" := (sql_bind m (fun x => k))
  (at level 61, m at next level, right associativity).

(** A comparison [a = b] of two nullable integers selects a row only
    when it is true; with a [NULL] operand it is not. *)
Definition sql_eq (a b : option Z) : bool :=
  match a, b with
  | Some x, Some y => x =? y
  | _, _ => false
  end.

(** Whether a text fits a [VARCHAR(n)] column: [n] characters. *)
Definition fits (n : nat) (s : string) : bool := (String.length s <=? n)%nat.

(** The bytes a text takes in utf8mb4, the character set of the
    database: one for a character below U+0080, two for the others. *)
Fixpoint utf8mb4_length (s : string) : Z :=
  match s with
  | EmptyString => 0
  | String c s' =>
      (if (nat_of_ascii c <? 128)%nat then 1 else 2) + utf8mb4_length s'
  end.

(** Whether a nullable text fits a [TEXT] column: 65535 bytes. *)
Definition fits_text (s : option string) : bool :=
  match s with
  | None => true
  | Some s => utf8mb4_length s <=? 65535
  end.

(** [COALESCE(a, b)] *)
Definition COALESCE {A} (a b : option A) : option A :=
  match a with
  | Some _ => a
  | None => b
  end.

(** [SELECT ... INTO v]: no row leaves [v] as it was ([NULL]), two
    rows or more are an error. *)
Definition select_into {A} (rows : list A) : sql_result (option A) :=
  match rows with
  | [] => inr None
  | [x] => inr (Some x)
  | _ :: _ :: _ => inl ER_TOO_MANY_ROWS
  end.

(** A subquery used as a scalar. *)
Definition scalar_subquery {A} (rows : list A) : sql_result (option A) :=
  match rows with
  | [] => inr None
  | [x] => inr (Some x)
  | _ :: _ :: _ => inl ER_SUBQUERY_NO_1_ROW
  end.

(** [ORDER BY key]: a stable insertion sort on an integer key. *)
Fixpoint insert_by {A} (key : A -> Z) (x : A) (l : list A) : list A :=
  match l with
  | [] => [x]
  | y :: l' => if key x <=? key y then x :: l else y :: insert_by key x l'
  end.

Fixpoint order_by {A} (key : A -> Z) (l : list A) : list A :=
  match l with
  | [] => []
  | x :: l' => insert_by key x (order_by key l')
  end.

(** The order of [ORDER BY key]. *)
Definition le_by {A} (key : A -> Z) (a b : A) : Prop := key a <= key b.

Definition user_exists (db : Db) (id : Z) : bool :=
  existsb (fun u => u_id u =? id) (users db).

(** The key of [UNIQUE KEY unique_appointment]. *)
Definition slot_key (a : appointments_row) : Z * date * time :=
  (a_therapist_id a, a_appointment_date a, a_appointment_time a).

Definition same_slot (a b : appointments_row) : bool :=
  (a_therapist_id a =? a_therapist_id b) &&
  date_eqb (a_appointment_date a) (a_appointment_date b) &&
  (a_appointment_time a =? a_appointment_time b).

Definition with_total_cost (a : appointments_row) (c : option decimal_10_2)
  : appointments_row :=
  {| a_id := a_id a; a_patient_id := a_patient_id a;
     a_therapist_id := a_therapist_id a;
     a_appointment_date := a_appointment_date a;
     a_appointment_time := a_appointment_time a;
     a_service_type := a_service_type a; a_status := a_status a;
     a_duration_minutes := a_duration_minutes a; a_notes := a_notes a;
     a_patient_address := a_patient_address a; a_total_cost := c |}.

Definition with_status_notes (a : appointments_row) (s : status)
  (n : option string) : appointments_row :=
  {| a_id := a_id a; a_patient_id := a_patient_id a;
     a_therapist_id := a_therapist_id a;
     a_appointment_date := a_appointment_date a;
     a_appointment_time := a_appointment_time a;
     a_service_type := a_service_type a; a_status := s;
     a_duration_minutes := a_duration_minutes a; a_notes := n;
     a_patient_address := a_patient_address a;
     a_total_cost := a_total_cost a |}.

Definition with_appointments (db : Db) (l : list appointments_row) (next : Z)
  : Db :=
  {| users := users db; therapists := therapists db; appointments := l;
     therapist_availability := therapist_availability db;
     notifications := notifications db; audit_logs := audit_logs db;
     appointments_auto_increment := next;
     notifications_auto_increment := notifications_auto_increment db;
     audit_logs_auto_increment := audit_logs_auto_increment db |}.

Definition with_notifications (db : Db) (l : list notifications_row)
  (next : Z) : Db :=
  {| users := users db; therapists := therapists db;
     appointments := appointments db;
     therapist_availability := therapist_availability db;
     notifications := l; audit_logs := audit_logs db;
     appointments_auto_increment := appointments_auto_increment db;
     notifications_auto_increment := next;
     audit_logs_auto_increment := audit_logs_auto_increment db |}.

Definition with_audit_logs (db : Db) (l : list audit_logs_row) (next : Z)
  : Db :=
  {| users := users db; therapists := therapists db;
     appointments := appointments db;
     therapist_availability := therapist_availability db;
     notifications := notifications db; audit_logs := l;
     appointments_auto_increment := appointments_auto_increment db;
     notifications_auto_increment := notifications_auto_increment db;
     audit_logs_auto_increment := next |}.

(* ================================================================== *)
(** ** Triggers *)
(* ================================================================== *)

(** [SELECT hourly_rate FROM therapists t JOIN users u
     ON t.user_id = u.id WHERE u.id = NEW.therapist_id] *)
Definition select_hourly_rate (db : Db) (therapist_id : Z)
  : list decimal_10_2 :=
  flat_map (fun t =>
    flat_map (fun u =>
      if (th_user_id t =? u_id u) && (u_id u =? therapist_id)
      then [th_hourly_rate t] else [])
      (users db))
    (therapists db).

(** [therapist_rate * (NEW.duration_minutes / 60)]; [NULL] when the
    rate is. *)
Definition cost_expression (therapist_rate : option decimal_10_2)
  (duration_minutes : Z) : option Z :=
  match therapist_rate with
  | None => None
  | Some rate => Some (mul_decimal rate (int_div_60 duration_minutes))
  end.

(** [BEFORE INSERT ON appointments] *)
Definition calculate_appointment_cost (db : Db) (NEW : appointments_row)
  : sql_result appointments_row :=
  therapist_rate <- select_into (select_hourly_rate db (a_therapist_id NEW)) ;;
  match a_total_cost NEW with
  | Some _ => inr NEW
  | None =>
      match cost_expression therapist_rate (a_duration_minutes NEW) with
      | None => inr NEW
      | Some v =>
          match to_decimal_10_2 v with
          | inl _ => inl ER_WARN_DATA_OUT_OF_RANGE
          | inr c => inr (with_total_cost NEW (Some c))
          end
      end
  end.

(** [INSERT INTO notifications (user_id, title, message, type,
    related_id, related_type)]; [user_id] references [users(id)]. *)
Definition insert_into_notifications (user_id : Z) (title message type : string)
  (related_id : Z) (related_type : string) (db : Db) : sql_result Db :=
  if user_exists db user_id then
    inr (with_notifications db
           (notifications db ++
            [{| n_id := notifications_auto_increment db;
                n_user_id := user_id; n_title := title;
                n_message := message; n_type := type;
                n_related_id := Some related_id;
                n_related_type := Some related_type |}])
           (notifications_auto_increment db + 1))
  else inl ER_NO_REFERENCED_ROW.

(** [AFTER INSERT ON appointments] *)
Definition create_appointment_notification (NEW : appointments_row) (db : Db)
  : sql_result Db :=
  db1 <- insert_into_notifications (a_therapist_id NEW) "Appointment Baru"
           ("Anda memiliki appointment baru pada " ++
            DATE_FORMAT_dmY (a_appointment_date NEW) ++ " jam " ++
            TIME_FORMAT_Hi (a_appointment_time NEW))%string
           "appointment" (a_id NEW) "appointment" db ;;
  insert_into_notifications (a_patient_id NEW) "Appointment Terkonfirmasi"
    ("Appointment Anda telah terjadwal pada " ++
     DATE_FORMAT_dmY (a_appointment_date NEW) ++ " jam " ++
     TIME_FORMAT_Hi (a_appointment_time NEW))%string
    "appointment" (a_id NEW) "appointment" db1.

(** [INSERT INTO audit_logs (user_id, action, table_name, record_id,
    old_values, new_values, created_at)] *)
Definition insert_into_audit_logs (user_id : Z) (action table_name : string)
  (record_id : Z) (old_values new_values : json_object) (db : Db)
  : sql_result Db :=
  if user_exists db user_id then
    inr (with_audit_logs db
           (audit_logs db ++
            [{| al_id := audit_logs_auto_increment db;
                al_user_id := Some user_id; al_action := action;
                al_table_name := table_name;
                al_record_id := Some record_id;
                al_old_values := old_values;
                al_new_values := new_values |}])
           (audit_logs_auto_increment db + 1))
  else inl ER_NO_REFERENCED_ROW.

(** [AFTER UPDATE ON appointments] *)
Definition log_appointment_changes (OLD NEW : appointments_row) (db : Db)
  : sql_result Db :=
  if negb (status_eqb (a_status OLD) (a_status NEW)) then
    insert_into_audit_logs (a_patient_id NEW) "status_change" "appointments"
      (a_id NEW)
      [("status"%string, status_name (a_status OLD))]
      [("status"%string, status_name (a_status NEW))] db
  else inr db.

(* ================================================================== *)
(** ** Statements *)
(* ================================================================== *)

(** The columns an [INSERT INTO appointments] may name.  A column left
    out takes its default: [status] 'scheduled', [duration_minutes] 60,
    [total_cost] [NULL]. *)
Record appointments_values := {
  v_patient_id : Z;
  v_therapist_id : Z;
  v_appointment_date : date;
  v_appointment_time : time;
  v_service_type : string;
  v_notes : option string;
  v_patient_address : string;
  v_status : option status;
  v_duration_minutes : option Z;
  v_total_cost : option decimal_10_2 }.

Definition default {A} (o : option A) (d : A) : A :=
  match o with
  | Some x => x
  | None => d
  end.

Definition new_row (db : Db) (v : appointments_values) : appointments_row :=
  {| a_id := appointments_auto_increment db;
     a_patient_id := v_patient_id v;
     a_therapist_id := v_therapist_id v;
     a_appointment_date := v_appointment_date v;
     a_appointment_time := v_appointment_time v;
     a_service_type := v_service_type v;
     a_status := default (v_status v) scheduled;
     a_duration_minutes := default (v_duration_minutes v) 60;
     a_notes := v_notes v;
     a_patient_address := v_patient_address v;
     a_total_cost := v_total_cost v |}.

(** [INSERT INTO appointments]: the values as their columns take them
    ([appointment_date] a [DATE], [service_type] a [VARCHAR(100)],
    [notes] and [patient_address] [TEXT]), the BEFORE trigger, the
    unique key, the foreign keys, the row, the AFTER trigger.  A
    failure at any point leaves the database as it was.  The result is
    the [insertId].  The server runs in strict SQL mode, the default:
    a day that does not exist and a text that does not fit its column
    are errors.  (Where all that is over the length of a column are
    spaces MySQL cuts them off instead: a case left out.) *)
Definition insert_into_appointments (v : appointments_values) (db : Db)
  : sql_result (Z * Db) :=
  if negb (valid_date (v_appointment_date v)) then inl ER_TRUNCATED_WRONG_VALUE
  else if negb (fits 100 (v_service_type v) && fits_text (v_notes v) &&
                fits_text (Some (v_patient_address v)))
  then inl ER_DATA_TOO_LONG
  else
    NEW <- calculate_appointment_cost db (new_row db v) ;;
    if existsb (same_slot NEW) (appointments db) then inl ER_DUP_ENTRY
    else if negb (user_exists db (a_patient_id NEW) &&
                  user_exists db (a_therapist_id NEW))
    then inl ER_NO_REFERENCED_ROW
    else
      db' <- create_appointment_notification NEW
               (with_appointments db (appointments db ++ [NEW])
                  (appointments_auto_increment db + 1)) ;;
      inr (a_id NEW, db').

(** [UPDATE appointments SET status = ?, notes = COALESCE(?, notes),
    updated_at = NOW() WHERE id = ?], row by row, the AFTER UPDATE
    trigger after each row.  [aux] carries the tables the trigger
    writes.  The notes of the statement must fit the column, as for
    the INSERT; the notes a row has are in the column already.  The
    column [updated_at], which the statement sets in every row it
    changes, is not among the columns of [appointments_row]. *)
Fixpoint update_rows (status' : status) (notes' : option string) (id : Z)
  (rows : list appointments_row) (aux : Db)
  : sql_result (list appointments_row * Db) :=
  match rows with
  | [] => inr ([], aux)
  | OLD :: rest =>
      if a_id OLD =? id then
        if negb (fits_text notes') then inl ER_DATA_TOO_LONG
        else
        let NEW :=
          with_status_notes OLD status' (COALESCE notes' (a_notes OLD)) in
        aux1 <- log_appointment_changes OLD NEW aux ;;
        r <- update_rows status' notes' id rest aux1 ;;
        inr (NEW :: fst r, snd r)
      else
        r <- update_rows status' notes' id rest aux ;;
        inr (OLD :: fst r, snd r)
  end.

Definition update_appointments (status' : status) (notes' : option string)
  (id : Z) (db : Db) : sql_result Db :=
  r <- update_rows status' notes' id (appointments db) db ;;
  inr (with_appointments (snd r) (fst r) (appointments_auto_increment db)).

(** [SELECT id FROM users WHERE id = ? AND role = "therapist" AND
    is_active = 1] *)
Definition select_therapist (db : Db) (therapist_id : Z) : list Z :=
  map u_id
    (filter (fun u => (u_id u =? therapist_id) &&
                      role_eqb (u_role u) therapist && u_is_active u)
       (users db)).

(** [SELECT id FROM appointments WHERE therapist_id = ? AND
    appointment_date = ? AND appointment_time = ? AND status NOT IN
    ('cancelled', 'completed')] *)
Definition conflicting (therapist_id : Z) (d : date) (t : time)
  (a : appointments_row) : bool :=
  (a_therapist_id a =? therapist_id) &&
  date_eqb (a_appointment_date a) d &&
  (a_appointment_time a =? t) &&
  status_not_in_cancelled_completed (a_status a).

Definition select_conflicts (db : Db) (therapist_id : Z) (d : date) (t : time)
  : list Z :=
  map a_id (filter (conflicting therapist_id d t) (appointments db)).

(** [SELECT * FROM appointments WHERE id = ? AND (patient_id = ? OR
    therapist_id = ? OR ? = 'admin')] *)
Definition select_appointment (db : Db) (id userId : Z) (r : role)
  : list appointments_row :=
  filter (fun a => (a_id a =? id) &&
                   ((a_patient_id a =? userId) ||
                    (a_therapist_id a =? userId) || role_eqb r admin))
    (appointments db).

(** The columns of the handler's INSERT: [(patient_id, therapist_id,
    appointment_date, appointment_time, service_type, notes,
    patient_address, status, created_at) VALUES (?, ?, ?, ?, ?, ?, ?,
    'scheduled', NOW())]. *)
Definition scheduled_values (patient_id therapist_id : Z) (d : date)
  (t : time) (service_type : string) (notes : option string)
  (address : string) : appointments_values :=
  {| v_patient_id := patient_id; v_therapist_id := therapist_id;
     v_appointment_date := d; v_appointment_time := t;
     v_service_type := service_type; v_notes := notes;
     v_patient_address := address; v_status := Some scheduled;
     v_duration_minutes := None; v_total_cost := None |}.

(** The statements the two handlers send through [pool.execute], by
    the type of their result. *)
Inductive statement : Type -> Type :=
| SELECT_therapist (therapist_id : Z) : statement (list Z)
| SELECT_conflicts (therapist_id : Z) (d : date) (t : time)
    : statement (list Z)
| INSERT_appointment (patient_id therapist_id : Z) (d : date) (t : time)
    (service_type : string) (notes : option string) (address : string)
    : statement Z
| SELECT_appointment (id userId : Z) (r : role)
    : statement (list appointments_row)
| UPDATE_appointment (s : status) (notes : option string) (id : Z)
    : statement unit.

Definition execute {A} (q : statement A) (db : Db) : sql_result A * Db :=
  match q in statement T return sql_result T * Db with
  | SELECT_therapist therapist_id =>
      (inr (select_therapist db therapist_id), db)
  | SELECT_conflicts therapist_id d t =>
      (inr (select_conflicts db therapist_id d t), db)
  | INSERT_appointment patient_id therapist_id d t service_type notes address =>
      match insert_into_appointments
              (scheduled_values patient_id therapist_id d t service_type
                 notes address) db with
      | inl e => (inl e, db)
      | inr r => (inr (fst r), snd r)
      end
  | SELECT_appointment id userId r =>
      (inr (select_appointment db id userId r), db)
  | UPDATE_appointment s notes id =>
      match update_appointments s notes id db with
      | inl e => (inl e, db)
      | inr db' => (inr tt, db')
      end
  end.

(* ================================================================== *)
(** ** The stored procedure GetAvailableTimeSlots *)
(* ================================================================== *)

Record time_slot := {
  start_time : time;
  end_time : time;
  slot_time : time }.

Definition slot_of (ta : therapist_availability_row) : time_slot :=
  {| start_time := ta_start_time ta; end_time := ta_end_time ta;
     slot_time := ta_start_time ta |}.

(** [SELECT TIME(a.appointment_time) FROM appointments a WHERE
    a.therapist_id = therapist_user_id AND a.appointment_date =
    appointment_date AND a.status NOT IN ('cancelled', 'completed')] *)
Definition booked_times (db : Db) (therapist_user_id : Z)
  (appointment_date : date) : list time :=
  map a_appointment_time
    (filter (fun a => (a_therapist_id a =? therapist_user_id) &&
                      date_eqb (a_appointment_date a) appointment_date &&
                      status_not_in_cancelled_completed (a_status a))
       (appointments db)).

(** The WHERE clause of the procedure's SELECT. *)
Definition slot_selected (db : Db) (profile day_of_week : option Z)
  (therapist_user_id : Z) (appointment_date : date)
  (ta : therapist_availability_row) : bool :=
  sql_eq (Some (ta_therapist_id ta)) profile &&
  sql_eq (Some (ta_day_of_week ta)) day_of_week &&
  ta_is_available ta &&
  negb (existsb (Z.eqb (ta_start_time ta))
          (booked_times db therapist_user_id appointment_date)).

Definition GetAvailableTimeSlots (therapist_user_id : Z)
  (appointment_date : date) (db : Db) : sql_result (list time_slot) * Db :=
  let day_of_week := option_map (fun n => n - 1) (DAYOFWEEK appointment_date) in
  match scalar_subquery
          (map th_id
             (filter (fun t => th_user_id t =? therapist_user_id)
                (therapists db))) with
  | inl e => (inl e, db)
  | inr profile =>
      (inr (map slot_of
              (order_by ta_start_time
                 (filter (slot_selected db profile day_of_week
                            therapist_user_id appointment_date)
                    (therapist_availability db)))), db)
  end.

(* ================================================================== *)
(** ** The Express handlers of server.js *)
(* ================================================================== *)

(** [req.user], the claims of the verified token: the handlers are
    taken from the point where [authenticateToken] has let the request
    through. *)
Record jwt_user := {
  userId : Z;
  user_role : role }.

Inductive json_body :=
| error_body (error : string)
| validation_failed_body
| booked_body (message : string) (appointmentId : Z)
| message_body (message : string).

(** [res.status(code).json(body)] *)
Record response := {
  code : Z;
  body : json_body }.

(** The error kinds of the scheduling API, by HTTP status. *)
Inductive error_kind :=
  ValidationError | NotFoundError | ConflictError | ForbiddenError
| InternalError.

Definition kind_of (r : response) : option error_kind :=
  if code r =? 400 then Some ValidationError
  else if code r =? 404 then Some NotFoundError
  else if code r =? 409 then Some ConflictError
  else if code r =? 403 then Some ForbiddenError
  else if code r =? 500 then Some InternalError
  else None.

(** A request in progress: it has answered, or it awaits the result of
    one statement and goes on from it. *)
Inductive handler (R : Type) : Type :=
| Respond (r : R)
| Await {A : Type} (q : statement A) (k : sql_result A -> handler R).

Arguments Respond {R} r.
Arguments Await {R A} q k.

Definition internal_server_error : response :=
  {| code := 500; body := error_body "Internal server error" |}.

(** [await pool.execute(q)] inside [try { ... } catch (error)
    { res.status(500).json(...) }]. *)
Definition try_await {A} (q : statement A) (k : A -> handler response)
  : handler response :=
  Await q (fun r =>
    match r with
    | inl _ => Respond internal_server_error
    | inr a => k a
    end).

(** A member of a JSON body that a handler passes on as it finds it:
    absent from the body ([undefined] after the destructuring), or
    present with the JSON value [null] ([None]) or a text. *)
Inductive json_member :=
| absent
| present (v : option string).

(** The value a member reaches a statement with, SQL [NULL] for
    [null]. *)
Definition bound_value (m : json_member) : option string :=
  match m with
  | absent => None
  | present v => v
  end.

(** [pool.execute(sql, [..., m, ...])]: mysql2 refuses a parameter
    that is [undefined] with an exception, before it sends anything;
    the [catch] of the handler answers it like a failed statement. *)
Definition bind_parameter (m : json_member)
  (k : option string -> handler response) : handler response :=
  match m with
  | absent => Respond internal_server_error
  | present v => k v
  end.

(** The body of [POST /api/appointments] after JSON decoding.  A
    validated member that is missing or of the wrong shape is [None];
    the date is the calendar date its text [YYYY-MM-DD] names, the
    time the hour and minute of its [H:MM] text.  The other texts
    [isISO8601()] lets through (basic format, week and ordinal dates,
    a date with a time) are left out.  The member [notes], which no
    validator looks at, is carried as it is. *)
Record appointment_body := {
  b_therapist_id : option Z;
  b_appointment_date : option date;
  b_appointment_time : option (Z * Z);
  b_service_type : string;
  b_notes : json_member;
  b_address : string;
  b_other_members : list (string * string) }.

(** The characters [/\s/] matches in JavaScript, of those a text
    has here: tab, line feed, vertical tab, form feed, carriage
    return, space and U+00A0, the no-break space. *)
Definition is_space (c : ascii) : bool :=
  match nat_of_ascii c with
  | 9%nat | 10%nat | 11%nat | 12%nat | 13%nat | 32%nat | 160%nat => true
  | _ => false
  end.

Fixpoint ltrim (s : string) : string :=
  match s with
  | EmptyString => EmptyString
  | String c s' => if is_space c then ltrim s' else s
  end.

Fixpoint rtrim (s : string) : string :=
  match s with
  | EmptyString => EmptyString
  | String c s' =>
      match rtrim s' with
      | EmptyString => if is_space c then EmptyString else String c EmptyString
      | r => String c r
      end
  end.

(** The [trim()] sanitizer of validator.js: [ltrim] takes
    [/^\s+/] away, [rtrim] the white space at the end. *)
Definition trim (s : string) : string := rtrim (ltrim s).

Definition notEmpty (s : string) : bool :=
  match s with
  | EmptyString => false
  | String _ _ => true
  end.

(** [isISO8601()] on a text [YYYY-MM-DD]: the shape of a date, not
    whether the day exists. *)
Definition isISO8601 (d : date) : bool :=
  (0 <=? year d) && (year d <=? 9999) &&
  (1 <=? month d) && (month d <=? 12) &&
  (1 <=? day d) && (day d <=? 31).

(** [matches(/^([0-1]?[0-9]|2[0-3]):[0-5][0-9]$/)] *)
Definition matches_time (hm : Z * Z) : bool :=
  (0 <=? fst hm) && (fst hm <=? 23) && (0 <=? snd hm) && (snd hm <=? 59).

Definition validation_failed : response :=
  {| code := 400; body := validation_failed_body |}.

(** The handler proper of [POST /api/appointments], on the sanitized
    members, in its three blocks, last first. *)

(** "Create appointment" *)
Definition insert_appointment (patient_id therapist_id : Z)
  (appointment_date : date) (appointment_time : time)
  (service_type : string) (notes : json_member) (address : string)
  : handler response :=
  bind_parameter notes (fun notes =>
    try_await
      (INSERT_appointment patient_id therapist_id appointment_date
         appointment_time service_type notes address)
      (fun insertId =>
         Respond {| code := 201;
                    body := booked_body "Appointment booked successfully"
                              insertId |})).

Definition time_slot_already_booked : response :=
  {| code := 409; body := error_body "Time slot already booked" |}.

(** "Check for scheduling conflicts" *)
Definition check_conflicts (patient_id therapist_id : Z)
  (appointment_date : date) (appointment_time : time)
  (service_type : string) (notes : json_member) (address : string)
  : handler response :=
  try_await (SELECT_conflicts therapist_id appointment_date appointment_time)
    (fun conflicts =>
       if (0 <? List.length conflicts)%nat then
         Respond time_slot_already_booked
       else
         insert_appointment patient_id therapist_id appointment_date
           appointment_time service_type notes address).

(** "Check if therapist exists" *)
Definition create_appointment (user : jwt_user) (therapist_id : Z)
  (appointment_date : date) (appointment_time : time)
  (service_type : string) (notes : json_member) (address : string)
  : handler response :=
  let patient_id := userId user in
  try_await (SELECT_therapist therapist_id) (fun therapist =>
    if (List.length therapist =? 0)%nat then
      Respond {| code := 404; body := error_body "Therapist not found" |}
    else
      check_conflicts patient_id therapist_id appointment_date
        appointment_time service_type notes address).

(** [POST /api/appointments]: the validators and
    [handleValidationErrors], then the handler. *)
Definition post_appointments (user : jwt_user) (b : appointment_body)
  : handler response :=
  match b_therapist_id b, b_appointment_date b, b_appointment_time b with
  | Some therapist_id, Some d, Some hm =>
      if isISO8601 d && matches_time hm &&
         notEmpty (trim (b_service_type b)) && notEmpty (trim (b_address b))
      then
        create_appointment user therapist_id d
          (time_of_hm (fst hm) (snd hm))
          (trim (b_service_type b)) (b_notes b) (trim (b_address b))
      else Respond validation_failed
  | _, _, _ => Respond validation_failed
  end.

(** The body of [PUT /api/appointments/:id/status]; [notes] as
    above. *)
Record status_body := {
  b_status : string;
  b_status_notes : json_member }.

(** [isIn(["scheduled", "confirmed", "in_progress", "completed",
    "cancelled"])] *)
Definition recognized_status (s : string) : option status :=
  if String.eqb s "scheduled" then Some scheduled
  else if String.eqb s "confirmed" then Some confirmed
  else if String.eqb s "in_progress" then Some in_progress
  else if String.eqb s "completed" then Some completed
  else if String.eqb s "cancelled" then Some cancelled
  else None.

Definition update_appointment_status (user : jwt_user) (id : Z)
  (status' : status) (notes : json_member) : handler response :=
  try_await (SELECT_appointment id (userId user) (user_role user))
    (fun appointments =>
      if (List.length appointments =? 0)%nat then
        Respond {| code := 404; body := error_body "Appointment not found" |}
      else
        bind_parameter notes (fun notes =>
          try_await (UPDATE_appointment status' notes id) (fun _ =>
            Respond {| code := 200;
                       body := message_body
                                 "Appointment status updated successfully" |}))).

Definition put_appointment_status (user : jwt_user) (id : Z) (b : status_body)
  : handler response :=
  match recognized_status (b_status b) with
  | Some status' => update_appointment_status user id status' (b_status_notes b)
  | None => Respond validation_failed
  end.

(** *** Running handlers *)

(** A request served with no other request in between: the answer,
    the database after it and the number of statements it executed. *)
Fixpoint run {R} (h : handler R) (db : Db) : R * Db * nat :=
  match h with
  | Respond r => (r, db, 0%nat)
  | Await q k =>
      let '(r, db', n) := run (k (fst (execute q db))) (snd (execute q db)) in
      (r, db', S n)
  end.

Definition answer {R} (x : R * Db * nat) : R := fst (fst x).
Definition database {R} (x : R * Db * nat) : Db := snd (fst x).
Definition statements_executed {R} (x : R * Db * nat) : nat := snd x.

(** The next statement of a request, executed in the database of the
    moment. *)
Definition step_handler {R} (h : handler R) (db : Db) : handler R * Db :=
  match h with
  | Respond r => (h, db)
  | Await q k => (k (fst (execute q db)), snd (execute q db))
  end.

(** The server: the database and the requests in progress. *)
Record config := {
  store : Db;
  in_flight : list (handler response) }.

Inductive request : handler response -> Prop :=
| request_post user b : request (post_appointments user b)
| request_put user id b : request (put_appointment_status user id b).

(** One step of the server: a request arrives, a request in progress
    executes its next statement, a request answers and leaves, or one
    of the other routes (registration, login, therapist profile)
    writes to its own tables, [users] and [therapists]; none of them
    writes to [appointments]. *)
Inductive server_step : config -> config -> Prop :=
| step_other_route db db' hs :
    appointments db' = appointments db ->
    server_step {| store := db; in_flight := hs |}
                {| store := db'; in_flight := hs |}
| step_accept db hs h :
    request h ->
    server_step {| store := db; in_flight := hs |}
                {| store := db; in_flight := hs ++ [h] |}
| step_execute db pre post A (q : statement A) k :
    server_step {| store := db; in_flight := pre ++ Await q k :: post |}
                {| store := snd (execute q db);
                   in_flight := pre ++ k (fst (execute q db)) :: post |}
| step_respond db pre post r :
    server_step {| store := db; in_flight := pre ++ Respond r :: post |}
                {| store := db; in_flight := pre ++ post |}.

(** The request at position [i] executes its next statement. *)
Definition advance (i : nat) (c : config) : config :=
  match nth_error (in_flight c) i with
  | None => c
  | Some h =>
      {| store := snd (step_handler h (store c));
         in_flight := firstn i (in_flight c) ++
                      fst (step_handler h (store c)) ::
                      skipn (S i) (in_flight c) |}
  end.

(* ================================================================== *)
(** ** The sample data of database.sql *)
(* ================================================================== *)

Definition hm (h m : Z) : time := time_of_hm h m.

(** The rows of [INSERT INTO therapist_availability]: therapist, day,
    start and end hour; ids follow the order of the rows. *)
Definition sample_hours : list (Z * Z * Z * Z) :=
  [ (1, 1, 8, 17); (1, 2, 8, 17); (1, 3, 8, 17); (1, 4, 8, 17);
    (1, 5, 8, 17); (1, 6, 8, 14);
    (2, 1, 9, 18); (2, 2, 9, 18); (2, 3, 9, 18); (2, 4, 9, 18);
    (2, 5, 9, 18);
    (3, 1, 8, 16); (3, 2, 8, 16); (3, 3, 8, 16); (3, 4, 8, 16);
    (3, 5, 8, 16); (3, 6, 8, 12);
    (4, 1, 7, 15); (4, 2, 7, 15); (4, 3, 7, 15); (4, 4, 7, 15);
    (4, 5, 7, 15); (4, 6, 7, 13); (4, 0, 8, 12) ].

Fixpoint availability_rows (next : Z) (l : list (Z * Z * Z * Z))
  : list therapist_availability_row :=
  match l with
  | [] => []
  | (th, dow, s, e) :: l' =>
      {| ta_id := next; ta_therapist_id := th; ta_day_of_week := dow;
         ta_start_time := hm s 0; ta_end_time := hm e 0;
         ta_is_available := true |} :: availability_rows (next + 1) l'
  end.

Definition sample_appointment (id patient_id therapist_id : Z) (today : date)
  (t : time) (service : string) (s : status) (notes address : string)
  (cost : decimal_10_2) : appointments_row :=
  {| a_id := id; a_patient_id := patient_id; a_therapist_id := therapist_id;
     a_appointment_date := today; a_appointment_time := t;
     a_service_type := service; a_status := s; a_duration_minutes := 60;
     a_notes := Some notes; a_patient_address := address;
     a_total_cost := Some cost |}.

(** The database right after [database.sql] ran on the day [today]
    ([CURDATE()]).  The triggers are created after the sample rows, so
    these raise no notification. *)
Definition seed (today : date) : Db :=
  {| users :=
       [ {| u_id := 1; u_role := admin; u_is_active := true |};
         {| u_id := 2; u_role := therapist; u_is_active := true |};
         {| u_id := 3; u_role := therapist; u_is_active := true |};
         {| u_id := 4; u_role := therapist; u_is_active := true |};
         {| u_id := 5; u_role := therapist; u_is_active := true |};
         {| u_id := 6; u_role := patient; u_is_active := true |};
         {| u_id := 7; u_role := patient; u_is_active := true |};
         {| u_id := 8; u_role := patient; u_is_active := true |} ];
     therapists :=
       [ {| th_id := 1; th_user_id := 2; th_hourly_rate := 20000000 |};
         {| th_id := 2; th_user_id := 3; th_hourly_rate := 25000000 |};
         {| th_id := 3; th_user_id := 4; th_hourly_rate := 18000000 |};
         {| th_id := 4; th_user_id := 5; th_hourly_rate := 22000000 |} ];
     appointments :=
       [ sample_appointment 1 6 2 today (hm 9 0) "Ortopedi" in_progress
           "Nyeri punggung bawah" "Jl. Sudirman No. 123, Jakarta Pusat"
           20000000;
         sample_appointment 2 7 3 today (hm 10 0) "Neurologi" scheduled
           "Rehabilitasi pasca stroke" "Jl. Thamrin No. 456, Jakarta Pusat"
           25000000;
         sample_appointment 3 8 4 today (hm 11 0) "Pediatri" scheduled
           "Terapi perkembangan anak"
           "Jl. Gatot Subroto No. 789, Jakarta Selatan" 18000000 ];
     therapist_availability := availability_rows 1 sample_hours;
     notifications := [];
     audit_logs := [];
     appointments_auto_increment := 4;
     notifications_auto_increment := 1;
     audit_logs_auto_increment := 1 |}.

(** The states the server can be in: from the sample database, any
    number of steps. *)
Inductive reachable : config -> Prop :=
| reachable_seed today :
    valid_date today = true ->
    reachable {| store := seed today; in_flight := [] |}
| reachable_step c c' :
    reachable c -> server_step c c' -> reachable c'.

(* ================================================================== *)
(** ** Properties of a database *)
(* ================================================================== *)

(** [UNIQUE KEY unique_appointment (therapist_id, appointment_date,
    appointment_time)] *)
Definition unique_appointment (db : Db) : Prop :=
  NoDup (map slot_key (appointments db)).

(** [PRIMARY KEY] of [appointments]. *)
Definition primary_key_appointments (db : Db) : Prop :=
  NoDup (map a_id (appointments db)).

(** [UNIQUE] on [therapists.user_id]. *)
Definition unique_therapist_user (db : Db) : Prop :=
  NoDup (map th_user_id (therapists db)).

(** An appointment holds its slot unless it is cancelled or completed. *)
Definition holds_slot (a : appointments_row) : Prop :=
  a_status a <> cancelled /\ a_status a <> completed.

(** No two appointments that hold their slot share therapist, date and
    time. *)
Definition no_double_booking (db : Db) : Prop :=
  forall (i j : nat) (a b : appointments_row),
    nth_error (appointments db) i = Some a ->
    nth_error (appointments db) j = Some b ->
    holds_slot a -> holds_slot b ->
    slot_key a = slot_key b -> i = j.

(** The windows of [GetAvailableTimeSlots], in the words of its
    contract: a window of the therapist's profile, on the weekday of
    the date, active, whose start no appointment of that therapist and
    date holds. *)
Definition bookable (db : Db) (therapist_user_id : Z) (d : date)
  (ta : therapist_availability_row) : Prop :=
  (exists t, In t (therapists db) /\ th_user_id t = therapist_user_id /\
             ta_therapist_id ta = th_id t) /\
  ta_day_of_week ta = weekday d /\
  ta_is_available ta = true /\
  ~ (exists a, In a (appointments db) /\
               a_therapist_id a = therapist_user_id /\
               a_appointment_date a = d /\
               holds_slot a /\
               a_appointment_time a = ta_start_time ta).

(* ================================================================== *)
(** ** Sample requests *)
(* ================================================================== *)

(** 2024-06-10, a Monday. *)
Definition monday : date := mkDate 2024 6 10.

(** The users of the sample data, as token claims. *)
Definition the_admin : jwt_user := {| userId := 1; user_role := admin |}.
Definition sarah : jwt_user := {| userId := 2; user_role := therapist |}.
Definition anna : jwt_user := {| userId := 7; user_role := patient |}.
Definition michael : jwt_user := {| userId := 8; user_role := patient |}.

Definition booking (therapist_id : Z) (d : date) (h m : Z) : appointment_body :=
  {| b_therapist_id := Some therapist_id;
     b_appointment_date := Some d;
     b_appointment_time := Some (h, m);
     b_service_type := "Ortopedi";
     b_notes := present None;
     b_address := "Jl. Sudirman No. 123, Jakarta Pusat";
     b_other_members := [] |}.

(** A body [{status, notes}], and a body [{status}]. *)
Definition set_status (s : string) (notes : option string) : status_body :=
  {| b_status := s; b_status_notes := present notes |}.


(** The sample database with another hourly rate for Sarah, as
    [POST /api/therapists/profile] lets her set it. *)
Definition seed_with_rate (today : date) (rate : decimal_10_2) : Db :=
  let db := seed today in
  {| users := users db;
     therapists :=
       {| th_id := 1; th_user_id := 2; th_hourly_rate := rate |}
       :: tl (therapists db);
     appointments := appointments db;
     therapist_availability := therapist_availability db;
     notifications := notifications db; audit_logs := audit_logs db;
     appointments_auto_increment := appointments_auto_increment db;
     notifications_auto_increment := notifications_auto_increment db;
     audit_logs_auto_increment := audit_logs_auto_increment db |}.

(** An INSERT that names [duration_minutes] and leaves [total_cost]
    out. *)
Definition session (patient_id therapist_id : Z) (d : date) (t : time)
  (duration_minutes : Z) : appointments_values :=
  {| v_patient_id := patient_id; v_therapist_id := therapist_id;
     v_appointment_date := d; v_appointment_time := t;
     v_service_type := "Ortopedi"; v_notes := None;
     v_patient_address := "Jl. Sudirman No. 123, Jakarta Pusat";
     v_status := None; v_duration_minutes := Some duration_minutes;
     v_total_cost := None |}.

(** The sample database after the admin cancelled appointment 1
    (Sarah, today, 09:00). *)
Definition seed_with_cancellation (today : date) : Db :=
  database (run (put_appointment_status the_admin 1
                   (set_status "cancelled" None)) (seed today)).

(* ================================================================== *)
(** ** Consistency of the tables *)
(* ================================================================== *)

(** The ids of an [AUTO_INCREMENT] primary key: all different and all
    below the counter. *)
Definition ids_below (ids : list Z) (next : Z) : Prop :=
  NoDup ids /\ Forall (fun i => i < next) ids.

(** [FOREIGN KEY (patient_id) REFERENCES users(id)] and
    [FOREIGN KEY (therapist_id) REFERENCES users(id)]. *)
Definition foreign_keys_appointments (db : Db) : Prop :=
  Forall (fun a => user_exists db (a_patient_id a) = true /\
                   user_exists db (a_therapist_id a) = true)
    (appointments db).

(** What the schema declares for the tables the scheduling core writes
    to. *)
Definition consistent (db : Db) : Prop :=
  ids_below (map a_id (appointments db)) (appointments_auto_increment db) /\
  ids_below (map n_id (notifications db)) (notifications_auto_increment db) /\
  ids_below (map al_id (audit_logs db)) (audit_logs_auto_increment db) /\
  unique_appointment db /\
  foreign_keys_appointments db /\
  Forall (fun n => user_exists db (n_user_id n) = true) (notifications db).




(* ================================================================== *)
(** ** GET /api/appointments *)
(* ================================================================== *)

(** [l LEFT JOIN r ON on]: every row of [l] with each of its matches,
    or once with [NULL]s when it has none. *)
Definition left_join {A B} (on : A -> B -> bool) (l : list A) (r : list B)
  : list (A * option B) :=
  flat_map (fun a =>
              match filter (on a) r with
              | [] => [(a, None)]
              | m => map (fun b => (a, Some b)) m
              end) l.

(** A row of the listing: [a.*] and the rows joined to it, [p] for the
    patient, [t] for the therapist, [th] for the therapist's profile. *)
Record appointment_listing := {
  l_appointment : appointments_row;
  l_patient : option users_row;
  l_therapist : option users_row;
  l_profile : option therapists_row }.

(** [FROM appointments a LEFT JOIN users p ON a.patient_id = p.id
    LEFT JOIN users t ON a.therapist_id = t.id
    LEFT JOIN therapists th ON t.id = th.user_id] *)
Definition appointments_joined (db : Db) : list appointment_listing :=
  map (fun x =>
         {| l_appointment := fst (fst (fst x)); l_patient := snd (fst (fst x));
            l_therapist := snd (fst x); l_profile := snd x |})
    (left_join
       (fun (x : appointments_row * option users_row * option users_row)
            (th : therapists_row) =>
          sql_eq (option_map u_id (snd x)) (Some (th_user_id th)))
       (left_join
          (fun (x : appointments_row * option users_row) (t : users_row) =>
             a_therapist_id (fst x) =? u_id t)
          (left_join (fun (a : appointments_row) (p : users_row) =>
                        a_patient_id a =? u_id p)
             (appointments db) (users db))
          (users db))
       (therapists db)).

Definition date_ltb (a b : date) : bool :=
  (year a <? year b) ||
  ((year a =? year b) &&
   ((month a <? month b) ||
    ((month a =? month b) && (day a <? day b)))).

(** [ORDER BY a.appointment_date DESC, a.appointment_time DESC]:
    whether [x] may come before [y]. *)
Definition newest_first (x y : appointment_listing) : bool :=
  let a := l_appointment x in
  let b := l_appointment y in
  date_ltb (a_appointment_date b) (a_appointment_date a) ||
  (date_eqb (a_appointment_date a) (a_appointment_date b) &&
   (a_appointment_time b <=? a_appointment_time a)).

(** [ORDER BY] on a comparison: a stable insertion sort. *)
Fixpoint insert_sorted {A} (before : A -> A -> bool) (x : A) (l : list A)
  : list A :=
  match l with
  | [] => [x]
  | y :: l' => if before x y then x :: l else y :: insert_sorted before x l'
  end.

Fixpoint sort_by {A} (before : A -> A -> bool) (l : list A) : list A :=
  match l with
  | [] => []
  | x :: l' => insert_sorted before x (sort_by before l')
  end.

(** [req.query]: [status] as text, [date] as the date its text names,
    [limit] as the integer [parseInt] reads from it; each [None] when
    the member is absent.  A [date] that names no date and a [limit]
    [parseInt] reads no integer from are left out. *)
Record appointments_query := {
  q_status : option string;
  q_date : option date;
  q_limit : option Z }.

(** The conditions pushed to the WHERE clause.  [status_eq] is MySQL's
    comparison of the ENUM column with the text of the parameter. *)
Definition listing_conditions (status_eq : string -> status -> bool)
  (user : jwt_user) (q : appointments_query)
  : list (appointments_row -> bool) :=
  (match user_role user with
   | patient => [fun a => a_patient_id a =? userId user]
   | therapist => [fun a => a_therapist_id a =? userId user]
   | admin => []
   end) ++
  (match q_status q with
   | Some s => if notEmpty s then [fun a => status_eq s (a_status a)] else []
   | None => []
   end) ++
  (match q_date q with
   | Some d => [fun a => date_eqb (a_appointment_date a) d]
   | None => []
   end).

(** [conditions.join(" AND ")] *)
Definition all_hold (conditions : list (appointments_row -> bool))
  (a : appointments_row) : bool :=
  forallb (fun c => c a) conditions.

(** The listing query, on a server that takes the number bound to
    [LIMIT ?]; it fails on a negative one.  Rows that tie on date and
    time come in an order MySQL leaves open, here the order of a stable
    sort. *)
Definition select_appointments (status_eq : string -> status -> bool)
  (user : jwt_user) (q : appointments_query) (db : Db)
  : option (list appointment_listing) :=
  let limit := default (q_limit q) 50 in
  if limit <? 0 then None
  else
    Some (firstn (Z.to_nat limit)
            (sort_by newest_first
               (filter (fun x => all_hold (listing_conditions status_eq user q)
                                   (l_appointment x))
                  (appointments_joined db)))).

Inductive listing_response :=
| listing_json (appointments : list appointment_listing)
| listing_error (code : Z) (error : string).

(** [GET /api/appointments] *)
Definition get_appointments (status_eq : string -> status -> bool)
  (user : jwt_user) (q : appointments_query) (db : Db) : listing_response :=
  match select_appointments status_eq user q db with
  | Some appointments => listing_json appointments
  | None => listing_error 500 "Internal server error"
  end.

(* ================================================================== *)
(** ** The middleware *)
(* ================================================================== *)

(** [s.split(" ")] *)
Fixpoint split_space (s : string) : list string :=
  match s with
  | EmptyString => [EmptyString]
  | String c s' =>
      if Ascii.eqb c " " then EmptyString :: split_space s'
      else
        match split_space s' with
        | [] => [String c EmptyString]
        | w :: ws => String c w :: ws
        end
  end.

(** Whether a text holds no space. *)
Fixpoint no_space (s : string) : bool :=
  match s with
  | EmptyString => true
  | String c s' => negb (Ascii.eqb c " ") && no_space s'
  end.

(** [authHeader && authHeader.split(" ")[1]], [None] when falsy. *)
Definition token_of (authorization : option string) : option string :=
  match authorization with
  | None => None
  | Some h =>
      if notEmpty h then
        match nth_error (split_space h) 1 with
        | Some t => if notEmpty t then Some t else None
        | None => None
        end
      else None
  end.

(** [authenticateToken]: the answer that ends the request, or the
    claims put in [req.user].  [verify] is [jwt.verify] with the
    server's secret: the claims of a token it accepts. *)
Definition authenticateToken (verify : string -> option jwt_user)
  (authorization : option string) : response + jwt_user :=
  match token_of authorization with
  | None => inl {| code := 401; body := error_body "Access token required" |}
  | Some token =>
      match verify token with
      | None => inl {| code := 403; body := error_body "Invalid token" |}
      | Some user => inr user
      end
  end.

(** [authorize(...roles)]: the answer that ends the request, if any. *)
Definition authorize (roles : list role) (user : jwt_user) : option response :=
  if existsb (role_eqb (user_role user)) roles then None
  else Some {| code := 403; body := error_body "Insufficient permissions" |}.

(** The two scheduling routes behind [authenticateToken]. *)
Definition POST_api_appointments (verify : string -> option jwt_user)
  (authorization : option string) (b : appointment_body) : handler response :=
  match authenticateToken verify authorization with
  | inl r => Respond r
  | inr user => post_appointments user b
  end.

Definition PUT_api_appointments_status (verify : string -> option jwt_user)
  (authorization : option string) (id : Z) (b : status_body)
  : handler response :=
  match authenticateToken verify authorization with
  | inl r => Respond r
  | inr user => put_appointment_status user id b
  end.

(* ================================================================== *)
(** ** GET /api/dashboard/stats *)
(* ================================================================== *)

Record dashboard := {
  todayAppointments : Z;
  completedToday : Z;
  pending : Z;
  revenueToday : decimal_10_2 }.

Definition count {A} (f : A -> bool) (l : list A) : Z :=
  Z.of_nat (List.length (filter f l)).

(** [SUM(x)] over nullable values: [NULL] when no value is there. *)
Definition SUM (l : list (option Z)) : option Z :=
  fold_left (fun acc x =>
               match x with
               | None => acc
               | Some v => Some (default acc 0 + v)
               end) l None.

(** The four queries of the route, on [today], the UTC date of
    [new Date()]. *)

(** [SELECT COUNT( * ) FROM appointments WHERE appointment_date = ?] *)
Definition count_today (today : date) (db : Db) : Z :=
  count (fun a => date_eqb (a_appointment_date a) today) (appointments db).

(** [SELECT COUNT( * ) FROM appointments WHERE appointment_date = ? AND
    status = 'completed'] *)
Definition count_completed_today (today : date) (db : Db) : Z :=
  count (fun a => date_eqb (a_appointment_date a) today &&
                  status_eqb (a_status a) completed) (appointments db).

(** [SELECT COUNT( * ) FROM appointments WHERE status = 'scheduled'] *)
Definition count_pending (db : Db) : Z :=
  count (fun a => status_eqb (a_status a) scheduled) (appointments db).

(** [SELECT SUM(th.hourly_rate) FROM appointments a LEFT JOIN
    therapists th ON a.therapist_id = th.user_id WHERE
    a.appointment_date = ? AND a.status = 'completed'] *)
Definition sum_revenue_today (today : date) (db : Db) : option decimal_10_2 :=
  SUM (map (fun x => option_map th_hourly_rate (snd x))
         (filter (fun x =>
                    date_eqb (a_appointment_date (fst x)) today &&
                    status_eqb (a_status (fst x)) completed)
            (left_join (fun (a : appointments_row) (th : therapists_row) =>
                          a_therapist_id a =? th_user_id th)
               (appointments db) (therapists db)))).

(** The figures of the answer.  The route awaits the four queries one
    after the other, and between two of them the statements of other
    requests may run: [db1] to [db4] are the database as each query
    finds it.  [revenue || 0] is 0 for [NULL]. *)
Definition dashboard_stats (today : date) (db1 db2 db3 db4 : Db) : dashboard :=
  {| todayAppointments := count_today today db1;
     completedToday := count_completed_today today db2;
     pending := count_pending db3;
     revenueToday := default (sum_revenue_today today db4) 0 |}.

(** [GET /api/dashboard/stats], behind [authorize("admin",
    "therapist")]. *)
Definition get_dashboard_stats (user : jwt_user) (today : date)
  (db1 db2 db3 db4 : Db) : response + dashboard :=
  match authorize [admin; therapist] user with
  | Some r => inl r
  | None => inr (dashboard_stats today db1 db2 db3 db4)
  end.

(* ================================================================== *)
(** ** The stored procedure UpdateTherapistRating *)
(* ================================================================== *)

(** The columns of [reviews] the procedure reads. *)
Record reviews_row := {
  rv_therapist_id : Z;
  rv_rating : Z;
  rv_is_approved : bool }.

(** The columns of [therapists] the procedure writes: [rating], a
    [DECIMAL(3,2)] kept in hundredths, and [total_reviews]. *)
Record therapist_rating := {
  tr_user_id : Z;
  tr_rating : option Z;
  tr_total_reviews : option Z }.

(** [SELECT AVG(rating), COUNT( * ) INTO avg_rating, review_count FROM
    reviews WHERE therapist_id = therapist_user_id AND is_approved =
    TRUE], [avg_rating] a [DECIMAL(3,2)]: the average rounded to two
    decimals, [NULL] over no row; an average beyond 9.99 does not
    fit. *)
Definition approved_ratings (reviews : list reviews_row)
  (therapist_user_id : Z) : list Z :=
  map rv_rating
    (filter (fun r => (rv_therapist_id r =? therapist_user_id) &&
                      rv_is_approved r) reviews).

Definition AVG_3_2 (l : list Z) : sql_result (option Z) :=
  match l with
  | [] => inr None
  | _ :: _ =>
      let avg := round_div (fold_right Z.add 0 l * 100)
                   (Z.of_nat (List.length l)) in
      if Z.abs avg <=? 999 then inr (Some avg)
      else inl ER_WARN_DATA_OUT_OF_RANGE
  end.

(** [UPDATE therapists SET rating = COALESCE(avg_rating, 0.00),
    total_reviews = COALESCE(review_count, 0) WHERE user_id =
    therapist_user_id] *)
Definition UpdateTherapistRating (therapist_user_id : Z)
  (reviews : list reviews_row) (therapists : list therapist_rating)
  : sql_result (list therapist_rating) :=
  avg_rating <- AVG_3_2 (approved_ratings reviews therapist_user_id) ;;
  let review_count :=
    Z.of_nat (List.length (approved_ratings reviews therapist_user_id)) in
  inr (map (fun t =>
              if tr_user_id t =? therapist_user_id then
                {| tr_user_id := tr_user_id t;
                   tr_rating := COALESCE avg_rating (Some 0);
                   tr_total_reviews := Some review_count |}
              else t) therapists).

(* ================================================================== *)
(** ** GET /api/therapists *)
(* ================================================================== *)

(** A row of the public list of therapists: the user and, when there
    is one, the profile joined to it. *)
Record therapist_listing := {
  tl_user : users_row;
  tl_profile : option therapists_row }.

(** [SELECT ... FROM users u LEFT JOIN therapists t ON u.id =
    t.user_id WHERE u.role = 'therapist' AND u.is_active = 1] *)
Definition get_therapists (db : Db) : list therapist_listing :=
  map (fun x => {| tl_user := fst x; tl_profile := snd x |})
    (filter (fun x => role_eqb (u_role (fst x)) therapist &&
                      u_is_active (fst x))
       (left_join (fun (u : users_row) (t : therapists_row) =>
                     u_id u =? th_user_id t)
          (users db) (therapists db))).

(* ================================================================== *)
(** ** Registration and login *)
(* ================================================================== *)

(** The columns of [users] the two routes read and write. *)
Record account := {
  acc_id : Z;
  acc_email : string;
  acc_password : string;
  acc_first_name : string;
  acc_last_name : string;
  acc_phone : string;
  acc_role : role;
  acc_is_active : bool }.

Record accounts_table := {
  accounts : list account;
  users_auto_increment : Z }.

(** The payload of the token, the first argument of [jwt.sign]. *)
Record token_claims := {
  tc_userId : Z;
  tc_email : string;
  tc_role : role;
  tc_firstName : string;
  tc_lastName : string }.

(** What the routes take from their libraries and from MySQL:
    validator.js ([isEmail], [normalizeEmail], [isMobilePhone] for
    id-ID), bcryptjs ([hash] of a password under the salt it draws,
    [compare] of a password with a hash), jsonwebtoken ([sign] with
    the server's secret, at a given time, which the token carries) and
    the comparison of two emails under the collation of the column. *)
Record libraries := {
  isEmail : string -> bool;
  normalizeEmail : string -> string;
  isMobilePhone : string -> bool;
  bcrypt_hash : string -> string -> string;
  bcrypt_compare : string -> string -> bool;
  jwt_sign : Z -> token_claims -> string;
  email_eq : string -> string -> bool }.

Record register_body := {
  rb_email : string;
  rb_password : string;
  rb_first_name : string;
  rb_last_name : string;
  rb_phone : string;
  rb_role : string }.

Record login_body := {
  lb_email : string;
  lb_password : string }.

(** The [user] member of the two answers. *)
Record public_user := {
  pu_id : Z;
  pu_email : string;
  pu_firstName : string;
  pu_lastName : string;
  pu_phone : string;
  pu_role : role }.

Inductive auth_response :=
| auth_error (code : Z) (error : string)
| auth_validation_failed
| auth_token (code : Z) (message : string) (token : string)
    (user : public_user).

(** [isIn(["admin", "therapist", "patient"])] *)
Definition role_of_string (s : string) : option role :=
  if String.eqb s "admin" then Some admin
  else if String.eqb s "therapist" then Some therapist
  else if String.eqb s "patient" then Some patient
  else None.

(** [isLength({ min: n })]: the number of characters. *)
Definition isLength_min (n : nat) (s : string) : bool :=
  (n <=? String.length s)%nat.

(** [SELECT ... FROM users WHERE email = ?] *)
Definition select_by_email (L : libraries) (email : string)
  (t : accounts_table) : list account :=
  filter (fun a => email_eq L (acc_email a) email) (accounts t).

(** [INSERT INTO users (email, password, first_name, last_name, phone,
    role, created_at)]: [email] is unique, [is_active] defaults to
    TRUE; a text longer than its column is an error. *)
Definition insert_into_users (L : libraries)
  (email password first_name last_name phone : string) (r : role)
  (t : accounts_table) : option (Z * accounts_table) :=
  if fits 255 email && fits 255 password && fits 100 first_name &&
     fits 100 last_name && fits 20 phone &&
     negb (existsb (fun a => email_eq L (acc_email a) email) (accounts t))
  then
    Some (users_auto_increment t,
          {| accounts :=
               accounts t ++
               [{| acc_id := users_auto_increment t; acc_email := email;
                   acc_password := password; acc_first_name := first_name;
                   acc_last_name := last_name; acc_phone := phone;
                   acc_role := r; acc_is_active := true |}];
             users_auto_increment := users_auto_increment t + 1 |})
  else None.

(** [POST /api/auth/register]; [salt] is the salt [bcrypt.hash]
    draws, [now] the time of the request. *)
Definition register (L : libraries) (salt : string) (now : Z)
  (b : register_body) (t : accounts_table)
  : auth_response * accounts_table :=
  match role_of_string (rb_role b) with
  | Some r =>
      if isEmail L (rb_email b) && isLength_min 6 (rb_password b) &&
         isLength_min 2 (trim (rb_first_name b)) &&
         isLength_min 2 (trim (rb_last_name b)) &&
         isMobilePhone L (rb_phone b)
      then
        let email := normalizeEmail L (rb_email b) in
        let first_name := trim (rb_first_name b) in
        let last_name := trim (rb_last_name b) in
        if (0 <? List.length (select_by_email L email t))%nat then
          (auth_error 409 "User already exists", t)
        else
          let hashedPassword := bcrypt_hash L salt (rb_password b) in
          match insert_into_users L email hashedPassword first_name last_name
                  (rb_phone b) r t with
          | None => (auth_error 500 "Internal server error", t)
          | Some (insertId, t') =>
              (auth_token 201 "User registered successfully"
                 (jwt_sign L now
                    {| tc_userId := insertId; tc_email := email;
                       tc_role := r; tc_firstName := first_name;
                       tc_lastName := last_name |})
                 {| pu_id := insertId; pu_email := email;
                    pu_firstName := first_name; pu_lastName := last_name;
                    pu_phone := rb_phone b; pu_role := r |},
               t')
          end
      else (auth_validation_failed, t)
  | None => (auth_validation_failed, t)
  end.

(** [POST /api/auth/login].  Of the tables it changes only
    [last_login], a column left out here. *)
Definition login (L : libraries) (now : Z) (b : login_body)
  (t : accounts_table) : auth_response :=
  if isEmail L (lb_email b) && notEmpty (lb_password b) then
    match select_by_email L (normalizeEmail L (lb_email b)) t with
    | [] => auth_error 401 "Invalid credentials"
    | user :: _ =>
        if bcrypt_compare L (lb_password b) (acc_password user) then
          auth_token 200 "Login successful"
            (jwt_sign L now
               {| tc_userId := acc_id user; tc_email := acc_email user;
                  tc_role := acc_role user;
                  tc_firstName := acc_first_name user;
                  tc_lastName := acc_last_name user |})
            {| pu_id := acc_id user; pu_email := acc_email user;
               pu_firstName := acc_first_name user;
               pu_lastName := acc_last_name user;
               pu_phone := acc_phone user; pu_role := acc_role user |}
        else auth_error 401 "Invalid credentials"
    end
  else auth_validation_failed.

(** An account with its [is_active] flag cleared. *)
Definition deactivated (a : account) : account :=
  {| acc_id := acc_id a; acc_email := acc_email a;
     acc_password := acc_password a; acc_first_name := acc_first_name a;
     acc_last_name := acc_last_name a; acc_phone := acc_phone a;
     acc_role := acc_role a; acc_is_active := false |}.

(** Libraries to run the two routes with: every text an email and a
    phone number, emails compared as they are, the hash of a password
    its salt followed by it. *)
Definition toy_libraries : libraries :=
  {| isEmail := fun _ => true;
     normalizeEmail := fun e => e;
     isMobilePhone := fun _ => true;
     bcrypt_hash := fun salt p => (salt ++ p)%string;
     bcrypt_compare := fun p h =>
                         String.eqb (substring (String.length h
                                                - String.length p)
                                       (String.length p) h) p;
     jwt_sign := fun _ c => tc_email c;
     email_eq := String.eqb |}.

(* ================================================================== *)
(** * Proofs *)
(* ================================================================== *)

(** ** Values and rows *)

Lemma date_eqb_eq (a b : date) : date_eqb a b = true <-> a = b.
Proof.
  destruct a as [y m d], b as [y' m' d']; unfold date_eqb; simpl.
  rewrite !andb_true_iff, !Z.eqb_eq. split.
  - intros [[-> ->] ->]. reflexivity.
  - intros [= -> -> ->]. auto.
Qed.

Lemma same_slot_true (a b : appointments_row) :
  same_slot a b = true <-> slot_key a = slot_key b.
Proof.
  unfold same_slot, slot_key.
  rewrite !andb_true_iff, !Z.eqb_eq, date_eqb_eq. split.
  - intros [[H1 H2] H3]. congruence.
  - intros [= H1 H2 H3]. auto.
Qed.

Lemma status_eqb_eq (a b : status) : status_eqb a b = true <-> a = b.
Proof. destruct a, b; simpl; split; (reflexivity || discriminate). Qed.

Lemma status_eqb_neq (a b : status) : status_eqb a b = false <-> a <> b.
Proof.
  rewrite <- status_eqb_eq. destruct (status_eqb a b); split; congruence.
Qed.

Lemma holds_slot_iff (a : appointments_row) :
  status_not_in_cancelled_completed (a_status a) = true <-> holds_slot a.
Proof.
  unfold status_not_in_cancelled_completed, holds_slot.
  destruct (a_status a); simpl; split;
    (reflexivity || discriminate || (intros [H1 H2]; congruence) ||
     (intros _; split; discriminate)).
Qed.

Lemma role_eqb_eq (a b : role) : role_eqb a b = true <-> a = b.
Proof. destruct a, b; simpl; split; (reflexivity || discriminate). Qed.

Lemma with_total_cost_same (a : appointments_row) :
  with_total_cost a (a_total_cost a) = a.
Proof. destruct a; reflexivity. Qed.

(** ** What each trigger and statement changes *)

(** The BEFORE INSERT trigger touches nothing but [total_cost]. *)
Lemma calculate_appointment_cost_inr db N N' :
  calculate_appointment_cost db N = inr N' ->
  N' = with_total_cost N (a_total_cost N').
Proof.
  unfold calculate_appointment_cost, sql_bind.
  destruct (select_into _) as [e | rate]; [discriminate |].
  destruct (a_total_cost N) eqn:Hc.
  - intros [= <-]. rewrite with_total_cost_same. reflexivity.
  - destruct (cost_expression rate _) as [v |].
    + destruct (to_decimal_10_2 v); [discriminate |].
      intros [= <-]. reflexivity.
    + intros [= <-]. rewrite with_total_cost_same. reflexivity.
Qed.

Lemma insert_into_notifications_inr user_id title message type rid rtype db db' :
  insert_into_notifications user_id title message type rid rtype db = inr db' ->
  db' = with_notifications db
          (notifications db ++
           [{| n_id := notifications_auto_increment db;
               n_user_id := user_id; n_title := title;
               n_message := message; n_type := type;
               n_related_id := Some rid;
               n_related_type := Some rtype |}])
          (notifications_auto_increment db + 1).
Proof.
  unfold insert_into_notifications.
  destruct (user_exists db user_id); [| discriminate].
  intros [= <-]. reflexivity.
Qed.

Lemma create_appointment_notification_appointments NEW db db' :
  create_appointment_notification NEW db = inr db' ->
  appointments db' = appointments db.
Proof.
  unfold create_appointment_notification, sql_bind.
  destruct (insert_into_notifications _ _ _ _ _ _ db) as [e | db1] eqn:H1;
    [discriminate |].
  intros H2.
  apply insert_into_notifications_inr in H1, H2. subst. reflexivity.
Qed.

(** A successful INSERT, taken apart. *)
Lemma insert_into_appointments_inr v db r :
  insert_into_appointments v db = inr r ->
  exists NEW,
    valid_date (v_appointment_date v) = true /\
    calculate_appointment_cost db (new_row db v) = inr NEW /\
    existsb (same_slot NEW) (appointments db) = false /\
    user_exists db (a_patient_id NEW) = true /\
    user_exists db (a_therapist_id NEW) = true /\
    create_appointment_notification NEW
      (with_appointments db (appointments db ++ [NEW])
         (appointments_auto_increment db + 1)) = inr (snd r) /\
    fst r = a_id NEW.
Proof.
  unfold insert_into_appointments, sql_bind.
  destruct (valid_date _); simpl; [| discriminate].
  destruct (fits 100 _ && _ && _); simpl; [| discriminate].
  destruct (calculate_appointment_cost _ _) as [e | NEW]; [discriminate |].
  destruct (existsb _ _) eqn:Hdup; [discriminate |].
  destruct (user_exists db (a_patient_id NEW)) eqn:Hp; simpl; [| discriminate].
  destruct (user_exists db (a_therapist_id NEW)) eqn:Ht; simpl;
    [| discriminate].
  destruct (create_appointment_notification _ _) as [e | db'] eqn:Hn;
    [discriminate |].
  intros [= <-]. exists NEW. simpl. auto 10.
Qed.

Lemma insert_into_appointments_rows v db r :
  insert_into_appointments v db = inr r ->
  exists NEW,
    appointments (snd r) = appointments db ++ [NEW] /\
    NEW = with_total_cost (new_row db v) (a_total_cost NEW) /\
    fst r = appointments_auto_increment db /\
    existsb (same_slot NEW) (appointments db) = false.
Proof.
  intros H. apply insert_into_appointments_inr in H.
  destruct H as (NEW & _ & Hc & Hdup & _ & _ & Hn & Hid).
  exists NEW. apply calculate_appointment_cost_inr in Hc.
  apply create_appointment_notification_appointments in Hn.
  repeat split; auto.
  rewrite Hid, Hc. reflexivity.
Qed.

(** The UPDATE changes neither the ids nor the slots of the rows. *)
Lemma update_rows_keys s n id rows :
  forall aux r,
    update_rows s n id rows aux = inr r ->
    map slot_key (fst r) = map slot_key rows /\
    map a_id (fst r) = map a_id rows.
Proof.
  induction rows as [| OLD rest IH]; simpl; intros aux r.
  - intros [= <-]. auto.
  - unfold sql_bind. destruct (a_id OLD =? id).
    + destruct (fits_text n); simpl; [| discriminate].
      destruct (log_appointment_changes _ _ aux) as [e | aux1];
        [discriminate |].
      destruct (update_rows s n id rest aux1) as [e | r'] eqn:Hr;
        [discriminate |].
      intros [= <-]. apply IH in Hr. destruct Hr as [H1 H2].
      simpl. rewrite H1, H2. auto.
    + destruct (update_rows s n id rest aux) as [e | r'] eqn:Hr;
        [discriminate |].
      intros [= <-]. apply IH in Hr. destruct Hr as [H1 H2].
      simpl. rewrite H1, H2. auto.
Qed.

Lemma update_appointments_keys s n id db db' :
  update_appointments s n id db = inr db' ->
  map slot_key (appointments db') = map slot_key (appointments db) /\
  map a_id (appointments db') = map a_id (appointments db).
Proof.
  unfold update_appointments, sql_bind.
  destruct (update_rows _ _ _ _ _) as [e | r] eqn:Hr; [discriminate |].
  intros [= <-]. simpl. eapply update_rows_keys; eauto.
Qed.

(** ** The unique key is an invariant of every statement *)

Lemma existsb_same_slot_false NEW rows :
  existsb (same_slot NEW) rows = false ->
  ~ In (slot_key NEW) (map slot_key rows).
Proof.
  intros H Hin. apply in_map_iff in Hin. destruct Hin as (b & Hk & Hb).
  assert (existsb (same_slot NEW) rows = true) as Ht.
  { apply existsb_exists. exists b. split; [assumption |].
    apply same_slot_true. congruence. }
  congruence.
Qed.

Lemma NoDup_snoc {A} (l : list A) (x : A) :
  NoDup l -> ~ In x l -> NoDup (l ++ [x]).
Proof.
  intros Hl Hx. induction Hl as [| y l Hy Hl IH]; simpl.
  - constructor; [intros [] | constructor].
  - constructor.
    + rewrite in_app_iff. simpl. intros [H | [H | []]].
      * contradiction.
      * apply Hx. left. congruence.
    + apply IH. intros H. apply Hx. right. assumption.
Qed.

Lemma execute_unique_appointment A (q : statement A) db :
  unique_appointment db -> unique_appointment (snd (execute q db)).
Proof.
  unfold unique_appointment. intros Hu.
  destruct q; simpl; try assumption.
  - destruct (insert_into_appointments _ db) as [e | r] eqn:Hi;
      simpl; [assumption |].
    apply insert_into_appointments_rows in Hi.
    destruct Hi as (NEW & Hrows & _ & _ & Hdup).
    rewrite Hrows, map_app. simpl.
    apply NoDup_snoc; [assumption |].
    apply existsb_same_slot_false. assumption.
  - destruct (update_appointments s notes id db) as [e | db'] eqn:Hup;
      simpl; [assumption |].
    apply update_appointments_keys in Hup. destruct Hup as [Hk _].
    rewrite Hk. assumption.
Qed.

Lemma run_unique_appointment R (h : handler R) :
  forall db, unique_appointment db -> unique_appointment (database (run h db)).
Proof.
  induction h as [r | A q k IH]; intros db Hu; simpl.
  - assumption.
  - specialize (IH (fst (execute q db)) (snd (execute q db))
                  (execute_unique_appointment A q db Hu)).
    destruct (run (k (fst (execute q db))) (snd (execute q db)))
      as [[r db'] n].
    exact IH.
Qed.

Lemma seed_unique_appointment today : unique_appointment (seed today).
Proof.
  unfold unique_appointment, seed, slot_key; simpl.
  repeat constructor; simpl; intros H;
    repeat (destruct H as [H | H]; [discriminate H |]); exact H.
Qed.

Lemma reachable_unique_appointment c :
  reachable c -> unique_appointment (store c).
Proof.
  induction 1 as [today Hv | c c' Hr IH Hs].
  - apply seed_unique_appointment.
  - destruct Hs as [db db' hs Hsame | | |]; simpl in *; try assumption.
    + unfold unique_appointment in *. rewrite Hsame. assumption.
    + apply execute_unique_appointment. assumption.
Qed.

Lemma unique_appointment_no_double_booking db :
  unique_appointment db -> no_double_booking db.
Proof.
  unfold unique_appointment, no_double_booking.
  intros Hu i j a b Hi Hj _ _ Hk.
  rewrite NoDup_nth_error in Hu. apply Hu.
  - rewrite length_map. apply nth_error_Some. congruence.
  - rewrite !nth_error_map, Hi, Hj. simpl. congruence.
Qed.

(** ** C1: no double booking *)

(** C1.  In every state the server can reach, whatever the order in
    which the statements of concurrent requests execute, no two
    appointments whose status is neither cancelled nor completed share
    therapist, date and time; and from such a state both operations,
    creating an appointment and updating a status, end in a state with
    the same property. *)
Theorem reachable_no_double_booking (c : config) :
  reachable c ->
  no_double_booking (store c) /\
  (forall user b,
     no_double_booking (database (run (post_appointments user b) (store c)))) /\
  (forall user id b,
     no_double_booking
       (database (run (put_appointment_status user id b) (store c)))).
Proof.
  intros Hr. apply reachable_unique_appointment in Hr.
  repeat split; intros;
    apply unique_appointment_no_double_booking;
    [assumption | apply run_unique_appointment; assumption ..].
Qed.

Lemma reachable_no_double_booking_witness :
  let c := {| store := seed (mkDate 2024 6 10); in_flight := [] |} in
  reachable c /\
  no_double_booking (store c) /\
  (forall user b,
     no_double_booking (database (run (post_appointments user b) (store c)))) /\
  (forall user id b,
     no_double_booking
       (database (run (put_appointment_status user id b) (store c)))).
Proof.
  intros c.
  assert (reachable c) as Hr by (apply reachable_seed; reflexivity).
  split; [exact Hr | apply (reachable_no_double_booking c Hr)].
Defined.

(** ** Steps of the server *)

Lemma nth_error_split_at {A} (l : list A) (i : nat) (x : A) :
  nth_error l i = Some x -> l = firstn i l ++ x :: skipn (S i) l.
Proof.
  revert l. induction i as [| i IH]; intros [| y l]; simpl;
    try discriminate.
  - intros [= ->]. reflexivity.
  - intros H. f_equal. apply IH. exact H.
Qed.

Lemma advance_reachable (i : nat) (c : config) :
  reachable c -> reachable (advance i c).
Proof.
  intros Hr. unfold advance.
  destruct (nth_error (in_flight c) i) as [h |] eqn:Hi; [| exact Hr].
  pose proof (nth_error_split_at _ _ _ Hi) as Hl.
  destruct c as [db hs]; simpl in *.
  destruct h as [r | A q k]; simpl.
  - rewrite <- Hl. exact Hr.
  - eapply reachable_step; [exact Hr |].
    rewrite Hl at 1. apply step_execute.
Qed.

(** The sample database with appointment 1 cancelled is a state of the
    server: the admin's request is accepted, executes its SELECT and
    its UPDATE, and answers. *)
Lemma seed_with_cancellation_reachable :
  reachable {| store := seed_with_cancellation monday; in_flight := [] |}.
Proof.
  apply (reachable_step
           (advance 0 (advance 0
              {| store := seed monday;
                 in_flight := [put_appointment_status the_admin 1
                                 (set_status "cancelled" None)] |}))).
  - repeat apply advance_reachable.
    apply (reachable_step {| store := seed monday; in_flight := [] |}).
    + apply reachable_seed. reflexivity.
    + apply (step_accept (seed monday) []). constructor.
  - change (server_step
              {| store := seed_with_cancellation monday;
                 in_flight :=
                   [] ++ Respond
                           {| code := 200;
                              body := message_body
                                        "Appointment status updated successfully"
                           |} :: [] |}
              {| store := seed_with_cancellation monday;
                 in_flight := [] ++ [] |}).
    apply step_respond.
Qed.

(** ** One request served alone *)

Arguments insert_into_appointments : simpl never.
Arguments update_appointments : simpl never.
Arguments select_therapist : simpl never.
Arguments select_conflicts : simpl never.
Arguments select_appointment : simpl never.

(** The four ways [POST /api/appointments] ends. *)
Lemma run_create_appointment user therapist_id d t service_type notes address db :
  let x := run (create_appointment user therapist_id d t service_type notes
                  address) db in
  (select_therapist db therapist_id = [] /\
   code (answer x) = 404 /\ database x = db) \/
  (select_therapist db therapist_id <> [] /\
   select_conflicts db therapist_id d t <> [] /\
   answer x = time_slot_already_booked /\ database x = db) \/
  (select_therapist db therapist_id <> [] /\
   select_conflicts db therapist_id d t = [] /\
   (notes = absent \/
    exists e, insert_into_appointments
                (scheduled_values (userId user) therapist_id d t service_type
                   (bound_value notes) address)
                db = inl e) /\
   answer x = internal_server_error /\ database x = db) \/
  (select_therapist db therapist_id <> [] /\
   select_conflicts db therapist_id d t = [] /\
   exists r, insert_into_appointments
               (scheduled_values (userId user) therapist_id d t service_type
                  (bound_value notes) address)
               db = inr r /\
             answer x = {| code := 201;
                           body := booked_body
                                     "Appointment booked successfully"
                                     (fst r) |} /\
             database x = snd r).
Proof.
  unfold create_appointment, check_conflicts, insert_appointment,
    bind_parameter, try_await, answer, database.
  simpl.
  destruct (select_therapist db therapist_id) as [| u us] eqn:Ht; simpl.
  - left. auto.
  - right.
    destruct (select_conflicts db therapist_id d t) as [| a l] eqn:Hc; simpl.
    + right. destruct notes as [| v]; simpl.
      * left. repeat split; try discriminate; auto.
      * destruct (insert_into_appointments _ db) as [e | r] eqn:Hi; simpl.
        -- left. repeat split; try discriminate; eauto.
        -- right. repeat split; try discriminate. exists r. auto.
    + left. repeat split; discriminate.
Qed.


(** ** C2: a slot whose appointments are all cancelled or completed *)

(** C2.  Appointment 1 of the sample data (Sarah, 09:00) is cancelled,
    a state the server reaches; Anna then books Sarah for the same day
    at 09:00.  Every appointment
    in the slot is cancelled and the conflict check finds nothing, yet
    the INSERT runs into [unique_appointment], which counts cancelled
    rows too: the request ends with 500 "Internal server error" and no
    appointment is created. *)
Theorem rebooking_cancelled_slot_fails :
  let db := seed_with_cancellation monday in
  reachable {| store := db; in_flight := [] |} /\
  map a_status
    (filter (fun a => (a_therapist_id a =? 2) &&
                      date_eqb (a_appointment_date a) monday &&
                      (a_appointment_time a =? hm 9 0))
       (appointments db)) = [cancelled] /\
  select_conflicts db 2 monday (hm 9 0) = [] /\
  fst (execute (INSERT_appointment 7 2 monday (hm 9 0) "Ortopedi" None
                  "Jl. Sudirman No. 123, Jakarta Pusat") db)
    = inl ER_DUP_ENTRY /\
  run (post_appointments anna (booking 2 monday 9 0)) db
    = (internal_server_error, db, 3%nat).
Proof.
  split; [exact seed_with_cancellation_reachable |].
  vm_compute. repeat split; reflexivity.
Qed.

(** ** C3: a duplicate caught by the unique key *)

(** C3, as stated, fails.  Anna and Michael both ask for Sarah on
    Monday at 10:00, a free slot.  Both pass the therapist check and
    the conflict check before either inserts.  Anna's INSERT succeeds;
    Michael's then fails on the unique key, and his answer is 500
    "Internal server error", not the 409 of the conflict check. *)
Lemma race_loser_gets_internal_error :
  let c0 := {| store := seed monday;
               in_flight := [post_appointments anna (booking 2 monday 10 0);
                             post_appointments michael
                               (booking 2 monday 10 0)] |} in
  let checked := advance 1 (advance 0 (advance 1 (advance 0 c0))) in
  let inserted := advance 0 checked in
  let final := advance 1 inserted in
  reachable final /\
  in_flight checked =
    [insert_appointment 7 2 monday (hm 10 0) "Ortopedi" (present None)
       "Jl. Sudirman No. 123, Jakarta Pusat";
     insert_appointment 8 2 monday (hm 10 0) "Ortopedi" (present None)
       "Jl. Sudirman No. 123, Jakarta Pusat"] /\
  fst (execute (INSERT_appointment 8 2 monday (hm 10 0) "Ortopedi" None
                  "Jl. Sudirman No. 123, Jakarta Pusat") (store inserted))
    = inl ER_DUP_ENTRY /\
  in_flight final =
    [Respond {| code := 201;
                body := booked_body "Appointment booked successfully" 4 |};
     Respond internal_server_error] /\
  kind_of internal_server_error = Some InternalError /\
  kind_of internal_server_error <> Some ConflictError.
Proof.
  intros c0 checked inserted final. split.
  - repeat apply advance_reachable.
    apply (reachable_step
             {| store := seed monday;
                in_flight := [post_appointments anna
                                (booking 2 monday 10 0)] |}).
    + apply (reachable_step {| store := seed monday; in_flight := [] |}).
      * apply reachable_seed. reflexivity.
      * apply (step_accept (seed monday) []). constructor.
    + apply (step_accept (seed monday)
               [post_appointments anna (booking 2 monday 10 0)]).
      constructor.
  - vm_compute. repeat split; try reflexivity. discriminate.
Qed.

(** C3, amended.  Once the conflict check has found the slot free (in
    the database of that moment, [db1]), the request goes on to its
    INSERT; when the INSERT, executed in the database of a later moment
    [db2], fails, whatever the error, a duplicate for the unique key
    included, the answer is 500 "Internal server error" and the
    database stays as it was.  A request served alone is answered 409
    only when its conflict check found an appointment in the slot. *)
Theorem insert_failure_answers_internal_error
  (patient_id therapist_id : Z) (d : date) (t : time) (service_type : string)
  (notes : option string) (address : string) (db1 db2 : Db) (e : sql_error) :
  select_conflicts db1 therapist_id d t = [] ->
  fst (execute (INSERT_appointment patient_id therapist_id d t service_type
                  notes address) db2) = inl e ->
  step_handler
    (check_conflicts patient_id therapist_id d t service_type (present notes)
       address)
    db1
    = (insert_appointment patient_id therapist_id d t service_type
         (present notes) address, db1) /\
  run (insert_appointment patient_id therapist_id d t service_type
         (present notes) address) db2
    = (internal_server_error, db2, 1%nat) /\
  kind_of internal_server_error = Some InternalError /\
  (forall user notes' db,
     kind_of (answer (run (create_appointment user therapist_id d t
                             service_type notes' address) db))
       = Some ConflictError ->
     select_conflicts db therapist_id d t <> []).
Proof.
  intros Hfree Hfail. split; [| split; [| split]].
  - unfold check_conflicts, try_await, step_handler. simpl.
    rewrite Hfree. reflexivity.
  - unfold insert_appointment, bind_parameter, try_await, run.
    rewrite Hfail.
    simpl in Hfail |- *.
    destruct (insert_into_appointments _ db2) as [e' | r];
      simpl in *; [reflexivity | discriminate].
  - reflexivity.
  - intros user notes' db Hkind.
    pose proof (run_create_appointment user therapist_id d t service_type
                  notes' address db) as Hrun.
    cbv zeta in Hrun. unfold kind_of in Hkind.
    destruct Hrun as [(_ & Hc & _) | [(_ & Hbusy & _) | [(_ & _ & _ & Ha & _) |
                      (_ & _ & r & _ & Ha & _)]]].
    + rewrite Hc in Hkind. discriminate Hkind.
    + exact Hbusy.
    + rewrite Ha in Hkind. discriminate Hkind.
    + rewrite Ha in Hkind. discriminate Hkind.
Qed.

Lemma insert_failure_answers_internal_error_witness :
  let db1 := seed monday in
  let db2 := database (run (post_appointments anna (booking 2 monday 10 0))
                         (seed monday)) in
  select_conflicts db1 2 monday (hm 10 0) = [] /\
  fst (execute (INSERT_appointment 8 2 monday (hm 10 0) "Ortopedi" None
                  "Jl. Sudirman") db2) = inl ER_DUP_ENTRY /\
  step_handler
    (check_conflicts 8 2 monday (hm 10 0) "Ortopedi" (present None)
       "Jl. Sudirman") db1
    = (insert_appointment 8 2 monday (hm 10 0) "Ortopedi" (present None)
         "Jl. Sudirman",
       db1) /\
  run (insert_appointment 8 2 monday (hm 10 0) "Ortopedi" (present None)
         "Jl. Sudirman")
    db2
    = (internal_server_error, db2, 1%nat) /\
  kind_of internal_server_error = Some InternalError /\
  (forall user notes db,
     kind_of (answer (run (create_appointment user 2 monday (hm 10 0)
                             "Ortopedi" notes "Jl. Sudirman") db))
       = Some ConflictError ->
     select_conflicts db 2 monday (hm 10 0) <> []).
Proof.
  intros db1 db2.
  assert (select_conflicts db1 2 monday (hm 10 0) = []) as H1
    by reflexivity.
  assert (fst (execute (INSERT_appointment 8 2 monday (hm 10 0) "Ortopedi"
                          None "Jl. Sudirman") db2) = inl ER_DUP_ENTRY) as H2
    by (vm_compute; reflexivity).
  split; [exact H1 |]. split; [exact H2 |].
  exact (insert_failure_answers_internal_error 8 2 monday (hm 10 0)
           "Ortopedi" None "Jl. Sudirman" db1 db2 ER_DUP_ENTRY H1 H2).
Defined.

(** ** C4: GetAvailableTimeSlots *)

Section OrderBy.

Context {A : Type} (key : A -> Z).

Lemma insert_by_Permutation (x : A) (l : list A) :
  Permutation (insert_by key x l) (x :: l).
Proof.
  induction l as [| y l IH]; simpl.
  - reflexivity.
  - destruct (key x <=? key y).
    + reflexivity.
    + rewrite IH. apply perm_swap.
Qed.

Lemma order_by_Permutation (l : list A) : Permutation (order_by key l) l.
Proof.
  induction l as [| x l IH]; simpl.
  - reflexivity.
  - rewrite insert_by_Permutation, IH. reflexivity.
Qed.

Lemma insert_by_HdRel (a x : A) (l : list A) :
  le_by key a x -> HdRel (le_by key) a l ->
  HdRel (le_by key) a (insert_by key x l).
Proof.
  intros Hax Hal. destruct l as [| y l]; simpl.
  - constructor. exact Hax.
  - destruct (key x <=? key y).
    + constructor. exact Hax.
    + inversion Hal; subst. constructor. assumption.
Qed.

Lemma insert_by_Sorted (x : A) (l : list A) :
  Sorted (le_by key) l -> Sorted (le_by key) (insert_by key x l).
Proof.
  induction 1 as [| y l Hs IH Hhd]; simpl.
  - repeat constructor.
  - destruct (key x <=? key y) eqn:Hxy.
    + constructor; [constructor; assumption |].
      constructor. unfold le_by. lia.
    + constructor; [exact IH |].
      apply insert_by_HdRel; [unfold le_by; lia | exact Hhd].
Qed.

Lemma order_by_Sorted (l : list A) : Sorted (le_by key) (order_by key l).
Proof.
  induction l as [| x l IH]; simpl.
  - constructor.
  - apply insert_by_Sorted. exact IH.
Qed.

End OrderBy.

Lemma Sorted_map {A B} (f : A -> B) (R : B -> B -> Prop) (l : list A) :
  Sorted (fun a b => R (f a) (f b)) l -> Sorted R (map f l).
Proof.
  induction 1 as [| x l Hs IH Hhd]; simpl; constructor.
  - exact IH.
  - destruct Hhd; simpl; constructor. assumption.
Qed.

(** Under the unique key on [therapists.user_id] the subquery has at
    most one row. *)
Lemma unique_user_profile (l : list therapists_row) (uid : Z) :
  NoDup (map th_user_id l) ->
  filter (fun t => th_user_id t =? uid) l = [] \/
  exists t, filter (fun t => th_user_id t =? uid) l = [t].
Proof.
  induction l as [| t l IH]; simpl; intros Hnd.
  - left. reflexivity.
  - inversion Hnd as [| ? ? Hnotin Hnd']; subst.
    destruct (th_user_id t =? uid) eqn:Ht.
    + right. exists t. f_equal.
      apply Z.eqb_eq in Ht.
      destruct (filter (fun t0 => th_user_id t0 =? uid) l) as [| t' r] eqn:Hf;
        [reflexivity |].
      exfalso. apply Hnotin.
      assert (In t' (filter (fun t0 => th_user_id t0 =? uid) l)) as Hin
        by (rewrite Hf; left; reflexivity).
      apply filter_In in Hin. destruct Hin as [Hin Heq].
      apply Z.eqb_eq in Heq. apply in_map_iff. exists t'. split; congruence.
    + apply IH. exact Hnd'.
Qed.

Lemma booked_times_spec db uid d (t : time) :
  existsb (Z.eqb t) (booked_times db uid d) = true <->
  exists a, In a (appointments db) /\ a_therapist_id a = uid /\
            a_appointment_date a = d /\ holds_slot a /\
            a_appointment_time a = t.
Proof.
  unfold booked_times. rewrite existsb_exists. split.
  - intros (t' & Hin & Heq). apply Z.eqb_eq in Heq. subst t'.
    apply in_map_iff in Hin. destruct Hin as (a & Ht & Hin).
    apply filter_In in Hin. destruct Hin as [Hin Hc].
    rewrite !andb_true_iff, Z.eqb_eq, date_eqb_eq, holds_slot_iff in Hc.
    exists a. intuition.
  - intros (a & Hin & Hu & Hd & Hh & Ht).
    exists t. split; [| apply Z.eqb_refl].
    apply in_map_iff. exists a. split; [exact Ht |].
    apply filter_In. split; [exact Hin |].
    rewrite !andb_true_iff, Z.eqb_eq, date_eqb_eq, holds_slot_iff. auto.
Qed.

Lemma DAYOFWEEK_valid (d : date) :
  valid_date d = true -> DAYOFWEEK d = Some (weekday d + 1).
Proof. unfold DAYOFWEEK. intros ->. reflexivity. Qed.

Lemma weekday_range (d : date) : 0 <= weekday d <= 6.
Proof.
  unfold weekday.
  pose proof (Z.mod_pos_bound (days_from_civil d + 4) 7). lia.
Qed.

Example weekday_1970_01_01 : weekday (mkDate 1970 1 1) = 4.
Proof. reflexivity. Qed.

Example weekday_2000_02_29 : weekday (mkDate 2000 2 29) = 2.
Proof. reflexivity. Qed.

Example weekday_2024_06_09 : weekday (mkDate 2024 6 9) = 0.
Proof. reflexivity. Qed.

Example weekday_2024_06_10 : weekday monday = 1.
Proof. reflexivity. Qed.

Example weekday_2024_06_15 : weekday (mkDate 2024 6 15) = 6.
Proof. reflexivity. Qed.

(** The day after, within a month, is the next day of the week. *)
Lemma weekday_next_day (y m d : Z) :
  weekday (mkDate y m (d + 1)) = (weekday (mkDate y m d) + 1) mod 7.
Proof.
  unfold weekday, days_from_civil. simpl.
  rewrite Zplus_mod_idemp_l. f_equal. lia.
Qed.

(** The WHERE clause selects the bookable windows. *)
Lemma slot_selected_spec db uid d profile ta :
  unique_therapist_user db ->
  valid_date d = true ->
  scalar_subquery
    (map th_id (filter (fun t => th_user_id t =? uid) (therapists db)))
    = inr profile ->
  slot_selected db profile (option_map (fun n => n - 1) (DAYOFWEEK d)) uid d ta
    = true <-> bookable db uid d ta.
Proof.
  intros Hu Hv Hsub. unfold slot_selected, bookable.
  rewrite (DAYOFWEEK_valid d Hv). simpl.
  replace (weekday d + 1 - 1) with (weekday d) by lia.
  rewrite !andb_true_iff, negb_true_iff, Z.eqb_eq.
  rewrite <- not_true_iff_false, booked_times_spec.
  assert (sql_eq (Some (ta_therapist_id ta)) profile = true <->
          exists t, In t (therapists db) /\ th_user_id t = uid /\
                    ta_therapist_id ta = th_id t) as Hprofile.
  { destruct (unique_user_profile (therapists db) uid Hu) as [Hf | [t Hf]];
      rewrite Hf in Hsub; simpl in Hsub; injection Hsub as <-; simpl.
    - split; [discriminate |].
      intros (t & Hin & Hid & _).
      assert (In t (filter (fun t => th_user_id t =? uid) (therapists db)))
        as Hin' by (apply filter_In; split; [exact Hin | lia]).
      rewrite Hf in Hin'. destruct Hin'.
    - assert (In t (filter (fun t => th_user_id t =? uid) (therapists db)))
        as Hin by (rewrite Hf; left; reflexivity).
      apply filter_In in Hin. destruct Hin as [Hin Hid].
      rewrite Z.eqb_eq. split.
      + intros Heq. exists t. split; [exact Hin |]. split; [lia | exact Heq].
      + intros (t' & Hin' & Hid' & Heq).
        assert (In t' (filter (fun t => th_user_id t =? uid) (therapists db)))
          as Hin'' by (apply filter_In; split; [exact Hin' | lia]).
        rewrite Hf in Hin''. destruct Hin'' as [-> | []]. exact Heq. }
  rewrite Hprofile. tauto.
Qed.

(** C4.  For every therapist (user id) and every valid date, with the
    [user_id] of [therapists] unique as the schema declares,
    [GetAvailableTimeSlots] ends without error and leaves the database
    as it was; its rows are, one for each, the windows of
    [therapist_availability] that belong to the therapist's profile,
    lie on the weekday of the date (0 = Sunday .. 6 = Saturday), are
    active and start at a time that no appointment of that therapist
    and date holds with a status other than cancelled and completed;
    each row's slot time is the window's start time; the rows come in
    ascending order of start time; and there is no row when no window
    matches. *)
Theorem GetAvailableTimeSlots_spec (db : Db) (therapist_user_id : Z) (d : date) :
  unique_therapist_user db ->
  valid_date d = true ->
  exists (windows : list therapist_availability_row)
         (selected : therapist_availability_row -> bool),
    GetAvailableTimeSlots therapist_user_id d db
      = (inr (map slot_of windows), db) /\
    (forall ta, selected ta = true <-> bookable db therapist_user_id d ta) /\
    Permutation windows (filter selected (therapist_availability db)) /\
    map slot_time (map slot_of windows) = map ta_start_time windows /\
    Sorted Z.le (map ta_start_time windows) /\
    ((forall ta, In ta (therapist_availability db) ->
                 ~ bookable db therapist_user_id d ta) -> windows = []) /\
    0 <= weekday d <= 6.
Proof.
  intros Hu Hv. unfold GetAvailableTimeSlots.
  destruct (scalar_subquery _) as [e | profile] eqn:Hsub.
  { exfalso.
    destruct (unique_user_profile (therapists db) therapist_user_id Hu)
      as [Hf | [t Hf]]; rewrite Hf in Hsub; discriminate Hsub. }
  set (selected := slot_selected db profile
                     (option_map (fun n => n - 1) (DAYOFWEEK d))
                     therapist_user_id d).
  exists (order_by ta_start_time (filter selected (therapist_availability db))),
         selected.
  assert (forall ta, selected ta = true <-> bookable db therapist_user_id d ta)
    as Hsel by (intros ta; apply slot_selected_spec; assumption).
  split; [reflexivity |]. split; [exact Hsel |].
  split; [| split; [| split; [| split]]].
  - apply order_by_Permutation.
  - rewrite map_map. reflexivity.
  - apply Sorted_map. apply order_by_Sorted.
  - intros Hnone.
    assert (filter selected (therapist_availability db) = []) as ->.
    { destruct (filter selected (therapist_availability db)) as [| ta l] eqn:Hf;
        [reflexivity |].
      assert (In ta (filter selected (therapist_availability db))) as Hin
        by (rewrite Hf; left; reflexivity).
      apply filter_In in Hin. destruct Hin as [Hin Hs].
      exfalso. apply (Hnone ta Hin). apply Hsel. exact Hs. }
    reflexivity.
  - apply weekday_range.
Qed.

Lemma GetAvailableTimeSlots_spec_witness :
  unique_therapist_user (seed monday) /\
  valid_date monday = true /\
  exists (windows : list therapist_availability_row)
         (selected : therapist_availability_row -> bool),
    GetAvailableTimeSlots 3 monday (seed monday)
      = (inr (map slot_of windows), seed monday) /\
    (forall ta, selected ta = true <-> bookable (seed monday) 3 monday ta) /\
    Permutation windows (filter selected (therapist_availability (seed monday))) /\
    map slot_time (map slot_of windows) = map ta_start_time windows /\
    Sorted Z.le (map ta_start_time windows) /\
    ((forall ta, In ta (therapist_availability (seed monday)) ->
                 ~ bookable (seed monday) 3 monday ta) -> windows = []) /\
    0 <= weekday monday <= 6.
Proof.
  assert (unique_therapist_user (seed monday)) as Hu.
  { unfold unique_therapist_user; simpl.
    repeat constructor; simpl; intros H;
      repeat (destruct H as [H | H]; [discriminate H |]); exact H. }
  split; [exact Hu |]. split; [reflexivity |].
  exact (GetAvailableTimeSlots_spec (seed monday) 3 monday Hu eq_refl).
Defined.

(** ** C5: the total cost *)

Lemma round_div_scale (a b k : Z) :
  0 < b -> 0 < k -> round_div (a * k) (b * k) = round_div a b.
Proof.
  intros Hb Hk. unfold round_div.
  assert ((0 <=? a * k) = (0 <=? a)) as ->.
  { destruct (Z.leb_spec 0 a), (Z.leb_spec 0 (a * k)); try reflexivity; nia. }
  replace (2 * (a * k) + b * k) with ((2 * a + b) * k) by ring.
  replace (2 * (- (a * k)) + b * k) with ((2 * (- a) + b) * k) by ring.
  replace (2 * (b * k)) with ((2 * b) * k) by ring.
  rewrite !Z.div_mul_cancel_r by lia. reflexivity.
Qed.

Lemma round_div_exact (q b : Z) : 0 < b -> round_div (q * b) b = q.
Proof.
  intros Hb. unfold round_div.
  destruct (Z.leb_spec 0 (q * b)) as [Hq | Hq].
  - replace (2 * (q * b) + b) with (b + q * (2 * b)) by ring.
    rewrite Z.div_add by lia. rewrite Z.div_small by nia. reflexivity.
  - replace (2 * (- (q * b)) + b) with (b + (- q) * (2 * b)) by ring.
    rewrite Z.div_add by lia. rewrite Z.div_small by nia. lia.
Qed.

(** For a duration that is a multiple of three minutes the quotient
    by 60 has no more than two decimals and is exact. *)
Lemma int_div_60_multiple_of_3 (d : Z) :
  d mod 3 = 0 -> int_div_60 d = d / 3 * 50000000.
Proof.
  intros Hd. unfold int_div_60, quotient_scale.
  rewrite (Z.div_mod d 3) at 1 by lia. rewrite Hd.
  replace ((3 * (d / 3) + 0) * 1000000000) with (d / 3 * 50000000 * 60)
    by ring.
  apply Z.quot_mul. lia.
Qed.

Lemma cost_multiple_of_3 (rate d : Z) :
  d mod 3 = 0 ->
  round_div (mul_decimal rate (int_div_60 d)) quotient_scale
  = round_div (rate * d) 60.
Proof.
  intros Hd. unfold mul_decimal. rewrite (int_div_60_multiple_of_3 d Hd).
  unfold quotient_scale.
  replace (rate * (d / 3 * 50000000)) with (rate * (d / 3) * 50000000)
    by ring.
  change 1000000000 with (20 * 50000000).
  rewrite round_div_scale by lia.
  rewrite (Z.div_mod d 3) at 2 by lia. rewrite Hd.
  replace (rate * (3 * (d / 3) + 0)) with (rate * (d / 3) * 3) by ring.
  change 60 with (20 * 3).
  rewrite round_div_scale by lia. reflexivity.
Qed.

Lemma calculate_appointment_cost_supplied db N c :
  a_total_cost N = Some c ->
  forall N', calculate_appointment_cost db N = inr N' -> N' = N.
Proof.
  intros Hc N'. unfold calculate_appointment_cost, sql_bind.
  destruct (select_into _); [discriminate |].
  rewrite Hc. intros [= <-]. reflexivity.
Qed.

Lemma calculate_appointment_cost_computed db N rate :
  a_total_cost N = None ->
  select_hourly_rate db (a_therapist_id N) = [rate] ->
  forall N', calculate_appointment_cost db N = inr N' ->
  a_total_cost N' =
    Some (round_div (mul_decimal rate (int_div_60 (a_duration_minutes N)))
            quotient_scale).
Proof.
  intros Hc Hrate N'. unfold calculate_appointment_cost, sql_bind.
  rewrite Hrate, Hc. simpl. unfold to_decimal_10_2.
  destruct (Z.abs _ <=? max_decimal_10_2); [| discriminate].
  intros [= <-]. reflexivity.
Qed.

Lemma calculate_appointment_cost_no_profile db N :
  a_total_cost N = None ->
  select_hourly_rate db (a_therapist_id N) = [] ->
  forall N', calculate_appointment_cost db N = inr N' ->
  a_total_cost N' = None.
Proof.
  intros Hc Hrate N'. unfold calculate_appointment_cost, sql_bind.
  rewrite Hrate, Hc. simpl. intros [= <-]. exact Hc.
Qed.

(** The UPDATE of the status handler leaves every [total_cost] and
    every [duration_minutes] as it was. *)
Lemma update_rows_cost s n id rows :
  forall aux r,
    update_rows s n id rows aux = inr r ->
    map a_total_cost (fst r) = map a_total_cost rows /\
    map a_duration_minutes (fst r) = map a_duration_minutes rows.
Proof.
  induction rows as [| OLD rest IH]; simpl; intros aux r.
  - intros [= <-]. auto.
  - unfold sql_bind. destruct (a_id OLD =? id).
    + destruct (fits_text n); simpl; [| discriminate].
      destruct (log_appointment_changes _ _ aux) as [e | aux1];
        [discriminate |].
      destruct (update_rows s n id rest aux1) as [e | r'] eqn:Hr;
        [discriminate |].
      intros [= <-]. apply IH in Hr. destruct Hr as [H1 H2].
      simpl. rewrite H1, H2. auto.
    + destruct (update_rows s n id rest aux) as [e | r'] eqn:Hr;
        [discriminate |].
      intros [= <-]. apply IH in Hr. destruct Hr as [H1 H2].
      simpl. rewrite H1, H2. auto.
Qed.

Lemma update_appointments_cost s n id db db' :
  update_appointments s n id db = inr db' ->
  map a_total_cost (appointments db') = map a_total_cost (appointments db).
Proof.
  unfold update_appointments, sql_bind.
  destruct (update_rows _ _ _ _ _) as [e | r] eqn:Hr; [discriminate |].
  intros [= <-]. simpl. eapply update_rows_cost; eauto.
Qed.

(** C5, as stated, fails: the column has two decimals.  With an hourly
    rate of 150000.50 a session of 45 minutes is stored at 112500.38,
    where rate * 45 / 60 is 112500.375. *)
Lemma total_cost_is_rounded :
  let db := seed_with_rate monday 15000050 in
  select_hourly_rate db 2 = [15000050] /\
  exists r,
    insert_into_appointments (session 6 2 monday (hm 12 0) 45) db = inr r /\
    map a_total_cost (skipn 3 (appointments (snd r))) = [Some 11250038] /\
    11250038 * 60 <> 15000050 * 45.
Proof.
  split; [reflexivity |].
  eexists. split; [vm_compute; reflexivity |].
  split; [reflexivity | discriminate].
Qed.

(** C5, amended.  An INSERT that succeeds adds one row.  A total cost
    named by the INSERT is stored as it is.  Otherwise, with [rate] the
    hourly rate of the therapist's profile and [d] the duration (60
    unless named), the stored cost, in hundredths, is [rate] times
    [d / 60] cut to nine decimals, rounded half away from zero to two
    decimals; for [d] a multiple of 3 that is [rate * d / 60] rounded to
    two decimals, and exactly [rate * d / 60] when this has no more
    than two decimals.  Without a profile the cost stays [NULL].  The
    status UPDATE never changes a stored cost. *)
Theorem total_cost_at_insert (db : Db) (v : appointments_values) (r : Z * Db) :
  insert_into_appointments v db = inr r ->
  exists NEW,
    appointments (snd r) = appointments db ++ [NEW] /\
    a_duration_minutes NEW = default (v_duration_minutes v) 60 /\
    (forall c, v_total_cost v = Some c -> a_total_cost NEW = Some c) /\
    (v_total_cost v = None ->
     forall rate, select_hourly_rate db (v_therapist_id v) = [rate] ->
       a_total_cost NEW =
         Some (round_div
                 (mul_decimal rate (int_div_60 (a_duration_minutes NEW)))
                 quotient_scale) /\
       (a_duration_minutes NEW mod 3 = 0 ->
        a_total_cost NEW =
          Some (round_div (rate * a_duration_minutes NEW) 60)) /\
       (a_duration_minutes NEW mod 3 = 0 ->
        (rate * a_duration_minutes NEW) mod 60 = 0 ->
        exists c, a_total_cost NEW = Some c /\
                  c * 60 = rate * a_duration_minutes NEW)) /\
    (v_total_cost v = None ->
     select_hourly_rate db (v_therapist_id v) = [] ->
     a_total_cost NEW = None) /\
    (forall s n id db',
       update_appointments s n id (snd r) = inr db' ->
       map a_total_cost (appointments db')
       = map a_total_cost (appointments (snd r))).
Proof.
  intros Hi. apply insert_into_appointments_inr in Hi.
  destruct Hi as (NEW & _ & Hc & _ & _ & _ & Hn & _).
  apply create_appointment_notification_appointments in Hn. simpl in Hn.
  pose proof (calculate_appointment_cost_inr _ _ _ Hc) as Hnew.
  assert (a_duration_minutes NEW = default (v_duration_minutes v) 60) as Hd
    by (rewrite Hnew; reflexivity).
  exists NEW. split; [exact Hn |]. split; [exact Hd |].
  split; [| split; [| split]].
  - intros c Hv.
    rewrite (calculate_appointment_cost_supplied db (new_row db v) c Hv NEW Hc).
    exact Hv.
  - intros Hv rate Hrate.
    pose proof (calculate_appointment_cost_computed db (new_row db v) rate
                  Hv Hrate NEW Hc) as Hcost.
    simpl in Hcost. rewrite <- Hd in Hcost.
    split; [exact Hcost |]. split.
    + intros H3. rewrite Hcost. f_equal. apply cost_multiple_of_3. exact H3.
    + intros H3 H60. rewrite Hcost, (cost_multiple_of_3 _ _ H3).
      eexists. split; [reflexivity |].
      set (p := rate * a_duration_minutes NEW) in *.
      assert (p = p / 60 * 60) as Hp
        by (pose proof (Z.div_mod p 60); lia).
      rewrite Hp at 1. rewrite round_div_exact by lia. lia.
  - intros Hv Hrate.
    exact (calculate_appointment_cost_no_profile db (new_row db v) Hv Hrate
             NEW Hc).
  - intros s n id db' Hup. apply update_appointments_cost in Hup. exact Hup.
Qed.

Lemma total_cost_at_insert_witness :
  exists r NEW,
    insert_into_appointments (session 6 2 monday (hm 12 0) 45) (seed monday)
      = inr r /\
    appointments (snd r) = appointments (seed monday) ++ [NEW] /\
    a_total_cost NEW = Some 15000000.
Proof.
  destruct (insert_into_appointments (session 6 2 monday (hm 12 0) 45)
              (seed monday)) as [e | r] eqn:Hi.
  - vm_compute in Hi. discriminate Hi.
  - exists r.
    destruct (total_cost_at_insert (seed monday)
                (session 6 2 monday (hm 12 0) 45) r Hi)
      as (NEW & Hrows & Hd & _ & Hcomputed & _).
    exists NEW. split; [reflexivity |]. split; [exact Hrows |].
    destruct (Hcomputed eq_refl 20000000 eq_refl) as (_ & H3 & _).
    rewrite H3; rewrite Hd; reflexivity.
Defined.

(** The two costs the specification names: an hourly rate of 200000
    gives 200000.00 for 60 minutes and 150000.00 for 45. *)
Example cost_200000_for_60_minutes :
  to_decimal_10_2 (mul_decimal 20000000 (int_div_60 60)) = inr 20000000.
Proof. reflexivity. Qed.

Example cost_200000_for_45_minutes :
  to_decimal_10_2 (mul_decimal 20000000 (int_div_60 45)) = inr 15000000.
Proof. reflexivity. Qed.

Lemma create_appointment_notification_inr NEW db db' :
  create_appointment_notification NEW db = inr db' ->
  notifications db' =
    notifications db ++
    [ {| n_id := notifications_auto_increment db;
         n_user_id := a_therapist_id NEW;
         n_title := "Appointment Baru";
         n_message := ("Anda memiliki appointment baru pada " ++
                       DATE_FORMAT_dmY (a_appointment_date NEW) ++ " jam " ++
                       TIME_FORMAT_Hi (a_appointment_time NEW))%string;
         n_type := "appointment";
         n_related_id := Some (a_id NEW);
         n_related_type := Some "appointment"%string |};
      {| n_id := notifications_auto_increment db + 1;
         n_user_id := a_patient_id NEW;
         n_title := "Appointment Terkonfirmasi";
         n_message := ("Appointment Anda telah terjadwal pada " ++
                       DATE_FORMAT_dmY (a_appointment_date NEW) ++ " jam " ++
                       TIME_FORMAT_Hi (a_appointment_time NEW))%string;
         n_type := "appointment";
         n_related_id := Some (a_id NEW);
         n_related_type := Some "appointment"%string |} ] /\
  audit_logs db' = audit_logs db.
Proof.
  unfold create_appointment_notification, sql_bind.
  destruct (insert_into_notifications _ _ _ _ _ _ db) as [e | db1] eqn:H1;
    [discriminate |].
  intros H2.
  apply insert_into_notifications_inr in H1, H2. subst. simpl.
  rewrite <- app_assoc. auto.
Qed.

Lemma select_therapist_nonempty db therapist_id :
  select_therapist db therapist_id <> [] ->
  exists u, In u (users db) /\ u_id u = therapist_id /\
            u_role u = therapist /\ u_is_active u = true.
Proof.
  unfold select_therapist. intros H.
  destruct (filter _ (users db)) as [| u l] eqn:Hf; [contradiction H; reflexivity |].
  assert (In u (filter (fun u => (u_id u =? therapist_id) &&
                                 role_eqb (u_role u) therapist &&
                                 u_is_active u) (users db))) as Hin
    by (rewrite Hf; left; reflexivity).
  apply filter_In in Hin. destruct Hin as [Hin Hc].
  rewrite !andb_true_iff, Z.eqb_eq, role_eqb_eq in Hc.
  exists u. tauto.
Qed.

Lemma select_conflicts_empty db therapist_id d t :
  select_conflicts db therapist_id d t = [] ->
  forall a, In a (appointments db) ->
            a_therapist_id a = therapist_id ->
            a_appointment_date a = d ->
            a_appointment_time a = t ->
            ~ holds_slot a.
Proof.
  unfold select_conflicts. intros H a Hin Ht Hd Htime Hh.
  apply map_eq_nil in H.
  assert (In a (filter (conflicting therapist_id d t) (appointments db)))
    as Hin'.
  { apply filter_In. split; [exact Hin |]. unfold conflicting.
    rewrite !andb_true_iff, !Z.eqb_eq, date_eqb_eq, holds_slot_iff. auto. }
  rewrite H in Hin'. destruct Hin'.
Qed.

(** ** C6: what a successful creation does *)

(** C6.  Whenever [POST /api/appointments] answers 201, the therapist
    named is an active therapist among the users, no appointment held
    the slot, exactly one row was added to [appointments], with status
    'scheduled' and the id the answer carries, and exactly two rows
    were added to [notifications]: first "Appointment Baru" for the
    therapist, then "Appointment Terkonfirmasi" for the patient, each
    with the date as dd/mm/yyyy and the time as hh:mm in its message
    and with the new appointment's id as [related_id]. *)
Theorem successful_creation (db : Db) (user : jwt_user) (b : appointment_body) :
  code (answer (run (post_appointments user b) db)) = 201 ->
  exists therapist_id d h m NEW,
    b_therapist_id b = Some therapist_id /\
    b_appointment_date b = Some d /\
    b_appointment_time b = Some (h, m) /\
    (exists u, In u (users db) /\ u_id u = therapist_id /\
               u_role u = therapist /\ u_is_active u = true) /\
    (forall a, In a (appointments db) ->
               a_therapist_id a = therapist_id ->
               a_appointment_date a = d ->
               a_appointment_time a = time_of_hm h m ->
               ~ holds_slot a) /\
    answer (run (post_appointments user b) db) =
      {| code := 201;
         body := booked_body "Appointment booked successfully" (a_id NEW) |} /\
    appointments (database (run (post_appointments user b) db)) =
      appointments db ++ [NEW] /\
    a_status NEW = scheduled /\
    a_therapist_id NEW = therapist_id /\
    a_appointment_date NEW = d /\
    a_appointment_time NEW = time_of_hm h m /\
    notifications (database (run (post_appointments user b) db)) =
      notifications db ++
      [ {| n_id := notifications_auto_increment db;
           n_user_id := therapist_id;
           n_title := "Appointment Baru";
           n_message := ("Anda memiliki appointment baru pada " ++
                         DATE_FORMAT_dmY d ++ " jam " ++
                         TIME_FORMAT_Hi (time_of_hm h m))%string;
           n_type := "appointment";
           n_related_id := Some (a_id NEW);
           n_related_type := Some "appointment"%string |};
        {| n_id := notifications_auto_increment db + 1;
           n_user_id := a_patient_id NEW;
           n_title := "Appointment Terkonfirmasi";
           n_message := ("Appointment Anda telah terjadwal pada " ++
                         DATE_FORMAT_dmY d ++ " jam " ++
                         TIME_FORMAT_Hi (time_of_hm h m))%string;
           n_type := "appointment";
           n_related_id := Some (a_id NEW);
           n_related_type := Some "appointment"%string |} ].
Proof.
  unfold post_appointments.
  destruct (b_therapist_id b) as [therapist_id |];
    [| simpl; discriminate].
  destruct (b_appointment_date b) as [d |]; [| simpl; discriminate].
  destruct (b_appointment_time b) as [[h m] |]; [| simpl; discriminate].
  destruct (isISO8601 d && matches_time (h, m) &&
            notEmpty (trim (b_service_type b)) &&
            notEmpty (trim (b_address b))); [| simpl; discriminate].
  simpl fst. simpl snd.
  pose proof (run_create_appointment user therapist_id d (time_of_hm h m)
                (trim (b_service_type b)) (b_notes b) (trim (b_address b)) db)
    as Hrun.
  cbv zeta in Hrun.
  set (x := run (create_appointment user therapist_id d (time_of_hm h m)
                   (trim (b_service_type b)) (b_notes b)
                   (trim (b_address b))) db) in *.
  intros Hcode.
  destruct Hrun as [(_ & Hc & _) | [(_ & _ & Ha & _) | [(_ & _ & _ & Ha & _) |
                    (Ht & Hfree & r & Hi & Ha & Hdb)]]];
    try (rewrite Ha in Hcode; discriminate Hcode);
    try (rewrite Hc in Hcode; discriminate Hcode).
  apply insert_into_appointments_inr in Hi.
  destruct Hi as (NEW & _ & Hcost & _ & _ & _ & Hn & Hid).
  pose proof (create_appointment_notification_appointments _ _ _ Hn) as Hrows.
  apply create_appointment_notification_inr in Hn. destruct Hn as [Hn _].
  apply calculate_appointment_cost_inr in Hcost.
  assert (a_status NEW = scheduled /\ a_therapist_id NEW = therapist_id /\
          a_appointment_date NEW = d /\
          a_appointment_time NEW = time_of_hm h m) as (Hs & Hth & Hd & Htm)
    by (rewrite Hcost; simpl; auto).
  exists therapist_id, d, h, m, NEW.
  repeat split; try reflexivity; try assumption.
  - apply select_therapist_nonempty. exact Ht.
  - apply select_conflicts_empty. exact Hfree.
  - rewrite Ha, Hid. reflexivity.
  - rewrite Hdb, Hrows. reflexivity.
  - rewrite Hdb, Hn. simpl. rewrite Hth, Hd, Htm. reflexivity.
Qed.

Lemma successful_creation_witness :
  code (answer (run (post_appointments anna (booking 2 monday 10 0))
                  (seed monday))) = 201 /\
  exists NEW,
    appointments (database (run (post_appointments anna (booking 2 monday 10 0))
                              (seed monday)))
    = appointments (seed monday) ++ [NEW] /\
    a_status NEW = scheduled /\
    List.length (notifications
                   (database (run (post_appointments anna
                                     (booking 2 monday 10 0)) (seed monday))))
    = 2%nat.
Proof.
  assert (code (answer (run (post_appointments anna (booking 2 monday 10 0))
                          (seed monday))) = 201) as Hcode
    by (vm_compute; reflexivity).
  split; [exact Hcode |].
  destruct (successful_creation (seed monday) anna (booking 2 monday 10 0)
              Hcode)
    as (therapist_id & d & h & m & NEW & _ & _ & _ & _ & _ & _ & Hrows & Hs &
        _ & _ & _ & Hn).
  exists NEW. split; [exact Hrows |]. split; [exact Hs |].
  rewrite Hn. reflexivity.
Defined.

(** ** The status update, row by row *)

Lemma update_rows_no_match s n id rows aux :
  ~ In id (map a_id rows) -> update_rows s n id rows aux = inr (rows, aux).
Proof.
  induction rows as [| OLD rest IH]; simpl; intros Hnot.
  - reflexivity.
  - destruct (Z.eqb_spec (a_id OLD) id) as [Heq | Hne].
    + exfalso. apply Hnot. left. exact Heq.
    + unfold sql_bind. rewrite IH by tauto. reflexivity.
Qed.

(** With the primary key, the UPDATE touches the one row of that id
    and fires the trigger once. *)
Lemma update_rows_one s n id pre OLD post aux :
  NoDup (map a_id (pre ++ OLD :: post)) ->
  a_id OLD = id ->
  update_rows s n id (pre ++ OLD :: post) aux =
    if negb (fits_text n) then inl ER_DATA_TOO_LONG
    else
      (aux' <- log_appointment_changes OLD
                 (with_status_notes OLD s (COALESCE n (a_notes OLD))) aux ;;
       inr (pre ++ with_status_notes OLD s (COALESCE n (a_notes OLD)) :: post,
            aux')).
Proof.
  intros Hnd Hid. induction pre as [| p pre IH]; simpl in *.
  - inversion Hnd as [| ? ? Hnotin _]; subst.
    rewrite Z.eqb_refl. unfold sql_bind.
    destruct (negb (fits_text n)); [reflexivity |].
    destruct (log_appointment_changes _ _ aux) as [e | aux']; [reflexivity |].
    rewrite update_rows_no_match by exact Hnotin. reflexivity.
  - inversion Hnd as [| ? ? Hnotin Hnd']; subst.
    destruct (Z.eqb_spec (a_id p) (a_id OLD)) as [Heq | Hne].
    + exfalso. apply Hnotin. rewrite map_app, in_app_iff. right. left.
      symmetry. exact Heq.
    + unfold sql_bind in *. rewrite (IH Hnd').
      destruct (negb (fits_text n)); [reflexivity |].
      destruct (log_appointment_changes _ _ aux); reflexivity.
Qed.

Lemma log_appointment_changes_inr OLD NEW db db' :
  log_appointment_changes OLD NEW db = inr db' ->
  (a_status OLD = a_status NEW /\ db' = db) \/
  (a_status OLD <> a_status NEW /\
   db' = with_audit_logs db
           (audit_logs db ++
            [{| al_id := audit_logs_auto_increment db;
                al_user_id := Some (a_patient_id NEW);
                al_action := "status_change";
                al_table_name := "appointments";
                al_record_id := Some (a_id NEW);
                al_old_values := [("status"%string, status_name (a_status OLD))];
                al_new_values := [("status"%string, status_name (a_status NEW))]
             |}])
           (audit_logs_auto_increment db + 1)).
Proof.
  unfold log_appointment_changes, insert_into_audit_logs.
  destruct (status_eqb (a_status OLD) (a_status NEW)) eqn:Hs; simpl.
  - intros [= <-]. left. apply status_eqb_eq in Hs. auto.
  - destruct (user_exists _ _); [| discriminate].
    intros [= <-]. right. apply status_eqb_neq in Hs. auto.
Qed.

Lemma select_appointment_In db id uid r a :
  In a (select_appointment db id uid r) <->
  In a (appointments db) /\ a_id a = id /\
  (a_patient_id a = uid \/ a_therapist_id a = uid \/ r = admin).
Proof.
  unfold select_appointment.
  rewrite filter_In, andb_true_iff, !orb_true_iff, !Z.eqb_eq, role_eqb_eq.
  tauto.
Qed.

(** The three ways [PUT /api/appointments/:id/status] ends once the
    status is validated. *)
Lemma run_update_appointment_status user id s notes db :
  let x := run (update_appointment_status user id s notes) db in
  (select_appointment db id (userId user) (user_role user) = [] /\
   answer x = {| code := 404; body := error_body "Appointment not found" |} /\
   database x = db) \/
  (select_appointment db id (userId user) (user_role user) <> [] /\
   (notes = absent \/
    exists e, update_appointments s (bound_value notes) id db = inl e) /\
   answer x = internal_server_error /\ database x = db) \/
  (select_appointment db id (userId user) (user_role user) <> [] /\
   exists db', update_appointments s (bound_value notes) id db = inr db' /\
               answer x = {| code := 200;
                             body := message_body
                                       "Appointment status updated successfully"
                          |} /\
               database x = db').
Proof.
  unfold update_appointment_status, bind_parameter, try_await, answer,
    database.
  simpl.
  destruct (select_appointment db id (userId user) (user_role user))
    as [| a l] eqn:Hsel; simpl.
  - left. auto.
  - right. destruct notes as [| v]; simpl.
    + left. repeat split; try discriminate; auto.
    + destruct (update_appointments s v id db) as [e | db'] eqn:Hup; simpl.
      * left. repeat split; try discriminate; eauto.
      * right. split; [discriminate |]. exists db'. auto.
Qed.


(** A successful status update, taken apart: the row it changed and
    what the trigger did. *)
Lemma successful_update db user id b :
  primary_key_appointments db ->
  code (answer (run (put_appointment_status user id b) db)) = 200 ->
  exists s pre OLD post aux,
    recognized_status (b_status b) = Some s /\
    appointments db = pre ++ OLD :: post /\
    a_id OLD = id /\
    (a_patient_id OLD = userId user \/ a_therapist_id OLD = userId user \/
     user_role user = admin) /\
    log_appointment_changes OLD
      (with_status_notes OLD s
         (COALESCE (bound_value (b_status_notes b)) (a_notes OLD))) db
      = inr aux /\
    database (run (put_appointment_status user id b) db) =
      with_appointments aux
        (pre ++ with_status_notes OLD s
                  (COALESCE (bound_value (b_status_notes b)) (a_notes OLD))
             :: post)
        (appointments_auto_increment db).
Proof.
  intros Hpk. unfold put_appointment_status.
  destruct (recognized_status (b_status b)) as [s |]; [| simpl; discriminate].
  pose proof (run_update_appointment_status user id s (b_status_notes b) db)
    as Hrun.
  cbv zeta in Hrun.
  set (x := run (update_appointment_status user id s (b_status_notes b)) db)
    in *.
  intros Hcode.
  destruct Hrun as [(_ & Ha & _) | [(_ & _ & Ha & _) |
                    (Hsel & db' & Hup & _ & Hdb)]];
    try (rewrite Ha in Hcode; discriminate Hcode).
  destruct (select_appointment db id (userId user) (user_role user))
    as [| OLD l] eqn:Hs; [contradiction Hsel; reflexivity |].
  assert (In OLD (select_appointment db id (userId user) (user_role user)))
    as Hin by (rewrite Hs; left; reflexivity).
  apply select_appointment_In in Hin. destruct Hin as (Hin & Hid & Hauth).
  apply in_split in Hin. destruct Hin as (pre & post & Hrows).
  unfold update_appointments in Hup. unfold primary_key_appointments in Hpk.
  rewrite Hrows in Hup, Hpk.
  rewrite (update_rows_one s (bound_value (b_status_notes b)) id pre OLD post
             db Hpk Hid) in Hup.
  unfold sql_bind in Hup.
  destruct (negb (fits_text _)); [discriminate |].
  destruct (log_appointment_changes _ _ db) as [e | aux] eqn:Hlog;
    [discriminate |].
  injection Hup as <-. simpl in Hdb.
  exists s, pre, OLD, post, aux. auto 10.
Qed.

(** ** C7: the audit entry of a status change *)

(** C7, as stated, fails on who is recorded.  The admin (user 1)
    completes appointment 1, whose patient is user 6: the one audit
    entry names user 6, not the admin. *)
Lemma audit_entry_names_the_patient :
  let x := run (put_appointment_status the_admin 1
                  (set_status "completed" (Some "Session finished"%string)))
             (seed monday) in
  code (answer x) = 200 /\
  audit_logs (database x) =
    [ {| al_id := 1; al_user_id := Some 6; al_action := "status_change";
         al_table_name := "appointments"; al_record_id := Some 1;
         al_old_values := [("status"%string, "in_progress"%string)];
         al_new_values := [("status"%string, "completed"%string)] |} ] /\
  map al_user_id (audit_logs (database x)) <> [Some (userId the_admin)].
Proof. vm_compute. repeat split; try reflexivity. discriminate. Qed.

(** C7, amended.  For every status update that succeeds on an
    appointment: if the new status differs from the old one, exactly
    one audit entry is appended, recording the old status, the new
    status and, as user id, the patient of the appointment (whoever
    performed the change); if the new status equals the old one, no
    audit entry is produced. *)
Theorem status_change_audit (db : Db) (user : jwt_user) (id : Z)
  (b : status_body) :
  primary_key_appointments db ->
  code (answer (run (put_appointment_status user id b) db)) = 200 ->
  exists OLD s,
    In OLD (appointments db) /\ a_id OLD = id /\
    recognized_status (b_status b) = Some s /\
    (a_status OLD <> s ->
     audit_logs (database (run (put_appointment_status user id b) db)) =
       audit_logs db ++
       [ {| al_id := audit_logs_auto_increment db;
            al_user_id := Some (a_patient_id OLD);
            al_action := "status_change";
            al_table_name := "appointments";
            al_record_id := Some id;
            al_old_values := [("status"%string, status_name (a_status OLD))];
            al_new_values := [("status"%string, status_name s)] |} ]) /\
    (a_status OLD = s ->
     audit_logs (database (run (put_appointment_status user id b) db)) =
       audit_logs db).
Proof.
  intros Hpk Hcode.
  destruct (successful_update db user id b Hpk Hcode)
    as (s & pre & OLD & post & aux & Hs & Hrows & Hid & _ & Hlog & Hdb).
  exists OLD, s. split; [rewrite Hrows; apply in_elt |].
  split; [exact Hid |]. split; [exact Hs |].
  rewrite Hdb. simpl.
  apply log_appointment_changes_inr in Hlog. simpl in Hlog.
  destruct Hlog as [[Heq ->] | [Hne ->]]; simpl; split; intros H;
    try contradiction; try reflexivity.
  rewrite Hid. reflexivity.
Qed.

Lemma seed_primary_key today : primary_key_appointments (seed today).
Proof.
  unfold primary_key_appointments; simpl.
  repeat constructor; simpl; intros H;
    repeat (destruct H as [H | H]; [discriminate H |]); exact H.
Qed.

Lemma status_change_audit_witness :
  primary_key_appointments (seed monday) /\
  code (answer (run (put_appointment_status sarah 1
                       (set_status "completed" None)) (seed monday))) = 200 /\
  exists OLD s,
    In OLD (appointments (seed monday)) /\ a_id OLD = 1 /\
    recognized_status "completed" = Some s /\
    (a_status OLD <> s ->
     audit_logs (database (run (put_appointment_status sarah 1
                                  (set_status "completed" None))
                             (seed monday))) =
       audit_logs (seed monday) ++
       [ {| al_id := audit_logs_auto_increment (seed monday);
            al_user_id := Some (a_patient_id OLD);
            al_action := "status_change";
            al_table_name := "appointments";
            al_record_id := Some 1;
            al_old_values := [("status"%string, status_name (a_status OLD))];
            al_new_values := [("status"%string, status_name s)] |} ]) /\
    (a_status OLD = s ->
     audit_logs (database (run (put_appointment_status sarah 1
                                  (set_status "completed" None))
                             (seed monday))) =
       audit_logs (seed monday)).
Proof.
  assert (code (answer (run (put_appointment_status sarah 1
                               (set_status "completed" None))
                          (seed monday))) = 200) as Hcode
    by (vm_compute; reflexivity).
  split; [apply seed_primary_key |]. split; [exact Hcode |].
  exact (status_change_audit (seed monday) sarah 1
           (set_status "completed" None) (seed_primary_key monday) Hcode).
Defined.

(** ** C8: who may update a status, and with what *)

Lemma recognized_status_None (str : string) :
  recognized_status str = None <->
  ~ In str ["scheduled"; "confirmed"; "in_progress"; "completed";
            "cancelled"]%string.
Proof.
  unfold recognized_status. simpl.
  destruct (String.eqb_spec str "scheduled");
    [split; [discriminate | intros H; exfalso; apply H; auto] |].
  destruct (String.eqb_spec str "confirmed");
    [split; [discriminate | intros H; exfalso; apply H; auto] |].
  destruct (String.eqb_spec str "in_progress");
    [split; [discriminate | intros H; exfalso; apply H; auto] |].
  destruct (String.eqb_spec str "completed");
    [split; [discriminate | intros H; exfalso; apply H; auto] |].
  destruct (String.eqb_spec str "cancelled");
    [split; [discriminate | intros H; exfalso; apply H; auto 6] |].
  split; [| reflexivity].
  intros _ H. repeat (destruct H as [H | H]; [congruence |]). exact H.
Qed.

(** C8.  A status outside the five recognized values is answered 400
    before any statement is executed, the database untouched.  An
    actor who is neither the patient nor the therapist of the
    appointment of that id, and who is no admin, gets an error (400
    for an unrecognized status, else 404) and the database stays as it
    was.  And whenever the update is answered 200, the actor is the
    patient or the therapist of that appointment or an admin. *)
Theorem update_status_authorization (db : Db) (user : jwt_user) (id : Z)
  (b : status_body) :
  let x := run (put_appointment_status user id b) db in
  (~ In (b_status b) ["scheduled"; "confirmed"; "in_progress"; "completed";
                      "cancelled"]%string ->
   answer x = validation_failed /\ database x = db /\
   statements_executed x = 0%nat) /\
  ((forall a, In a (appointments db) -> a_id a = id ->
              a_patient_id a <> userId user /\
              a_therapist_id a <> userId user) ->
   user_role user <> admin ->
   (kind_of (answer x) = Some ValidationError \/
    kind_of (answer x) = Some NotFoundError) /\
   database x = db) /\
  (code (answer x) = 200 ->
   exists a, In a (appointments db) /\ a_id a = id /\
             (a_patient_id a = userId user \/
              a_therapist_id a = userId user \/ user_role user = admin)).
Proof.
  intros x. subst x. unfold put_appointment_status.
  split; [| split].
  - intros Hnot. apply recognized_status_None in Hnot. rewrite Hnot.
    simpl. auto.
  - intros Hstranger Hrole.
    destruct (recognized_status (b_status b)) as [s |]; [| simpl; auto].
    pose proof (run_update_appointment_status user id s (b_status_notes b) db)
      as Hrun.
    cbv zeta in Hrun.
    assert (select_appointment db id (userId user) (user_role user) = [])
      as Hsel.
    { destruct (select_appointment db id (userId user) (user_role user))
        as [| a l] eqn:Hs; [reflexivity |].
      assert (In a (select_appointment db id (userId user) (user_role user)))
        as Hin by (rewrite Hs; left; reflexivity).
      apply select_appointment_In in Hin.
      destruct Hin as (Hin & Hid & Hauth).
      destruct (Hstranger a Hin Hid). tauto. }
    destruct Hrun as [(_ & Ha & Hdb) | [(Hne & _) | (Hne & _)]];
      try contradiction.
    rewrite Ha, Hdb. auto.
  - destruct (recognized_status (b_status b)) as [s |];
      [| simpl; discriminate].
    pose proof (run_update_appointment_status user id s (b_status_notes b) db)
      as Hrun.
    cbv zeta in Hrun. intros Hcode.
    destruct Hrun as [(_ & Ha & _) | [(_ & _ & Ha & _) | (Hsel & _)]];
      try (rewrite Ha in Hcode; discriminate Hcode).
    destruct (select_appointment db id (userId user) (user_role user))
      as [| a l] eqn:Hs; [contradiction Hsel; reflexivity |].
    assert (In a (select_appointment db id (userId user) (user_role user)))
      as Hin by (rewrite Hs; left; reflexivity).
    apply select_appointment_In in Hin. exists a. exact Hin.
Qed.

Lemma update_status_authorization_witness :
  let x := run (put_appointment_status anna 1 (set_status "cancelled" None))
             (seed monday) in
  (kind_of (answer x) = Some ValidationError \/
   kind_of (answer x) = Some NotFoundError) /\
  database x = seed monday.
Proof.
  intros x.
  destruct (update_status_authorization (seed monday) anna 1
              (set_status "cancelled" None)) as (_ & Hstranger & _).
  apply Hstranger.
  - intros a Hin Hid. simpl in Hin.
    destruct Hin as [<- | [<- | [<- | []]]]; simpl in *;
      try discriminate Hid; split; discriminate.
  - discriminate.
Defined.

(** ** C9: no status is final *)




(** ** C10: the patient of a new appointment *)

(** C10.  Whenever [POST /api/appointments] answers 201, the row it
    added has the user id of the token as its patient id, whatever the
    role of the actor; and the request is handled the same whatever
    other members its body carries: nothing but the six members the
    handler names is read. *)
Theorem patient_is_the_actor (db : Db) (user : jwt_user) (b : appointment_body) :
  code (answer (run (post_appointments user b) db)) = 201 ->
  (exists NEW,
     appointments (database (run (post_appointments user b) db)) =
       appointments db ++ [NEW] /\
     body (answer (run (post_appointments user b) db)) =
       booked_body "Appointment booked successfully" (a_id NEW) /\
     a_patient_id NEW = userId user) /\
  (forall b',
     b_therapist_id b' = b_therapist_id b ->
     b_appointment_date b' = b_appointment_date b ->
     b_appointment_time b' = b_appointment_time b ->
     b_service_type b' = b_service_type b ->
     b_notes b' = b_notes b ->
     b_address b' = b_address b ->
     post_appointments user b' = post_appointments user b).
Proof.
  intros Hcode. split.
  - revert Hcode. unfold post_appointments.
    destruct (b_therapist_id b) as [therapist_id |];
      [| simpl; discriminate].
    destruct (b_appointment_date b) as [d |]; [| simpl; discriminate].
    destruct (b_appointment_time b) as [[h m] |]; [| simpl; discriminate].
    destruct (isISO8601 d && matches_time (h, m) &&
              notEmpty (trim (b_service_type b)) &&
              notEmpty (trim (b_address b))); [| simpl; discriminate].
    simpl fst. simpl snd.
    pose proof (run_create_appointment user therapist_id d (time_of_hm h m)
                  (trim (b_service_type b)) (b_notes b) (trim (b_address b))
                  db) as Hrun.
    cbv zeta in Hrun.
    set (x := run (create_appointment user therapist_id d (time_of_hm h m)
                     (trim (b_service_type b)) (b_notes b)
                     (trim (b_address b))) db) in *.
    intros Hcode.
    destruct Hrun as [(_ & Hc & _) | [(_ & _ & Ha & _) | [(_ & _ & _ & Ha & _) |
                      (_ & _ & r & Hi & Ha & Hdb)]]];
      try (rewrite Ha in Hcode; discriminate Hcode);
      try (rewrite Hc in Hcode; discriminate Hcode).
    apply insert_into_appointments_inr in Hi.
    destruct Hi as (NEW & _ & Hcost & _ & _ & _ & Hn & Hid).
    apply create_appointment_notification_appointments in Hn.
    apply calculate_appointment_cost_inr in Hcost.
    exists NEW. rewrite Ha, Hdb, Hn, Hid. simpl.
    repeat split. rewrite Hcost. reflexivity.
  - intros b' H1 H2 H3 H4 H5 H6. unfold post_appointments.
    rewrite H1, H2, H3, H4, H5, H6. reflexivity.
Qed.

Lemma patient_is_the_actor_witness :
  code (answer (run (post_appointments sarah (booking 3 monday 14 30))
                  (seed monday))) = 201 /\
  exists NEW,
    appointments (database (run (post_appointments sarah
                                   (booking 3 monday 14 30)) (seed monday))) =
      appointments (seed monday) ++ [NEW] /\
    a_patient_id NEW = userId sarah.
Proof.
  assert (code (answer (run (post_appointments sarah (booking 3 monday 14 30))
                          (seed monday))) = 201) as Hcode
    by (vm_compute; reflexivity).
  split; [exact Hcode |].
  destruct (patient_is_the_actor (seed monday) sarah (booking 3 monday 14 30)
              Hcode) as [(NEW & Hrows & _ & Hp) _].
  exists NEW. auto.
Defined.

(* ================================================================== *)
(** * Further properties of the code *)
(* ================================================================== *)

(** ** The outcomes of a booking *)

Lemma select_therapist_empty db therapist_id :
  select_therapist db therapist_id = [] <->
  ~ exists u, In u (users db) /\ u_id u = therapist_id /\
              u_role u = therapist /\ u_is_active u = true.
Proof.
  split.
  - intros Hnil (u & Hin & Hid & Hrole & Hact).
    assert (In (u_id u) (select_therapist db therapist_id)) as H.
    { unfold select_therapist. apply in_map. apply filter_In.
      split; [exact Hin |].
      rewrite !andb_true_iff, Z.eqb_eq, role_eqb_eq. auto. }
    rewrite Hnil in H. destruct H.
  - intros Hnone.
    destruct (select_therapist db therapist_id) as [| x l] eqn:Hs;
      [reflexivity |].
    exfalso. apply Hnone. apply select_therapist_nonempty.
    rewrite Hs. discriminate.
Qed.

Lemma select_conflicts_nonempty db therapist_id d t :
  select_conflicts db therapist_id d t <> [] <->
  exists a, In a (appointments db) /\ a_therapist_id a = therapist_id /\
            a_appointment_date a = d /\ a_appointment_time a = t /\
            holds_slot a.
Proof.
  split.
  - intros Hne.
    destruct (select_conflicts db therapist_id d t) as [| x l] eqn:Hs;
      [contradiction Hne; reflexivity |].
    unfold select_conflicts in Hs.
    destruct (filter (conflicting therapist_id d t) (appointments db))
      as [| a l'] eqn:Hf; [discriminate Hs |].
    assert (In a (filter (conflicting therapist_id d t) (appointments db)))
      as Hin by (rewrite Hf; left; reflexivity).
    apply filter_In in Hin. destruct Hin as [Hin Hc].
    unfold conflicting in Hc.
    rewrite !andb_true_iff, !Z.eqb_eq, date_eqb_eq, holds_slot_iff in Hc.
    exists a. tauto.
  - intros (a & Hin & Ht & Hd & Htm & Hh) Hnil.
    exact (select_conflicts_empty db therapist_id d t Hnil a Hin Ht Hd Htm Hh).
Qed.

(** The INSERT writes to [appointments] and [notifications] only. *)
Lemma insert_into_appointments_frame v db r :
  insert_into_appointments v db = inr r ->
  users (snd r) = users db /\
  therapists (snd r) = therapists db /\
  therapist_availability (snd r) = therapist_availability db /\
  audit_logs (snd r) = audit_logs db /\
  audit_logs_auto_increment (snd r) = audit_logs_auto_increment db /\
  appointments_auto_increment (snd r) = appointments_auto_increment db + 1 /\
  notifications_auto_increment (snd r) = notifications_auto_increment db + 2.
Proof.
  intros H. apply insert_into_appointments_inr in H.
  destruct H as (NEW & _ & _ & _ & _ & _ & Hn & _).
  unfold create_appointment_notification, sql_bind in Hn.
  destruct (insert_into_notifications _ _ _ _ _ _ _) as [e | db1] eqn:H1;
    [discriminate |].
  apply insert_into_notifications_inr in H1, Hn. rewrite Hn, H1. simpl.
  repeat split; try reflexivity. lia.
Qed.

(** X1.  The answer of [POST /api/appointments] to a request that passed
    validation is 404 exactly when no active therapist has the id
    named, 409 exactly when there is one and an appointment that is
    neither cancelled nor completed holds the slot, and 500 or 201
    otherwise; the database changes only with 201. *)
Theorem create_appointment_outcomes (db : Db) (user : jwt_user)
  (therapist_id : Z) (d : date) (t : time) (service_type : string)
  (notes : json_member) (address : string) :
  let x := run (create_appointment user therapist_id d t service_type notes
                  address) db in
  (code (answer x) = 404 <->
   ~ exists u, In u (users db) /\ u_id u = therapist_id /\
               u_role u = therapist /\ u_is_active u = true) /\
  (code (answer x) = 409 <->
   (exists u, In u (users db) /\ u_id u = therapist_id /\
              u_role u = therapist /\ u_is_active u = true) /\
   (exists a, In a (appointments db) /\ a_therapist_id a = therapist_id /\
              a_appointment_date a = d /\ a_appointment_time a = t /\
              holds_slot a)) /\
  (code (answer x) = 404 \/ code (answer x) = 409 \/
   code (answer x) = 500 \/ code (answer x) = 201) /\
  (code (answer x) <> 201 -> database x = db).
Proof.
  intros x. subst x.
  pose proof (run_create_appointment user therapist_id d t service_type notes
                address db) as Hrun.
  cbv zeta in Hrun.
  rewrite <- select_therapist_empty.
  assert ((exists u, In u (users db) /\ u_id u = therapist_id /\
                     u_role u = therapist /\ u_is_active u = true) <->
          select_therapist db therapist_id <> []) as Hth.
  { split; [| apply select_therapist_nonempty].
    intros Hex Hnil. apply select_therapist_empty in Hnil. tauto. }
  rewrite Hth, <- select_conflicts_nonempty.
  set (x := run (create_appointment user therapist_id d t service_type notes
                   address) db) in *.
  destruct Hrun as [(Ht & Hc & Hdb) | [(Ht & Hbusy & Ha & Hdb) |
                    [(Ht & Hfree & _ & Ha & Hdb) |
                     (Ht & Hfree & r & _ & Ha & Hdb)]]].
  - rewrite Hc. intuition congruence.
  - assert (code (answer x) = 409) as Hc by (rewrite Ha; reflexivity).
    rewrite Hc. intuition congruence.
  - assert (code (answer x) = 500) as Hc by (rewrite Ha; reflexivity).
    rewrite Hc. intuition congruence.
  - assert (code (answer x) = 201) as Hc by (rewrite Ha; reflexivity).
    rewrite Hc. intuition congruence.
Qed.

(** ** A slot is used once *)

Lemma slot_taken_blocks_insert v db a :
  In a (appointments db) ->
  a_therapist_id a = v_therapist_id v ->
  a_appointment_date a = v_appointment_date v ->
  a_appointment_time a = v_appointment_time v ->
  forall r, insert_into_appointments v db <> inr r.
Proof.
  intros Hin Ht Hd Htm r Hi.
  apply insert_into_appointments_rows in Hi.
  destruct Hi as (NEW & _ & Hnew & _ & Hdup).
  assert (existsb (same_slot NEW) (appointments db) = true) as Htrue.
  { apply existsb_exists. exists a. split; [exact Hin |].
    apply same_slot_true. rewrite Hnew. unfold slot_key. simpl.
    congruence. }
  congruence.
Qed.

(** X2.  In every state the server reaches no two rows of [appointments],
    cancelled and completed ones included, share therapist, date and
    time; and a booking for a slot in which any row exists, whatever
    its status, is never answered 201 and changes nothing. *)
Theorem slot_used_once (c : config) :
  reachable c ->
  (forall (i j : nat) (a b : appointments_row),
     nth_error (appointments (store c)) i = Some a ->
     nth_error (appointments (store c)) j = Some b ->
     slot_key a = slot_key b -> i = j) /\
  (forall user therapist_id d t service_type notes address,
     (exists a, In a (appointments (store c)) /\
                a_therapist_id a = therapist_id /\
                a_appointment_date a = d /\ a_appointment_time a = t) ->
     code (answer (run (create_appointment user therapist_id d t service_type
                          notes address) (store c))) <> 201 /\
     database (run (create_appointment user therapist_id d t service_type
                      notes address) (store c)) = store c).
Proof.
  intros Hr. split.
  - apply reachable_unique_appointment in Hr.
    unfold unique_appointment in Hr. rewrite NoDup_nth_error in Hr.
    intros i j a b Hi Hj Hk. apply Hr.
    + rewrite length_map. apply nth_error_Some. congruence.
    + rewrite !nth_error_map, Hi, Hj. simpl. congruence.
  - intros user therapist_id d t service_type notes address
           (a & Hin & Ht & Hd & Htm).
    pose proof (run_create_appointment user therapist_id d t service_type
                  notes address (store c)) as Hrun.
    cbv zeta in Hrun.
    destruct Hrun as [(_ & Hc & Hdb) | [(_ & _ & Ha & Hdb) |
                      [(_ & _ & _ & Ha & Hdb) | (_ & _ & r & Hi & _)]]].
    + rewrite Hc. split; [discriminate | exact Hdb].
    + rewrite Ha. split; [discriminate | exact Hdb].
    + rewrite Ha. split; [discriminate | exact Hdb].
    + exfalso.
      exact (slot_taken_blocks_insert
               (scheduled_values (userId user) therapist_id d t service_type
                  (bound_value notes) address) (store c) a Hin Ht Hd Htm r Hi).
Qed.

Lemma slot_used_once_witness :
  let c := {| store := seed_with_cancellation monday; in_flight := [] |} in
  reachable c /\
  code (answer (run (create_appointment anna 2 monday (hm 9 0) "Ortopedi"
                       (present None) "Jl. Thamrin No. 456") (store c))) <> 201 /\
  database (run (create_appointment anna 2 monday (hm 9 0) "Ortopedi"
                   (present None) "Jl. Thamrin No. 456") (store c)) = store c.
Proof.
  intros c. split; [exact seed_with_cancellation_reachable |].
  destruct (slot_used_once c seed_with_cancellation_reachable) as [_ Hused].
  apply Hused.
  eexists. split; [left; reflexivity |]. repeat split.
Defined.

(** ** Booking a slot twice *)

Lemma select_therapist_users db db' therapist_id :
  users db' = users db ->
  select_therapist db' therapist_id = select_therapist db therapist_id.
Proof. unfold select_therapist. intros ->. reflexivity. Qed.

(** X3.  A booking answered 201 leaves a 'scheduled' appointment in
    its slot.  In the database it leaves, and in any later one with
    the same users in which some appointment of that therapist, date
    and time is neither cancelled nor completed, a booking for the
    same therapist, date and time, by whomever and whatever its other
    members, is answered 409 "Time slot already booked" after two
    statements, and changes nothing.  (Once the appointment is
    cancelled or completed this is no longer so.) *)
Theorem second_booking_conflicts (db : Db) (user : jwt_user)
  (therapist_id : Z) (d : date) (t : time) (service_type : string)
  (notes : json_member) (address : string) :
  let db1 := database (run (create_appointment user therapist_id d t
                              service_type notes address) db) in
  code (answer (run (create_appointment user therapist_id d t service_type
                       notes address) db)) = 201 ->
  (exists NEW,
     In NEW (appointments db1) /\ slot_key NEW = (therapist_id, d, t) /\
     a_status NEW = scheduled) /\
  users db1 = users db /\
  forall db2,
    db2 = db1 \/
    (users db2 = users db /\
     exists a, In a (appointments db2) /\ slot_key a = (therapist_id, d, t) /\
               holds_slot a) ->
    forall user' service_type' notes' address',
      run (create_appointment user' therapist_id d t service_type' notes'
             address') db2
      = (time_slot_already_booked, db2, 2%nat).
Proof.
  intros db1. subst db1.
  pose proof (run_create_appointment user therapist_id d t service_type notes
                address db) as Hrun.
  cbv zeta in Hrun.
  set (x := run (create_appointment user therapist_id d t service_type notes
                   address) db) in *.
  intros Hcode.
  destruct Hrun as [(_ & Hc & _) | [(_ & _ & Ha & _) | [(_ & _ & _ & Ha & _) |
                    (Ht & _ & r & Hi & _ & Hdb)]]];
    try (rewrite Ha in Hcode; discriminate Hcode);
    try (rewrite Hc in Hcode; discriminate Hcode).
  rewrite Hdb.
  pose proof (insert_into_appointments_frame _ _ _ Hi) as (Hu & _).
  pose proof (insert_into_appointments_rows _ _ _ Hi)
    as (NEW & Hrows & Hnew & _ & _).
  assert (In NEW (appointments (snd r)) /\
          slot_key NEW = (therapist_id, d, t) /\ a_status NEW = scheduled)
    as (Hin & Hkey & Hst).
  { split; [rewrite Hrows; apply in_elt |]. rewrite Hnew. auto. }
  split; [exists NEW; auto |]. split; [exact Hu |].
  intros db2 Hdb2 user' service_type' notes' address'.
  assert (users db2 = users db /\
          exists a, In a (appointments db2) /\
                    slot_key a = (therapist_id, d, t) /\ holds_slot a)
    as (Hu2 & a & Hin2 & Hkey2 & Hholds).
  { destruct Hdb2 as [-> | H]; [| exact H].
    split; [exact Hu |]. exists NEW. split; [exact Hin |].
    split; [exact Hkey |]. unfold holds_slot. rewrite Hst.
    split; discriminate. }
  assert (select_conflicts db2 therapist_id d t <> []) as Hbusy.
  { apply select_conflicts_nonempty. exists a. unfold slot_key in Hkey2.
    injection Hkey2 as H1 H2 H3. auto. }
  unfold create_appointment, check_conflicts, try_await. simpl.
  rewrite (select_therapist_users db db2 therapist_id Hu2).
  destruct (select_therapist db therapist_id) as [| u us];
    [contradiction Ht; reflexivity |].
  simpl.
  destruct (select_conflicts db2 therapist_id d t) as [| a' l];
    [contradiction Hbusy; reflexivity |].
  reflexivity.
Qed.

Lemma second_booking_conflicts_witness :
  code (answer (run (create_appointment anna 2 monday (hm 10 0) "Ortopedi"
                       (present None) "Jl. Thamrin No. 456") (seed monday)))
    = 201 /\
  answer (run (create_appointment michael 2 monday (hm 10 0) "Neurologi"
                 absent "Jl. Gatot Subroto No. 789")
            (database (run (create_appointment anna 2 monday (hm 10 0)
                              "Ortopedi" (present None) "Jl. Thamrin No. 456")
                         (seed monday))))
    = time_slot_already_booked.
Proof.
  assert (code (answer (run (create_appointment anna 2 monday (hm 10 0)
                               "Ortopedi" (present None)
                               "Jl. Thamrin No. 456")
                          (seed monday))) = 201) as Hcode
    by (vm_compute; reflexivity).
  split; [exact Hcode |].
  destruct (second_booking_conflicts (seed monday) anna 2 monday (hm 10 0)
              "Ortopedi" (present None) "Jl. Thamrin No. 456" Hcode)
    as (_ & _ & Hagain).
  rewrite (Hagain _ (or_introl eq_refl) michael "Neurologi"%string absent
             "Jl. Gatot Subroto No. 789"%string).
  reflexivity.
Defined.

(** ** The cost of an appointment booked through the API *)

Lemma create_appointment_cost (db : Db) (user : jwt_user)
  (therapist_id : Z) (d : date) (t : time) (service_type : string)
  (notes : json_member) (address : string) :
  code (answer (run (create_appointment user therapist_id d t service_type
                       notes address) db)) = 201 ->
  exists NEW,
    appointments (database (run (create_appointment user therapist_id d t
                                   service_type notes address) db))
      = appointments db ++ [NEW] /\
    a_duration_minutes NEW = 60 /\
    (forall rate, select_hourly_rate db therapist_id = [rate] ->
                  a_total_cost NEW = Some rate) /\
    (select_hourly_rate db therapist_id = [] -> a_total_cost NEW = None).
Proof.
  pose proof (run_create_appointment user therapist_id d t service_type notes
                address db) as Hrun.
  cbv zeta in Hrun.
  set (x := run (create_appointment user therapist_id d t service_type notes
                   address) db) in *.
  intros Hcode.
  destruct Hrun as [(_ & Hc & _) | [(_ & _ & Ha & _) | [(_ & _ & _ & Ha & _) |
                    (_ & _ & r & Hi & _ & Hdb)]]];
    try (rewrite Ha in Hcode; discriminate Hcode);
    try (rewrite Hc in Hcode; discriminate Hcode).
  apply insert_into_appointments_inr in Hi.
  destruct Hi as (NEW & _ & Hcost & _ & _ & _ & Hn & _).
  apply create_appointment_notification_appointments in Hn. simpl in Hn.
  pose proof (calculate_appointment_cost_inr _ _ _ Hcost) as Hnew.
  exists NEW. rewrite Hdb. split; [exact Hn |].
  split; [rewrite Hnew; reflexivity |]. split.
  - intros rate Hrate.
    rewrite (calculate_appointment_cost_computed db
               (new_row db (scheduled_values (userId user) therapist_id d t
                              service_type (bound_value notes) address))
               rate eq_refl Hrate NEW Hcost).
    simpl. f_equal. unfold mul_decimal, int_div_60, quotient_scale.
    change (60 * 1000000000) with (1000000000 * 60).
    rewrite Z.quot_mul by lia. apply round_div_exact. lia.
  - intros Hrate.
    exact (calculate_appointment_cost_no_profile db
             (new_row db (scheduled_values (userId user) therapist_id d t
                            service_type (bound_value notes) address))
             eq_refl Hrate NEW Hcost).
Qed.

(** X4.  An appointment created by [POST /api/appointments] lasts 60
    minutes, and its total cost is the hourly rate of the therapist's
    profile, to the cent; [NULL] when the therapist has no profile. *)
Theorem booked_cost_is_hourly_rate (db : Db) (user : jwt_user)
  (therapist_id : Z) (d : date) (t : time) (service_type : string)
  (notes : json_member) (address : string) :
  code (answer (run (create_appointment user therapist_id d t service_type
                       notes address) db)) = 201 ->
  exists NEW,
    appointments (database (run (create_appointment user therapist_id d t
                                   service_type notes address) db))
      = appointments db ++ [NEW] /\
    a_duration_minutes NEW = 60 /\
    (forall rate, select_hourly_rate db therapist_id = [rate] ->
                  a_total_cost NEW = Some rate) /\
    (select_hourly_rate db therapist_id = [] -> a_total_cost NEW = None).
Proof. apply create_appointment_cost. Qed.

Lemma booked_cost_is_hourly_rate_witness :
  exists NEW,
    appointments (database (run (create_appointment anna 3 monday (hm 14 0)
                                   "Neurologi" (present None) "Jl. Thamrin No. 456")
                              (seed monday)))
      = appointments (seed monday) ++ [NEW] /\
    a_total_cost NEW = Some 25000000.
Proof.
  assert (code (answer (run (create_appointment anna 3 monday (hm 14 0)
                               "Neurologi" (present None) "Jl. Thamrin No. 456")
                          (seed monday))) = 201) as Hcode
    by (vm_compute; reflexivity).
  destruct (booked_cost_is_hourly_rate (seed monday) anna 3 monday (hm 14 0)
              "Neurologi" (present None) "Jl. Thamrin No. 456" Hcode)
    as (NEW & Hrows & _ & Hrate & _).
  exists NEW. split; [exact Hrows |]. apply Hrate. reflexivity.
Defined.

(** ** What a status update touches *)

Lemma log_appointment_changes_frame OLD NEW db db' :
  log_appointment_changes OLD NEW db = inr db' ->
  users db' = users db /\ therapists db' = therapists db /\
  appointments db' = appointments db /\
  therapist_availability db' = therapist_availability db /\
  notifications db' = notifications db /\
  appointments_auto_increment db' = appointments_auto_increment db /\
  notifications_auto_increment db' = notifications_auto_increment db /\
  exists entries, audit_logs db' = audit_logs db ++ entries.
Proof.
  intros H. apply log_appointment_changes_inr in H.
  destruct H as [[_ ->] | [_ ->]]; simpl; repeat split; eauto.
  exists []. rewrite app_nil_r. reflexivity.
Qed.

Lemma update_rows_frame s n id rows :
  forall aux r,
    update_rows s n id rows aux = inr r ->
    Forall2 (fun a a' =>
               a' = if a_id a =? id
                    then with_status_notes a s (COALESCE n (a_notes a))
                    else a) rows (fst r) /\
    users (snd r) = users aux /\ therapists (snd r) = therapists aux /\
    therapist_availability (snd r) = therapist_availability aux /\
    notifications (snd r) = notifications aux /\
    notifications_auto_increment (snd r) = notifications_auto_increment aux /\
    exists entries, audit_logs (snd r) = audit_logs aux ++ entries.
Proof.
  induction rows as [| OLD rest IH]; simpl; intros aux r.
  - intros [= <-]. simpl. repeat split; auto.
    exists []. rewrite app_nil_r. reflexivity.
  - unfold sql_bind. destruct (a_id OLD =? id) eqn:Hid.
    + destruct (fits_text n); simpl; [| discriminate].
      destruct (log_appointment_changes _ _ aux) as [e | aux1] eqn:Hlog;
        [discriminate |].
      destruct (update_rows s n id rest aux1) as [e | r'] eqn:Hr;
        [discriminate |].
      intros [= <-]. simpl.
      apply IH in Hr. apply log_appointment_changes_frame in Hlog.
      destruct Hr as (H2 & Hu & Ht & Hav & Hn & Hni & es & Hau).
      destruct Hlog as (Hu1 & Ht1 & _ & Hav1 & Hn1 & _ & Hni1 & es1 & Hau1).
      split; [constructor; [rewrite Hid; reflexivity | exact H2] |].
      repeat split; try congruence.
      exists (es1 ++ es). rewrite Hau, Hau1, app_assoc. reflexivity.
    + destruct (update_rows s n id rest aux) as [e | r'] eqn:Hr;
        [discriminate |].
      intros [= <-]. simpl. apply IH in Hr.
      destruct Hr as (H2 & Hrest).
      split; [constructor; [rewrite Hid; reflexivity | exact H2] |].
      exact Hrest.
Qed.


(** ** The handlers keep the tables consistent *)

Lemma user_exists_users db db' id :
  users db' = users db -> user_exists db' id = user_exists db id.
Proof. unfold user_exists. intros ->. reflexivity. Qed.

Lemma ids_below_snoc ids next :
  ids_below ids next -> ids_below (ids ++ [next]) (next + 1).
Proof.
  intros [Hnd Hlt]. split.
  - apply NoDup_snoc; [exact Hnd |].
    intros Hin. rewrite Forall_forall in Hlt. specialize (Hlt next Hin). lia.
  - apply Forall_app. split.
    + eapply Forall_impl; [| exact Hlt]. simpl. intros. lia.
    + constructor; [lia | constructor].
Qed.

Lemma log_appointment_changes_audit_ids OLD NEW db db' :
  log_appointment_changes OLD NEW db = inr db' ->
  ids_below (map al_id (audit_logs db)) (audit_logs_auto_increment db) ->
  ids_below (map al_id (audit_logs db')) (audit_logs_auto_increment db').
Proof.
  intros H Hids. apply log_appointment_changes_inr in H.
  destruct H as [[_ ->] | [_ ->]]; [exact Hids |].
  simpl. rewrite map_app. simpl. apply ids_below_snoc. exact Hids.
Qed.

Lemma update_rows_audit_ids s n id rows :
  forall aux r,
    update_rows s n id rows aux = inr r ->
    ids_below (map al_id (audit_logs aux)) (audit_logs_auto_increment aux) ->
    ids_below (map al_id (audit_logs (snd r)))
      (audit_logs_auto_increment (snd r)).
Proof.
  induction rows as [| OLD rest IH]; simpl; intros aux r.
  - intros [= <-]. auto.
  - unfold sql_bind. destruct (a_id OLD =? id).
    + destruct (fits_text n); simpl; [| discriminate].
      destruct (log_appointment_changes _ _ aux) as [e | aux1] eqn:Hlog;
        [discriminate |].
      destruct (update_rows s n id rest aux1) as [e | r'] eqn:Hr;
        [discriminate |].
      intros [= <-] Hids. simpl. eapply IH; [exact Hr |].
      eapply log_appointment_changes_audit_ids; eauto.
    + destruct (update_rows s n id rest aux) as [e | r'] eqn:Hr;
        [discriminate |].
      intros [= <-] Hids. simpl. eapply IH; eauto.
Qed.

Lemma execute_consistent A (q : statement A) db :
  consistent db -> consistent (snd (execute q db)).
Proof.
  intros Hc.
  pose proof (execute_unique_appointment A q db) as Huniq.
  pose proof Hc as (Hai & Hni & Hali & Hu & Hfk & Hnfk).
  specialize (Huniq Hu).
  destruct q; simpl in *; try exact Hc.
  - (* INSERT *)
    destruct (insert_into_appointments _ db) as [e | r] eqn:Hi; simpl in *;
      [exact Hc |].
    pose proof (insert_into_appointments_frame _ _ _ Hi)
      as (Husers & _ & _ & Haudit & Hacount & Hcount & Hncount).
    pose proof (insert_into_appointments_inr _ _ _ Hi)
      as (NEW & _ & Hcost & _ & Hp & Ht & Hn & _).
    pose proof (create_appointment_notification_appointments _ _ _ Hn)
      as Hrows.
    apply create_appointment_notification_inr in Hn. destruct Hn as [Hn _].
    simpl in Hrows, Hn.
    apply calculate_appointment_cost_inr in Hcost.
    assert (a_id NEW = appointments_auto_increment db) as Hid
      by (rewrite Hcost; reflexivity).
    unfold consistent, foreign_keys_appointments.
    rewrite Hrows, Hn, Haudit, Hacount, Hcount, Hncount.
    split; [rewrite map_app; simpl; rewrite Hid; apply ids_below_snoc;
            exact Hai |].
    split.
    { rewrite map_app. simpl.
      change [notifications_auto_increment db;
              notifications_auto_increment db + 1]
        with ([notifications_auto_increment db] ++
              [notifications_auto_increment db + 1]).
      rewrite app_assoc.
      replace (notifications_auto_increment db + 2)
        with (notifications_auto_increment db + 1 + 1) by lia.
      apply ids_below_snoc. apply ids_below_snoc. exact Hni. }
    split; [exact Hali |]. split; [exact Huniq |]. split.
    + apply Forall_app. split.
      * eapply Forall_impl; [| exact Hfk]. simpl. intros a [H1 H2].
        rewrite !(user_exists_users db (snd r)) by exact Husers. auto.
      * constructor; [| constructor].
        rewrite !(user_exists_users db (snd r)) by exact Husers. auto.
    + apply Forall_app. split.
      * eapply Forall_impl; [| exact Hnfk]. simpl. intros n H.
        rewrite (user_exists_users db (snd r)) by exact Husers. exact H.
      * repeat constructor; simpl;
          rewrite (user_exists_users db (snd r)) by exact Husers;
          assumption.
  - (* UPDATE *)
    destruct (update_appointments s notes id db) as [e | db'] eqn:Hup;
      simpl in *; [exact Hc |].
    pose proof (update_appointments_keys _ _ _ _ _ Hup) as [_ Hids].
    unfold update_appointments, sql_bind in Hup.
    destruct (update_rows _ _ _ _ _) as [e | r] eqn:Hr; [discriminate |].
    injection Hup as <-.
    pose proof (update_rows_audit_ids _ _ _ _ _ _ Hr Hali) as Hali'.
    apply update_rows_frame in Hr.
    destruct Hr as (H2 & Husers & _ & _ & Hn & Hncount & _).
    unfold consistent, foreign_keys_appointments in *. simpl in *.
    rewrite Hids, Hn, Hncount.
    split; [exact Hai |]. split; [exact Hni |]. split; [exact Hali' |].
    split; [exact Huniq |]. split.
    + clear - H2 Hfk Husers.
      induction H2 as [| a a' l l' Ha H2 IH]; [constructor |].
      inversion Hfk as [| ? ? [H1 H3] Hfk']; subst.
      constructor; [| apply IH; exact Hfk'].
      unfold user_exists in *. simpl. rewrite Husers.
      destruct (a_id a =? id); simpl; auto.
    + eapply Forall_impl; [| exact Hnfk]. simpl. intros n H.
      unfold user_exists in *. simpl. rewrite Husers. exact H.
Qed.

Lemma run_consistent R (h : handler R) :
  forall db, consistent db -> consistent (database (run h db)).
Proof.
  induction h as [r | A q k IH]; intros db Hc; simpl.
  - exact Hc.
  - specialize (IH (fst (execute q db)) (snd (execute q db))
                  (execute_consistent A q db Hc)).
    destruct (run (k (fst (execute q db))) (snd (execute q db)))
      as [[r db'] n].
    exact IH.
Qed.

Lemma seed_consistent today : consistent (seed today).
Proof.
  unfold consistent, ids_below, foreign_keys_appointments.
  split; [split; [exact (seed_primary_key today) |
                  simpl; repeat (constructor; [lia |]); constructor] |].
  split; [split; constructor |]. split; [split; constructor |].
  split; [exact (seed_unique_appointment today) |].
  split; simpl; repeat (constructor; [split; reflexivity |]); constructor.
Qed.

(** X6.  The primary keys with their counters, the unique key of
    [appointments] and the foreign keys to [users] survive every
    request: a handler that starts from tables consistent in this
    sense ends with consistent tables; and the id a 201 carries is the
    id of no appointment that was there before. *)
Theorem handlers_keep_consistency (db : Db) :
  consistent db ->
  (forall user b,
     consistent (database (run (post_appointments user b) db))) /\
  (forall user id b,
     consistent (database (run (put_appointment_status user id b) db))) /\
  (forall user therapist_id d t service_type notes address message id,
     answer (run (create_appointment user therapist_id d t service_type
                    notes address) db)
       = {| code := 201; body := booked_body message id |} ->
     ~ In id (map a_id (appointments db))).
Proof.
  intros Hc. split; [| split].
  - intros. apply run_consistent. exact Hc.
  - intros. apply run_consistent. exact Hc.
  - intros user therapist_id d t service_type notes address message id Hans.
    pose proof (run_create_appointment user therapist_id d t service_type
                  notes address db) as Hrun.
    cbv zeta in Hrun.
    destruct Hrun as [(_ & Hcode & _) | [(_ & _ & Ha & _) |
                      [(_ & _ & _ & Ha & _) | (_ & _ & r & Hi & Ha & _)]]].
    + rewrite Hans in Hcode. discriminate Hcode.
    + rewrite Hans in Ha. discriminate Ha.
    + rewrite Hans in Ha. discriminate Ha.
    + rewrite Hans in Ha. injection Ha as _ Hid.
      apply insert_into_appointments_rows in Hi.
      destruct Hi as (_ & _ & _ & Hfst & _).
      destruct Hc as ([_ Hlt] & _). rewrite Forall_forall in Hlt.
      intros Hin. specialize (Hlt id Hin). lia.
Qed.

Lemma handlers_keep_consistency_witness :
  consistent (seed monday) /\
  consistent (database (run (post_appointments anna (booking 2 monday 10 0))
                          (seed monday))) /\
  consistent (database (run (put_appointment_status the_admin 1
                               (set_status "completed" None))
                          (seed monday))).
Proof.
  pose proof (seed_consistent monday) as Hc.
  destruct (handlers_keep_consistency (seed monday) Hc) as (Hpost & Hput & _).
  split; [exact Hc |]. split; [apply Hpost | apply Hput].
Defined.

(** ** Bookings and the slots on offer *)

Lemma slots_exclude_booked db uid d rows :
  fst (GetAvailableTimeSlots uid d db) = inr rows ->
  forall s, In s rows ->
            existsb (Z.eqb (slot_time s)) (booked_times db uid d) = false.
Proof.
  unfold GetAvailableTimeSlots.
  destruct (scalar_subquery _) as [e | profile]; simpl; [discriminate |].
  intros [= <-] s Hin.
  apply in_map_iff in Hin. destruct Hin as (ta & <- & Hin).
  apply (Permutation_in _ (order_by_Permutation ta_start_time _)) in Hin.
  apply filter_In in Hin. destruct Hin as [_ Hsel].
  unfold slot_selected in Hsel.
  rewrite !andb_true_iff, negb_true_iff in Hsel. simpl. tauto.
Qed.

(** X7.  In the database a booking answered 201 leaves, and in any
    later one in which some appointment of that therapist, date and
    time is neither cancelled nor completed, [GetAvailableTimeSlots]
    for that therapist and date offers no slot at that time.  (Once
    the appointment is cancelled or completed the procedure offers the
    slot again.) *)
Theorem booked_slot_not_offered (db : Db) (user : jwt_user)
  (therapist_id : Z) (d : date) (t : time) (service_type : string)
  (notes : json_member) (address : string) :
  let db1 := database (run (create_appointment user therapist_id d t
                              service_type notes address) db) in
  code (answer (run (create_appointment user therapist_id d t service_type
                       notes address) db)) = 201 ->
  forall db2,
    db2 = db1 \/
    (exists a, In a (appointments db2) /\ slot_key a = (therapist_id, d, t) /\
               holds_slot a) ->
    forall rows,
      fst (GetAvailableTimeSlots therapist_id d db2) = inr rows ->
      forall s, In s rows -> slot_time s <> t.
Proof.
  intros db1. subst db1.
  pose proof (run_create_appointment user therapist_id d t service_type notes
                address db) as Hrun.
  cbv zeta in Hrun.
  set (x := run (create_appointment user therapist_id d t service_type notes
                   address) db) in *.
  intros Hcode db2 Hdb2 rows Hrows s Hin Heq.
  destruct Hrun as [(_ & Hc & _) | [(_ & _ & Ha & _) | [(_ & _ & _ & Ha & _) |
                    (_ & _ & r & Hi & _ & Hdb)]]];
    try (rewrite Ha in Hcode; discriminate Hcode);
    try (rewrite Hc in Hcode; discriminate Hcode).
  pose proof (slots_exclude_booked _ _ _ _ Hrows s Hin) as Hfree.
  apply insert_into_appointments_rows in Hi.
  destruct Hi as (NEW & Happ & Hnew & _ & _).
  assert (exists a, In a (appointments db2) /\
                    slot_key a = (therapist_id, d, t) /\ holds_slot a)
    as (a & Hin2 & Hkey & Hholds).
  { destruct Hdb2 as [-> | H]; [| exact H].
    exists NEW. rewrite Hdb, Happ. split; [apply in_elt |].
    rewrite Hnew. unfold holds_slot. simpl.
    repeat split; discriminate. }
  assert (existsb (Z.eqb (slot_time s)) (booked_times db2 therapist_id d)
          = true) as Hbusy.
  { apply booked_times_spec. exists a. unfold slot_key in Hkey.
    injection Hkey as H1 H2 H3. destruct Hholds as [H4 H5].
    repeat split; auto. congruence. }
  congruence.
Qed.

Lemma booked_slot_not_offered_witness :
  let db' := database (run (create_appointment anna 3 monday (hm 9 0)
                              "Neurologi" (present None)
                              "Jl. Thamrin No. 456")
                         (seed monday)) in
  (exists rows, fst (GetAvailableTimeSlots 3 monday (seed monday)) = inr rows /\
                map slot_time rows = [hm 9 0]) /\
  forall rows, fst (GetAvailableTimeSlots 3 monday db') = inr rows ->
               forall s, In s rows -> slot_time s <> hm 9 0.
Proof.
  intros db'. split; [eexists; split; reflexivity |].
  assert (code (answer (run (create_appointment anna 3 monday (hm 9 0)
                               "Neurologi" (present None)
                               "Jl. Thamrin No. 456")
                          (seed monday))) = 201) as Hcode
    by (vm_compute; reflexivity).
  exact (booked_slot_not_offered (seed monday) anna 3 monday (hm 9 0)
           "Neurologi" (present None) "Jl. Thamrin No. 456" Hcode db'
           (or_introl eq_refl)).
Defined.

(** X8.  For a user who has no row in [therapists] (a patient, an admin, a
    therapist who set up no profile) [GetAvailableTimeSlots] returns
    no row and no error, whatever the date and whatever windows the
    table holds. *)
Theorem no_profile_no_slots (db : Db) (therapist_user_id : Z) :
  (forall th, In th (therapists db) -> th_user_id th <> therapist_user_id) ->
  forall d, GetAvailableTimeSlots therapist_user_id d db = (inr [], db).
Proof.
  intros Hnone d. unfold GetAvailableTimeSlots.
  assert (filter (fun t => th_user_id t =? therapist_user_id) (therapists db)
          = []) as ->.
  { destruct (filter _ (therapists db)) as [| th l] eqn:Hf; [reflexivity |].
    assert (In th (filter (fun t => th_user_id t =? therapist_user_id)
                     (therapists db))) as Hin
      by (rewrite Hf; left; reflexivity).
    apply filter_In in Hin. destruct Hin as [Hin Heq].
    apply Z.eqb_eq in Heq. destruct (Hnone th Hin Heq). }
  simpl.
  assert (filter (slot_selected db None
                    (option_map (fun n => n - 1) (DAYOFWEEK d))
                    therapist_user_id d) (therapist_availability db) = [])
    as ->.
  { induction (therapist_availability db) as [| ta l IH]; [reflexivity |].
    simpl. exact IH. }
  reflexivity.
Qed.

Lemma no_profile_no_slots_witness :
  GetAvailableTimeSlots 6 monday (seed monday) = (inr [], seed monday).
Proof.
  apply (no_profile_no_slots (seed monday) 6).
  intros th Hin. simpl in Hin.
  destruct Hin as [<- | [<- | [<- | [<- | []]]]]; discriminate.
Defined.

(** ** Validation of a booking *)











(** ** The listing of appointments *)

Section LeftJoin.

Context {A B : Type} (on : A -> B -> bool).

Lemma left_join_In (l : list A) (r : list B) (a : A) (ob : option B) :
  In (a, ob) (left_join on l r) <->
  In a l /\
  match ob with
  | Some b => In b r /\ on a b = true
  | None => forall b, In b r -> on a b = false
  end.
Proof.
  unfold left_join. rewrite in_flat_map. split.
  - intros (a0 & Hin & Hx).
    destruct (filter (on a0) r) as [| b0 m] eqn:Hf.
    + destruct Hx as [[= -> <-] | []]. split; [exact Hin |].
      intros b Hb. destruct (on a b) eqn:Hon; [| reflexivity].
      assert (In b (filter (on a) r)) as H
        by (apply filter_In; split; assumption).
      rewrite Hf in H. destruct H.
    + apply in_map_iff in Hx. destruct Hx as (b & [= -> <-] & Hb).
      split; [exact Hin |]. rewrite <- Hf in Hb.
      apply filter_In in Hb. exact Hb.
  - intros [Hin Hob]. exists a. split; [exact Hin |].
    destruct ob as [b |].
    + destruct Hob as [Hb Hon].
      assert (In b (filter (on a) r)) as H
        by (apply filter_In; split; assumption).
      destruct (filter (on a) r) as [| b0 m]; [destruct H |].
      apply in_map_iff. exists b. auto.
    + destruct (filter (on a) r) as [| b0 m] eqn:Hf; [left; reflexivity |].
      assert (In b0 (filter (on a) r)) as H
        by (rewrite Hf; left; reflexivity).
      apply filter_In in H. destruct H as [H1 H2].
      rewrite (Hob b0 H1) in H2. discriminate H2.
Qed.


End LeftJoin.


Lemma appointments_joined_In db x :
  In x (appointments_joined db) -> In (l_appointment x) (appointments db).
Proof.
  unfold appointments_joined. intros H.
  apply in_map_iff in H. destruct H as ([[[a p] t] th] & <- & H). simpl.
  apply left_join_In in H. destruct H as [H _].
  apply left_join_In in H. destruct H as [H _].
  apply left_join_In in H. destruct H as [H _]. exact H.
Qed.


Lemma date_trichotomy (a b : date) :
  date_ltb a b = true \/ date_eqb a b = true \/ date_ltb b a = true.
Proof.
  destruct a as [y m d], b as [y' m' d']. unfold date_ltb, date_eqb. simpl.
  rewrite !orb_true_iff, !andb_true_iff, !orb_true_iff, !andb_true_iff,
    !Z.ltb_lt, !Z.eqb_eq.
  lia.
Qed.

Lemma newest_first_total (x y : appointment_listing) :
  newest_first x y = false -> newest_first y x = true.
Proof.
  unfold newest_first. cbv zeta.
  set (a := l_appointment x). set (b := l_appointment y).
  rewrite orb_false_iff, andb_false_iff, orb_true_iff, andb_true_iff.
  intros [Hlt Hor].
  destruct (date_trichotomy (a_appointment_date a) (a_appointment_date b))
    as [H | [H | H]]; [auto | | congruence].
  right. split.
  - apply date_eqb_eq. apply date_eqb_eq in H. congruence.
  - destruct Hor as [Hne | Hle]; [congruence |].
    apply Z.leb_le. apply Z.leb_gt in Hle. lia.
Qed.

Section SortBy.

Context {A : Type} (before : A -> A -> bool).
Hypothesis before_total : forall x y, before x y = false -> before y x = true.

Lemma insert_sorted_Permutation (x : A) (l : list A) :
  Permutation (insert_sorted before x l) (x :: l).
Proof.
  induction l as [| y l IH]; simpl; [reflexivity |].
  destruct (before x y); [reflexivity |].
  rewrite IH. apply perm_swap.
Qed.

Lemma sort_by_Permutation (l : list A) : Permutation (sort_by before l) l.
Proof.
  induction l as [| x l IH]; simpl; [reflexivity |].
  rewrite insert_sorted_Permutation, IH. reflexivity.
Qed.

Lemma insert_sorted_Sorted (x : A) (l : list A) :
  Sorted (fun a b => before a b = true) l ->
  Sorted (fun a b => before a b = true) (insert_sorted before x l).
Proof.
  induction 1 as [| y l Hs IH Hhd]; simpl; [repeat constructor |].
  destruct (before x y) eqn:Hxy.
  - constructor; [constructor; assumption | constructor; exact Hxy].
  - constructor; [exact IH |].
    destruct l as [| z l]; simpl.
    + constructor. apply before_total. exact Hxy.
    + destruct (before x z).
      * constructor. apply before_total. exact Hxy.
      * inversion Hhd; subst. constructor. assumption.
Qed.

Lemma sort_by_Sorted (l : list A) :
  Sorted (fun a b => before a b = true) (sort_by before l).
Proof.
  induction l as [| x l IH]; simpl; [constructor |].
  apply insert_sorted_Sorted. exact IH.
Qed.

End SortBy.

Lemma Sorted_firstn {A} (R : A -> A -> Prop) (n : nat) (l : list A) :
  Sorted R l -> Sorted R (firstn n l).
Proof.
  revert l. induction n as [| n IH]; intros l Hs; simpl; [constructor |].
  destruct Hs as [| x l Hs Hhd]; [constructor |].
  constructor; [apply IH; exact Hs |].
  destruct Hhd as [| y l' Hxy]; [destruct n; constructor |].
  destruct n; simpl; constructor. exact Hxy.
Qed.

Lemma In_firstn {A} (n : nat) (l : list A) (x : A) :
  In x (firstn n l) -> In x l.
Proof.
  revert l. induction n as [| n IH]; intros [| y l]; simpl; try tauto.
  intros [H | H]; [left; exact H | right; apply IH; exact H].
Qed.

Lemma listing_conditions_scope status_eq user q a :
  all_hold (listing_conditions status_eq user q) a = true ->
  (user_role user = patient -> a_patient_id a = userId user) /\
  (user_role user = therapist -> a_therapist_id a = userId user) /\
  (forall s, q_status q = Some s -> notEmpty s = true ->
             status_eq s (a_status a) = true) /\
  (forall d, q_date q = Some d -> a_appointment_date a = d).
Proof.
  unfold all_hold, listing_conditions. rewrite !forallb_app, !andb_true_iff.
  intros [Hrole [Hstatus Hdate]]. repeat split.
  - intros Hr. rewrite Hr in Hrole. simpl in Hrole.
    rewrite andb_true_r in Hrole. apply Z.eqb_eq. exact Hrole.
  - intros Hr. rewrite Hr in Hrole. simpl in Hrole.
    rewrite andb_true_r in Hrole. apply Z.eqb_eq. exact Hrole.
  - intros s Hs Hne. rewrite Hs, Hne in Hstatus. simpl in Hstatus.
    rewrite andb_true_r in Hstatus. exact Hstatus.
  - intros d Hd. rewrite Hd in Hdate. simpl in Hdate.
    rewrite andb_true_r in Hdate. apply date_eqb_eq. exact Hdate.
Qed.

(** X10.  Whatever filters the query carries, the rows [GET
    /api/appointments] returns are rows of [appointments]; a patient
    gets only appointments of which they are the patient, a therapist
    only appointments of which they are the therapist; a status or
    date filter holds of every row; there are no more rows than the
    limit (50 when the query names none); and the rows come latest
    date first and, within a date, latest time first. *)
Theorem listing_is_scoped (status_eq : string -> status -> bool)
  (user : jwt_user) (q : appointments_query) (db : Db)
  (rows : list appointment_listing) :
  get_appointments status_eq user q db = listing_json rows ->
  (forall x, In x rows ->
     In (l_appointment x) (appointments db) /\
     (user_role user = patient -> a_patient_id (l_appointment x) = userId user) /\
     (user_role user = therapist ->
      a_therapist_id (l_appointment x) = userId user) /\
     (forall s, q_status q = Some s -> notEmpty s = true ->
                status_eq s (a_status (l_appointment x)) = true) /\
     (forall d, q_date q = Some d ->
                a_appointment_date (l_appointment x) = d)) /\
  Z.of_nat (List.length rows) <= default (q_limit q) 50 /\
  Sorted (fun x y => newest_first x y = true) rows.
Proof.
  unfold get_appointments, select_appointments.
  destruct (Z.ltb_spec (default (q_limit q) 50) 0) as [Hneg | Hpos];
    [discriminate |].
  intros [= <-]. split; [| split].
  - intros x Hin. apply In_firstn in Hin.
    apply (Permutation_in _ (sort_by_Permutation newest_first _)) in Hin.
    apply filter_In in Hin. destruct Hin as [Hin Hc].
    split; [apply appointments_joined_In; exact Hin |].
    apply (listing_conditions_scope status_eq). exact Hc.
  - pose proof (firstn_le_length (Z.to_nat (default (q_limit q) 50))
                  (sort_by newest_first
                     (filter (fun x => all_hold
                                         (listing_conditions status_eq user q)
                                         (l_appointment x))
                        (appointments_joined db)))) as H.
    lia.
  - apply Sorted_firstn. apply sort_by_Sorted. exact newest_first_total.
Qed.

Lemma listing_is_scoped_witness :
  exists rows,
    get_appointments (fun s st => String.eqb s (status_name st)) sarah
      {| q_status := Some "completed"%string; q_date := None;
         q_limit := None |}
      (database (run (put_appointment_status sarah 1
                        (set_status "completed" None)) (seed monday)))
    = listing_json rows /\
    map (fun x => a_id (l_appointment x)) rows = [1] /\
    forall x, In x rows -> a_therapist_id (l_appointment x) = userId sarah.
Proof.
  eexists. split; [vm_compute; reflexivity |]. split; [reflexivity |].
  intros x Hin.
  refine (proj1 (proj2 (proj2 (proj1
            (listing_is_scoped (fun s st => String.eqb s (status_name st))
               sarah
               {| q_status := Some "completed"%string; q_date := None;
                  q_limit := None |}
               (database (run (put_appointment_status sarah 1
                                 (set_status "completed" None))
                            (seed monday)))
               _ _) x Hin))) eq_refl).
  vm_compute. reflexivity.
Defined.




(** ** authenticateToken *)

Local Open Scope string_scope.

Lemma split_space_word (w rest : string) :
  no_space w = true ->
  split_space (w ++ String " " rest) = w :: split_space rest.
Proof.
  induction w as [| c w IH]; simpl; [reflexivity |].
  rewrite andb_true_iff, negb_true_iff. intros [Hc Hw].
  rewrite Hc, (IH Hw). reflexivity.
Qed.

Lemma split_space_no_space (w : string) :
  no_space w = true -> split_space w = [w].
Proof.
  induction w as [| c w IH]; simpl; [reflexivity |].
  rewrite andb_true_iff, negb_true_iff. intros [Hc Hw].
  rewrite Hc, (IH Hw). reflexivity.
Qed.

Lemma notEmpty_app_space (w rest : string) :
  notEmpty (w ++ String " " rest) = true.
Proof. destruct w; reflexivity. Qed.

(** X12.  [authenticateToken] takes the text between the first and the
    second space of the [Authorization] header as the token and never
    looks at the word before it: with any word there, "Bearer" or
    another or none, and with anything after a second space, the
    request is let through with the claims of the token exactly when
    [jwt.verify] accepts the token, and is answered 403 otherwise.  A
    missing or empty header, a header without a space and a header
    with nothing between its first two spaces are answered 401, even
    if the header is itself a valid token. *)
Theorem authenticateToken_reads_second_word
  (verify : string -> option jwt_user) (scheme token : string) :
  no_space scheme = true ->
  no_space token = true ->
  notEmpty token = true ->
  (forall rest,
     authenticateToken verify (Some (scheme ++ String " " token)) =
       match verify token with
       | Some user => inr user
       | None => inl {| code := 403; body := error_body "Invalid token" |}
       end /\
     authenticateToken verify
       (Some (scheme ++ String " " (token ++ String " " rest))) =
     authenticateToken verify (Some (scheme ++ String " " token))) /\
  (forall header rest,
     header = None \/ header = Some EmptyString \/ header = Some token \/
     header = Some (scheme ++ String " " (String " " rest)) ->
     authenticateToken verify header =
       inl {| code := 401; body := error_body "Access token required" |}).
Proof.
  intros Hscheme Htoken Hne. split.
  - intros rest.
    assert (forall tail, token_of (Some (scheme ++ String " " tail)) =
                         match split_space tail with
                         | t :: _ => if notEmpty t then Some t else None
                         | [] => None
                         end) as Htok.
    { intros tail. unfold token_of.
      rewrite notEmpty_app_space, (split_space_word _ _ Hscheme). simpl.
      destruct (split_space tail); reflexivity. }
    unfold authenticateToken. rewrite !Htok.
    rewrite (split_space_word _ _ Htoken),
      (split_space_no_space _ Htoken), Hne.
    split; reflexivity.
  - intros header rest [-> | [-> | [-> | ->]]]; unfold authenticateToken.
    + reflexivity.
    + reflexivity.
    + unfold token_of. rewrite Hne, (split_space_no_space _ Htoken).
      reflexivity.
    + unfold token_of.
      rewrite notEmpty_app_space, (split_space_word _ _ Hscheme).
      reflexivity.
Qed.

Lemma authenticateToken_reads_second_word_witness :
  let verify := fun t : string =>
                  if String.eqb t "t0k3n" then Some anna else None in
  authenticateToken verify (Some "Basic t0k3n"%string) = inr anna /\
  authenticateToken verify (Some "Bearer t0k3n and more"%string) = inr anna /\
  authenticateToken verify (Some "t0k3n"%string) =
    inl {| code := 401; body := error_body "Access token required" |}.
Proof.
  intros verify.
  destruct (authenticateToken_reads_second_word verify "Basic" "t0k3n"
              eq_refl eq_refl eq_refl) as [Hword Hnone].
  split; [exact (proj1 (Hword EmptyString)) |].
  split; [reflexivity |].
  exact (Hnone (Some "t0k3n"%string) EmptyString
           (or_intror (or_intror (or_introl eq_refl)))).
Defined.


Local Close Scope string_scope.

(** ** The dashboard figures *)

Lemma count_and_le {A} (f g : A -> bool) (l : list A) :
  0 <= count (fun a => f a && g a) l <= count f l.
Proof.
  unfold count. split; [lia |].
  apply inj_le. induction l as [| a l IH]; simpl; [lia |].
  destruct (f a), (g a); simpl; lia.
Qed.

Lemma filter_nil {A} (P : A -> bool) (l : list A) :
  (forall x, In x l -> P x = false) -> filter P l = [].
Proof.
  induction l as [| x l IH]; simpl; intros H; [reflexivity |].
  rewrite (H x (or_introl eq_refl)). apply IH.
  intros y Hy. apply H. right. exact Hy.
Qed.

Lemma SUM_fold (l : list (option Z)) (acc : option Z) :
  (forall x v, In x l -> x = Some v -> 0 <= v) ->
  (forall v, acc = Some v -> 0 <= v) ->
  forall v,
    fold_left (fun acc x =>
                 match x with
                 | None => acc
                 | Some v => Some (default acc 0 + v)
                 end) l acc = Some v -> 0 <= v.
Proof.
  revert acc. induction l as [| x l IH]; simpl; intros acc Hl Hacc v.
  - apply Hacc.
  - apply IH.
    + intros y w Hy. apply Hl. right. exact Hy.
    + destruct x as [w |]; [| exact Hacc].
      intros u [= <-].
      assert (0 <= w) by (apply (Hl (Some w) w); auto).
      destruct acc as [a |]; simpl; [| lia].
      specialize (Hacc a eq_refl). lia.
Qed.

(** X13.  [GET /api/dashboard/stats] refuses patients with 403 and
    answers admins and therapists with four figures, each the result
    of its own query in the database as that query finds it.  No
    count is negative; the sessions completed today are 0 when the
    second query finds none, and the revenue, the sum of the hourly
    rates of the profiles of the therapists of today's completed
    appointments, is 0 when the fourth query finds none and never
    negative when no hourly rate is.  When no statement of another
    request changes the database between the first query and the
    second, the sessions completed today are no more than today's
    appointments. *)
Theorem dashboard_figures (user : jwt_user) (today : date)
  (db1 db2 db3 db4 : Db) :
  let served := get_dashboard_stats user today db1 db2 db3 db4 in
  let stats := dashboard_stats today db1 db2 db3 db4 in
  (user_role user = patient ->
   served =
     inl {| code := 403; body := error_body "Insufficient permissions" |}) /\
  (user_role user <> patient -> served = inr stats) /\
  0 <= todayAppointments stats /\
  0 <= completedToday stats /\
  0 <= pending stats /\
  (db2 = db1 -> completedToday stats <= todayAppointments stats) /\
  ((forall a, In a (appointments db2) -> a_appointment_date a = today ->
              a_status a <> completed) ->
   completedToday stats = 0) /\
  ((forall a, In a (appointments db4) -> a_appointment_date a = today ->
              a_status a <> completed) ->
   revenueToday stats = 0) /\
  ((forall th, In th (therapists db4) -> 0 <= th_hourly_rate th) ->
   0 <= revenueToday stats).
Proof.
  intros served stats. subst served stats.
  assert (forall db,
            (forall a, In a (appointments db) -> a_appointment_date a = today ->
                       a_status a <> completed) ->
            forall a, In a (appointments db) ->
                      date_eqb (a_appointment_date a) today &&
                      status_eqb (a_status a) completed = false) as Hfalse.
  { intros db Hnone a Hin.
    destruct (date_eqb (a_appointment_date a) today) eqn:Hd;
      [| reflexivity].
    destruct (status_eqb (a_status a) completed) eqn:Hs; [| reflexivity].
    apply date_eqb_eq in Hd. apply status_eqb_eq in Hs.
    destruct (Hnone a Hin Hd Hs). }
  split; [intros Hr; unfold get_dashboard_stats, authorize; rewrite Hr;
          reflexivity |].
  split; [intros Hr; unfold get_dashboard_stats, authorize;
          destruct (user_role user); try reflexivity; contradiction Hr;
          reflexivity |].
  unfold dashboard_stats, count_today, count_completed_today, count_pending,
    sum_revenue_today.
  cbn [todayAppointments completedToday pending revenueToday].
  split; [unfold count; lia |]. split; [unfold count; lia |].
  split; [unfold count; lia |].
  split; [intros ->; apply count_and_le |].
  split; [| split].
  - intros Hnone. unfold count.
    rewrite filter_nil; [reflexivity | exact (Hfalse db2 Hnone)].
  - intros Hnone.
    rewrite filter_nil; [reflexivity |].
    intros [a oth] Hx. apply left_join_In in Hx.
    apply (Hfalse db4 Hnone). apply Hx.
  - intros Hrates.
    match goal with
    | |- 0 <= default (SUM ?l) 0 =>
        destruct (SUM l) as [v |] eqn:Hsum; simpl; [| lia];
        apply (SUM_fold l None); [| discriminate | exact Hsum]
    end.
    intros x w Hx ->. apply in_map_iff in Hx.
    destruct Hx as ([a [th |]] & Hw & Hx); simpl in Hw; [| discriminate].
    injection Hw as <-. apply filter_In in Hx. destruct Hx as [Hx _].
    apply left_join_In in Hx. apply Hrates. apply Hx.
Qed.

(** ** UpdateTherapistRating *)

Lemma sum_bounds (l : list Z) :
  (forall r, In r l -> 1 <= r <= 5) ->
  Z.of_nat (List.length l) <= fold_right Z.add 0 l
    <= 5 * Z.of_nat (List.length l).
Proof.
  induction l as [| r l IH]; intros H; [simpl; lia |].
  assert (1 <= r <= 5) by (apply H; left; reflexivity).
  assert (Z.of_nat (List.length l) <= fold_right Z.add 0 l
            <= 5 * Z.of_nat (List.length l))
    by (apply IH; intros; apply H; right; assumption).
  cbn [List.length fold_right]. lia.
Qed.

Lemma round_div_bounds (a n lo hi : Z) :
  0 < n -> 0 <= lo -> lo * n <= a <= hi * n -> lo <= round_div a n <= hi.
Proof.
  intros Hn Hlo [Hl Hh]. unfold round_div.
  destruct (Z.leb_spec 0 a) as [Ha | Ha]; [| nia].
  split.
  - apply Z.div_le_lower_bound; nia.
  - assert ((2 * a + n) / (2 * n) < hi + 1); [| lia].
    apply Z.div_lt_upper_bound; nia.
Qed.

(** X14.  After [UpdateTherapistRating], with every rating between 1 and 5
    as the table checks, the therapist's [total_reviews] is the number
    of their approved reviews, reviews not approved and reviews of
    other therapists counting for nothing; their [rating] is 0.00 when
    they have no approved review and lies between 1.00 and 5.00
    otherwise; and the rows of the other therapists are as they
    were. *)
Theorem UpdateTherapistRating_spec (therapist_user_id : Z)
  (reviews : list reviews_row) (therapists : list therapist_rating) :
  (forall r, In r reviews -> 1 <= rv_rating r <= 5) ->
  exists therapists',
    UpdateTherapistRating therapist_user_id reviews therapists
      = inr therapists' /\
    Forall2 (fun t t' =>
               tr_user_id t' = tr_user_id t /\
               (tr_user_id t <> therapist_user_id -> t' = t) /\
               (tr_user_id t = therapist_user_id ->
                tr_total_reviews t' =
                  Some (count (fun r => (rv_therapist_id r
                                           =? therapist_user_id) &&
                                        rv_is_approved r) reviews) /\
                exists v, tr_rating t' = Some v /\
                  (approved_ratings reviews therapist_user_id = [] ->
                   v = 0) /\
                  (approved_ratings reviews therapist_user_id <> [] ->
                   100 <= v <= 500)))
      therapists therapists'.
Proof.
  intros Hrange. unfold UpdateTherapistRating, sql_bind.
  assert (List.length (approved_ratings reviews therapist_user_id) =
          List.length (filter (fun r => (rv_therapist_id r
                                           =? therapist_user_id) &&
                                        rv_is_approved r) reviews)) as Hlen
    by (unfold approved_ratings; apply length_map).
  assert (forall r, In r (approved_ratings reviews therapist_user_id) ->
                    1 <= r <= 5) as Hr.
  { intros r Hin. unfold approved_ratings in Hin.
    apply in_map_iff in Hin. destruct Hin as (rv & <- & Hin).
    apply filter_In in Hin. apply Hrange. apply Hin. }
  remember (approved_ratings reviews therapist_user_id) as ratings
    eqn:Hratings.
  assert (exists avg, AVG_3_2 ratings = inr avg /\
            exists v, COALESCE avg (Some 0) = Some v /\
                      (ratings = [] -> v = 0) /\
                      (ratings <> [] -> 100 <= v <= 500))
    as (avg & Havg & Hv).
  { destruct ratings as [| r l].
    - exists None. split; [reflexivity |]. exists 0. simpl.
      repeat split; congruence.
    - pose proof (sum_bounds (r :: l) Hr) as Hsum.
      assert (0 < Z.of_nat (List.length (r :: l))) by (simpl; lia).
      assert (100 <= round_div (fold_right Z.add 0 (r :: l) * 100)
                       (Z.of_nat (List.length (r :: l))) <= 500) as Hb
        by (apply round_div_bounds; lia).
      unfold AVG_3_2. cbv beta iota zeta.
      destruct (Z.leb_spec
                  (Z.abs (round_div (fold_right Z.add 0 (r :: l) * 100)
                            (Z.of_nat (List.length (r :: l))))) 999);
        [| lia].
      eexists. split; [reflexivity |]. eexists.
      split; [reflexivity |]. split; [discriminate | intros _; exact Hb]. }
  rewrite Havg. eexists. split; [reflexivity |].
  induction therapists as [| t l IH]; simpl; constructor; [| exact IH].
  destruct (Z.eqb_spec (tr_user_id t) therapist_user_id) as [Heq | Hne];
    simpl.
  - split; [reflexivity |]. split; [intros H; contradiction |].
    intros _. split; [unfold count; rewrite Hlen; reflexivity | exact Hv].
  - split; [reflexivity |]. split; [reflexivity |].
    intros H; contradiction.
Qed.

Lemma UpdateTherapistRating_spec_witness :
  let reviews :=
    [ {| rv_therapist_id := 2; rv_rating := 5; rv_is_approved := true |};
      {| rv_therapist_id := 2; rv_rating := 4; rv_is_approved := true |};
      {| rv_therapist_id := 2; rv_rating := 4; rv_is_approved := true |};
      {| rv_therapist_id := 2; rv_rating := 1; rv_is_approved := false |};
      {| rv_therapist_id := 3; rv_rating := 2; rv_is_approved := true |} ] in
  let therapists :=
    [ {| tr_user_id := 2; tr_rating := Some 480; tr_total_reviews := Some 125 |};
      {| tr_user_id := 3; tr_rating := Some 490; tr_total_reviews := Some 98 |}
    ] in
  (forall r, In r reviews -> 1 <= rv_rating r <= 5) /\
  UpdateTherapistRating 2 reviews therapists =
    inr [ {| tr_user_id := 2; tr_rating := Some 433;
             tr_total_reviews := Some 3 |};
          {| tr_user_id := 3; tr_rating := Some 490;
             tr_total_reviews := Some 98 |} ].
Proof.
  intros reviews therapists.
  assert (forall r, In r reviews -> 1 <= rv_rating r <= 5) as Hrange.
  { intros r Hin. simpl in Hin.
    destruct Hin as [<- | [<- | [<- | [<- | [<- | []]]]]]; simpl; lia. }
  split; [exact Hrange |].
  destruct (UpdateTherapistRating_spec 2 reviews therapists Hrange)
    as (therapists' & Heq & _).
  reflexivity.
Defined.

(** ** The list of therapists and the bookings *)

Lemma get_therapists_In db x :
  In x (get_therapists db) <->
  In (tl_user x) (users db) /\
  u_role (tl_user x) = therapist /\ u_is_active (tl_user x) = true /\
  match tl_profile x with
  | Some th => In th (therapists db) /\ u_id (tl_user x) = th_user_id th
  | None => forall th, In th (therapists db) ->
                       u_id (tl_user x) <> th_user_id th
  end.
Proof.
  unfold get_therapists. rewrite in_map_iff. split.
  - intros ([u oth] & <- & Hin). simpl.
    apply filter_In in Hin. destruct Hin as [Hin Hc]. simpl in Hc.
    rewrite andb_true_iff, role_eqb_eq in Hc.
    apply left_join_In in Hin. destruct Hin as [Hu Hoth].
    repeat split; try tauto.
    destruct oth as [th |].
    + rewrite Z.eqb_eq in Hoth. exact Hoth.
    + intros th Hth. apply Z.eqb_neq. apply Hoth. exact Hth.
  - intros (Hu & Hr & Ha & Hoth). exists (tl_user x, tl_profile x).
    split; [destruct x; reflexivity |].
    apply filter_In. simpl. rewrite Hr, Ha. split; [| reflexivity].
    apply left_join_In. split; [exact Hu |].
    destruct (tl_profile x) as [th |].
    + rewrite Z.eqb_eq. exact Hoth.
    + intros th Hth. apply Z.eqb_neq. apply Hoth. exact Hth.
Qed.

Lemma flat_map_if {A B} (P : A -> bool) (f : A -> B) (l : list A) :
  flat_map (fun x => if P x then [f x] else []) l = map f (filter P l).
Proof.
  induction l as [| x l IH]; simpl; [reflexivity |].
  destruct (P x); simpl; rewrite IH; reflexivity.
Qed.

Lemma filter_key_one {A} (key : A -> Z) (l : list A) (x : A) :
  NoDup (map key l) -> In x l ->
  filter (fun y => key y =? key x) l = [x].
Proof.
  induction l as [| y l IH]; simpl; intros Hnd Hin; [destruct Hin |].
  inversion Hnd as [| ? ? Hnotin Hnd']; subst.
  destruct Hin as [-> | Hin].
  - rewrite Z.eqb_refl. f_equal. apply filter_nil.
    intros z Hz. apply Z.eqb_neq. intros Heq. apply Hnotin.
    rewrite <- Heq. apply in_map. exact Hz.
  - destruct (Z.eqb_spec (key y) (key x)) as [Heq | Hne];
      [| apply IH; assumption].
    exfalso. apply Hnotin. rewrite Heq. apply in_map. exact Hin.
Qed.

(** With the keys of the schema, the rate the cost trigger reads for a
    listed therapist is the rate of the profile listed with them. *)
Lemma select_hourly_rate_listed db x :
  NoDup (map u_id (users db)) ->
  unique_therapist_user db ->
  In x (get_therapists db) ->
  select_hourly_rate db (u_id (tl_user x)) =
    match tl_profile x with
    | Some th => [th_hourly_rate th]
    | None => []
    end.
Proof.
  intros Hu Hth Hin. apply get_therapists_In in Hin.
  destruct Hin as (Huser & _ & _ & Hprofile).
  set (id := u_id (tl_user x)) in *.
  unfold select_hourly_rate.
  assert (forall t,
            flat_map (fun u => if (th_user_id t =? u_id u) && (u_id u =? id)
                               then [th_hourly_rate t] else []) (users db)
            = if th_user_id t =? id then [th_hourly_rate t] else []) as Hinner.
  { intros t.
    rewrite (flat_map_ext _
               (fun u => if (u_id u =? id) && (th_user_id t =? id)
                         then [th_hourly_rate t] else [])).
    - rewrite (flat_map_if (fun u => (u_id u =? id) && (th_user_id t =? id))
                 (fun _ => th_hourly_rate t)).
      destruct (th_user_id t =? id).
      + rewrite (filter_ext _ (fun u => u_id u =? u_id (tl_user x)))
          by (intros u; apply andb_true_r).
        rewrite (filter_key_one u_id (users db) (tl_user x) Hu Huser).
        reflexivity.
      + rewrite filter_nil; [reflexivity |]. intros u _. apply andb_false_r.
    - intros u.
      destruct (Z.eqb_spec (th_user_id t) (u_id u)),
               (Z.eqb_spec (u_id u) id), (Z.eqb_spec (th_user_id t) id);
        simpl; try reflexivity; congruence. }
  rewrite (flat_map_ext _ _ Hinner).
  rewrite (flat_map_if (fun t => th_user_id t =? id) th_hourly_rate).
  destruct (tl_profile x) as [th |].
  - destruct Hprofile as [Hthin Hid].
    rewrite (filter_ext _ (fun t => th_user_id t =? th_user_id th))
      by (intros t; rewrite <- Hid; reflexivity).
    rewrite (filter_key_one th_user_id (therapists db) th Hth Hthin).
    reflexivity.
  - rewrite filter_nil; [reflexivity |].
    intros t Ht. apply Z.eqb_neq. intros Heq.
    apply (Hprofile t Ht). symmetry. exact Heq.
Qed.

(** X15.  The users [GET /api/therapists] lists are exactly the ones a
    booking accepts as therapist: a validated booking is answered 404
    "Therapist not found" exactly when the id it names is the id of
    none of them.  And, with the keys of the schema, a booking of a
    listed therapist that is answered 201 costs the hourly rate listed
    with them, and [NULL] when they are listed without a profile. *)
Theorem listed_therapists_are_bookable (db : Db) (user : jwt_user)
  (therapist_id : Z) (d : date) (t : time) (service_type : string)
  (notes : json_member) (address : string) :
  let x := run (create_appointment user therapist_id d t service_type notes
                  address) db in
  (code (answer x) = 404 <->
   ~ exists l, In l (get_therapists db) /\ u_id (tl_user l) = therapist_id) /\
  (NoDup (map u_id (users db)) ->
   unique_therapist_user db ->
   code (answer x) = 201 ->
   forall l, In l (get_therapists db) -> u_id (tl_user l) = therapist_id ->
   exists NEW,
     appointments (database x) = appointments db ++ [NEW] /\
     a_total_cost NEW = option_map th_hourly_rate (tl_profile l)).
Proof.
  intros x. subst x. split.
  - pose proof (run_create_appointment user therapist_id d t service_type
                  notes address db) as Hrun.
    cbv zeta in Hrun.
    assert ((exists l, In l (get_therapists db) /\
                       u_id (tl_user l) = therapist_id) <->
            select_therapist db therapist_id <> []) as Hlisted.
    { split.
      - intros (l & Hin & Hid) Hnil.
        apply get_therapists_In in Hin. destruct Hin as (Hu & Hr & Ha & _).
        apply select_therapist_empty in Hnil. apply Hnil.
        exists (tl_user l). auto.
      - intros Hne. apply select_therapist_nonempty in Hne.
        destruct Hne as (u & Hu & Hid & Hr & Ha).
        destruct (filter (fun th => u_id u =? th_user_id th) (therapists db))
          as [| th m] eqn:Hf.
        + exists {| tl_user := u; tl_profile := None |}.
          split; [| exact Hid]. apply get_therapists_In. simpl.
          repeat split; try assumption.
          intros th Hth Heq.
          assert (In th (filter (fun th => u_id u =? th_user_id th)
                           (therapists db))) as H
            by (apply filter_In; split; [exact Hth | lia]).
          rewrite Hf in H. destruct H.
        + assert (In th (filter (fun th => u_id u =? th_user_id th)
                           (therapists db))) as H
            by (rewrite Hf; left; reflexivity).
          apply filter_In in H. destruct H as [Hth Heq].
          exists {| tl_user := u; tl_profile := Some th |}.
          split; [| exact Hid]. apply get_therapists_In. simpl.
          repeat split; try assumption. lia. }
    rewrite Hlisted.
    destruct Hrun as [(Ht & Hc & _) | [(Ht & _ & Ha & _) |
                      [(Ht & _ & _ & Ha & _) | (Ht & _ & r & _ & Ha & _)]]];
      try rewrite Ha; try rewrite Hc; simpl; split; intros H;
      try discriminate H; try reflexivity; try contradiction;
      try (intros Hne; contradiction).
  - intros Hu Hth Hcode l Hin Hid.
    destruct (create_appointment_cost db user therapist_id d t service_type
                notes address Hcode) as (NEW & Hrows & _ & Hrate & Hnone).
    exists NEW. split; [exact Hrows |].
    pose proof (select_hourly_rate_listed db l Hu Hth Hin) as Hsel.
    rewrite Hid in Hsel.
    destruct (tl_profile l) as [th |]; simpl; auto.
Qed.

(** ** Registration and login *)

Lemma select_by_email_nil L email t :
  (0 <? List.length (select_by_email L email t))%nat = false <->
  forall a, In a (accounts t) -> email_eq L (acc_email a) email = false.
Proof.
  unfold select_by_email. split.
  - intros Hlen a Hin.
    destruct (email_eq L (acc_email a) email) eqn:He; [| reflexivity].
    assert (In a (filter (fun a => email_eq L (acc_email a) email)
                    (accounts t))) as H
      by (apply filter_In; split; assumption).
    destruct (filter _ (accounts t)); [destruct H | discriminate Hlen].
  - intros H. rewrite filter_nil by exact H. reflexivity.
Qed.

Lemma insert_into_users_Some L email password first_name last_name phone r t x :
  insert_into_users L email password first_name last_name phone r t = Some x ->
  x = (users_auto_increment t,
       {| accounts :=
            accounts t ++
            [{| acc_id := users_auto_increment t; acc_email := email;
                acc_password := password; acc_first_name := first_name;
                acc_last_name := last_name; acc_phone := phone;
                acc_role := r; acc_is_active := true |}];
          users_auto_increment := users_auto_increment t + 1 |}).
Proof.
  unfold insert_into_users.
  destruct (_ && _); [| discriminate]. intros [= <-]. reflexivity.
Qed.

(** X16.  On texts with no character beyond U+00FF:
    [POST /api/auth/register] is open to anyone and gives the new
    account the role its body names, "admin" included.  When it
    answers 201, one account was added: active, with the next id, the
    normalized email, the names without the white space around them
    (as JavaScript has it, the no-break space included), the role of
    the body, and the hash of the password, not the password; no
    account had that email before.  With any other answer the table is as it was, and the
    answer is 409 whenever the validators pass and an account with
    that email exists. *)
Theorem register_outcomes (L : libraries) (salt : string) (now : Z)
  (b : register_body) (t : accounts_table) :
  (forall message token user,
     fst (register L salt now b t) = auth_token 201 message token user ->
     exists r,
       role_of_string (rb_role b) = Some r /\
       (rb_role b = "admin"%string -> r = admin) /\
       (forall a, In a (accounts t) ->
                  email_eq L (acc_email a) (normalizeEmail L (rb_email b))
                  = false) /\
       snd (register L salt now b t) =
         {| accounts :=
              accounts t ++
              [{| acc_id := users_auto_increment t;
                  acc_email := normalizeEmail L (rb_email b);
                  acc_password := bcrypt_hash L salt (rb_password b);
                  acc_first_name := trim (rb_first_name b);
                  acc_last_name := trim (rb_last_name b);
                  acc_phone := rb_phone b;
                  acc_role := r; acc_is_active := true |}];
            users_auto_increment := users_auto_increment t + 1 |} /\
       pu_id user = users_auto_increment t /\ pu_role user = r) /\
  ((forall message token user,
      fst (register L salt now b t) <> auth_token 201 message token user) ->
   snd (register L salt now b t) = t) /\
  (fst (register L salt now b t) <> auth_validation_failed ->
   (exists a, In a (accounts t) /\
              email_eq L (acc_email a) (normalizeEmail L (rb_email b))
              = true) ->
   register L salt now b t = (auth_error 409 "User already exists", t)).
Proof.
  unfold register.
  destruct (role_of_string (rb_role b)) as [r |] eqn:Hrole;
    [| simpl; repeat split; intros; try discriminate; congruence].
  destruct (_ && isMobilePhone L (rb_phone b));
    [| simpl; repeat split; intros; try discriminate; congruence].
  cbv zeta.
  destruct (0 <? List.length
                   (select_by_email L (normalizeEmail L (rb_email b)) t))%nat
    eqn:Hsel.
  { simpl. repeat split; intros; try discriminate; congruence. }
  pose proof (proj1 (select_by_email_nil _ _ _) Hsel) as Hnone.
  destruct (insert_into_users _ _ _ _ _ _ _ _) as [[insertId t'] |] eqn:Hins.
  - apply insert_into_users_Some in Hins. injection Hins as -> ->.
    simpl. split; [| split].
    + intros message token user [= <- <- <-]. exists r.
      split; [reflexivity |]. split.
      * intros Hadmin. rewrite Hadmin in Hrole. vm_compute in Hrole.
        congruence.
      * repeat split. exact Hnone.
    + intros H. exfalso. eapply H. reflexivity.
    + intros _ (a & Hin & He). rewrite (Hnone a Hin) in He. discriminate He.
  - simpl. split; [discriminate |]. split; [reflexivity |].
    intros _ (a & Hin & He). rewrite (Hnone a Hin) in He. discriminate He.
Qed.

(** X17.  An account that has just been registered can log in: when the
    hash [bcrypt] made of a password compares equal to that password
    and the normalized email equals itself under the collation, a
    login with the email and the password of a registration answered
    201 is answered 200, for the same user, with a token signed for
    the same claims. *)
Theorem register_then_login (L : libraries) (salt : string) (now now' : Z)
  (b : register_body) (t : accounts_table) (message token : string)
  (user : public_user) :
  bcrypt_compare L (rb_password b) (bcrypt_hash L salt (rb_password b))
    = true ->
  email_eq L (normalizeEmail L (rb_email b)) (normalizeEmail L (rb_email b))
    = true ->
  fst (register L salt now b t) = auth_token 201 message token user ->
  exists claims,
    token = jwt_sign L now claims /\
    tc_userId claims = pu_id user /\ tc_role claims = pu_role user /\
    login L now' {| lb_email := rb_email b; lb_password := rb_password b |}
      (snd (register L salt now b t))
    = auth_token 200 "Login successful" (jwt_sign L now' claims) user.
Proof.
  intros Hcompare Hrefl. unfold register.
  destruct (role_of_string (rb_role b)) as [r |]; [| discriminate].
  destruct (isEmail L (rb_email b)) eqn:Hemail; [| discriminate].
  destruct (isLength_min 6 (rb_password b)) eqn:Hpw; [| discriminate].
  destruct (_ && isMobilePhone L (rb_phone b)); [| discriminate].
  cbv zeta.
  destruct (0 <? List.length
                   (select_by_email L (normalizeEmail L (rb_email b)) t))%nat
    eqn:Hsel; [discriminate |].
  pose proof (proj1 (select_by_email_nil _ _ _) Hsel) as Hnone.
  destruct (insert_into_users _ _ _ _ _ _ _ _) as [[insertId t'] |] eqn:Hins;
    [| discriminate].
  apply insert_into_users_Some in Hins. injection Hins as -> ->.
  simpl. intros [= <- <- <-].
  eexists. split; [reflexivity |]. split; [reflexivity |].
  split; [reflexivity |].
  unfold login. simpl. rewrite Hemail.
  assert (notEmpty (rb_password b) = true) as ->.
  { unfold isLength_min in Hpw. destruct (rb_password b);
      [discriminate Hpw | reflexivity]. }
  simpl. unfold select_by_email. simpl.
  rewrite filter_app, (filter_nil _ (accounts t)) by exact Hnone.
  simpl. rewrite Hrefl. simpl. rewrite Hcompare. reflexivity.
Qed.

Lemma register_then_login_witness :
  let b := {| rb_email := "dewi@example.com"; rb_password := "rahasia1";
              rb_first_name := " Dewi "; rb_last_name := "Lestari";
              rb_phone := "+6281234567899"; rb_role := "admin" |} in
  let t := {| accounts := []; users_auto_increment := 9 |} in
  let user := {| pu_id := 9; pu_email := "dewi@example.com";
                 pu_firstName := "Dewi"; pu_lastName := "Lestari";
                 pu_phone := "+6281234567899"; pu_role := admin |} in
  fst (register toy_libraries "$2a$12$" 0 b t)
    = auth_token 201 "User registered successfully" "dewi@example.com" user /\
  exists token',
    login toy_libraries 60 {| lb_email := "dewi@example.com";
                              lb_password := "rahasia1" |}
      (snd (register toy_libraries "$2a$12$" 0 b t))
    = auth_token 200 "Login successful" token' user.
Proof.
  intros b t user.
  assert (fst (register toy_libraries "$2a$12$" 0 b t)
          = auth_token 201 "User registered successfully" "dewi@example.com"
              user) as Hreg by (vm_compute; reflexivity).
  split; [exact Hreg |].
  destruct (register_then_login toy_libraries "$2a$12$" 0 60 b t
              "User registered successfully" "dewi@example.com" user
              eq_refl eq_refl Hreg) as (claims & _ & _ & _ & Hlogin).
  eexists. exact Hlogin.
Defined.

Lemma select_by_email_deactivated L email t :
  select_by_email L email
    {| accounts := map deactivated (accounts t);
       users_auto_increment := users_auto_increment t |}
  = map deactivated (select_by_email L email t).
Proof.
  unfold select_by_email. simpl.
  induction (accounts t) as [| a l IH]; simpl; [reflexivity |].
  destruct (email_eq L (acc_email a) email); simpl; rewrite IH; reflexivity.
Qed.

(** X18.  [POST /api/auth/login] never looks at [is_active]: with every
    account deactivated it answers as before.  And an unknown email
    and a wrong password get one and the same answer, 401 "Invalid
    credentials". *)
Theorem login_ignores_is_active (L : libraries) (now : Z) (b : login_body)
  (t : accounts_table) :
  login L now b {| accounts := map deactivated (accounts t);
                   users_auto_increment := users_auto_increment t |}
    = login L now b t /\
  (isEmail L (lb_email b) && notEmpty (lb_password b) = true ->
   (select_by_email L (normalizeEmail L (lb_email b)) t = [] \/
    exists user rest,
      select_by_email L (normalizeEmail L (lb_email b)) t = user :: rest /\
      bcrypt_compare L (lb_password b) (acc_password user) = false) ->
   login L now b t = auth_error 401 "Invalid credentials").
Proof.
  split.
  - unfold login. rewrite select_by_email_deactivated.
    destruct (_ && _); [| reflexivity].
    destruct (select_by_email L (normalizeEmail L (lb_email b)) t)
      as [| user rest]; reflexivity.
  - intros Hvalid H. unfold login. rewrite Hvalid.
    destruct H as [-> | (user & rest & -> & Hwrong)]; [reflexivity |].
    rewrite Hwrong. reflexivity.
Qed.

(** ** A body without notes *)

(** X19.  A booking whose body has no [notes] member never creates an
    appointment: mysql2 refuses the undefined parameter of the INSERT.
    The request is answered 404 or 409 as any other; with an active
    therapist and a free slot it is answered 500 "Internal server
    error" after the two SELECTs, and in every case the database stays
    as it was. *)
Theorem booking_without_notes (db : Db) (user : jwt_user) (therapist_id : Z)
  (d : date) (t : time) (service_type address : string) :
  let x := run (create_appointment user therapist_id d t service_type absent
                  address) db in
  code (answer x) <> 201 /\
  database x = db /\
  ((exists u, In u (users db) /\ u_id u = therapist_id /\
              u_role u = therapist /\ u_is_active u = true) ->
   (forall a, In a (appointments db) -> a_therapist_id a = therapist_id ->
              a_appointment_date a = d -> a_appointment_time a = t ->
              ~ holds_slot a) ->
   x = (internal_server_error, db, 2%nat)).
Proof.
  intros x. subst x.
  unfold create_appointment, check_conflicts, insert_appointment,
    bind_parameter, try_await, answer, database.
  simpl.
  destruct (select_therapist db therapist_id) as [| u us] eqn:Ht; simpl.
  - split; [discriminate |]. split; [reflexivity |].
    intros Hex. apply select_therapist_empty in Ht. contradiction.
  - destruct (select_conflicts db therapist_id d t) as [| a l] eqn:Hc; simpl.
    + split; [discriminate |]. split; reflexivity.
    + split; [discriminate |]. split; [reflexivity |].
      intros _ Hfree. exfalso.
      assert (select_conflicts db therapist_id d t <> []) as Hne
        by (rewrite Hc; discriminate).
      apply select_conflicts_nonempty in Hne.
      destruct Hne as (a' & Hin & H1 & H2 & H3 & Hh).
      exact (Hfree a' Hin H1 H2 H3 Hh).
Qed.
